(** * Strategy-evaluation engine: signal fusion, simulator loop and metrics

    A shallow embedding of

      - [indicators/weighted_signals.py]   (class [WeightedSignalGenerator])
      - [backtester/enhanced_backtester.py] (class [EnhancedBacktester])

    Numbers.  Python and numpy floats are idealised: a finite value is an
    exact rational ([Q], no rounding, no overflow, no signed zero), and the
    three non-finite values that numpy arithmetic produces (division by
    zero, [float('inf')]) are kept as constructors of [pyfloat], with the
    IEEE rules for them (a comparison with NaN is false, [0/0] is NaN, ...).
    Prices, thresholds and weights that a caller passes in are finite.

    Absent modules.  [indicators/rsi.py], [indicators/wavetrend.py],
    [utils/advanced_risk.py] and the yfinance client are not part of the
    sources at hand; the code that calls them is.  They enter as
    interfaces ([Indicators], [AdvancedRiskManager], [MarketData]). *)

From Stdlib Require Import QArith Qabs Lqa Lia ZArith.
From stdpp Require Import base option list strings gmap.

Local Open Scope Q_scope.

(* ===================================================================== *)
(** ** Floats                                                             *)
(* ===================================================================== *)

(** Comparisons of finite values are decidable (on the cross products). *)
#[export] Instance Qlt_decision : RelDecision Qlt :=
  fun x y => decide (Qnum x * QDen y < Qnum y * QDen x)%Z.
#[export] Instance Qle_decision : RelDecision Qle :=
  fun x y => decide (Qnum x * QDen y <= Qnum y * QDen x)%Z.

Inductive pyfloat : Type :=
  | Fin (q : Q)
  | PosInf
  | NegInf
  | NaN.

Module F.

Definition is_zero (q : Q) : bool := Qeq_bool q 0.
Definition is_pos (q : Q) : bool := negb (Qle_bool q 0).

Definition neg (x : pyfloat) : pyfloat :=
  match x with
  | Fin q => Fin (- q)
  | PosInf => NegInf
  | NegInf => PosInf
  | NaN => NaN
  end.

Definition add (x y : pyfloat) : pyfloat :=
  match x, y with
  | NaN, _ | _, NaN => NaN
  | Fin a, Fin b => Fin (a + b)
  | PosInf, NegInf | NegInf, PosInf => NaN
  | PosInf, _ | _, PosInf => PosInf
  | NegInf, _ | _, NegInf => NegInf
  end.

Definition sub (x y : pyfloat) : pyfloat := add x (neg y).

(** Sign of a product with an infinite factor; [0 * inf] is NaN. *)
Definition inf_of_sign (positive : bool) : pyfloat :=
  if positive then PosInf else NegInf.

Definition mul_inf (q : Q) (positive : bool) : pyfloat :=
  if is_zero q then NaN
  else inf_of_sign (Bool.eqb (is_pos q) positive).

Definition mul (x y : pyfloat) : pyfloat :=
  match x, y with
  | NaN, _ | _, NaN => NaN
  | Fin a, Fin b => Fin (a * b)
  | Fin a, PosInf | PosInf, Fin a => mul_inf a true
  | Fin a, NegInf | NegInf, Fin a => mul_inf a false
  | PosInf, PosInf | NegInf, NegInf => PosInf
  | PosInf, NegInf | NegInf, PosInf => NegInf
  end.

(** numpy's true division: no exception, [x/0] is an infinity of the sign
    of [x] and [0/0] is NaN. *)
Definition div (x y : pyfloat) : pyfloat :=
  match x, y with
  | NaN, _ | _, NaN => NaN
  | Fin a, Fin b =>
      if is_zero b then
        (if is_zero a then NaN else inf_of_sign (is_pos a))
      else Fin (a / b)
  | Fin _, (PosInf | NegInf) => Fin 0
  | PosInf, Fin b => inf_of_sign (is_pos b || is_zero b)
  | NegInf, Fin b => inf_of_sign (negb (is_pos b || is_zero b))
  | (PosInf | NegInf), (PosInf | NegInf) => NaN
  end.

Definition ltb (x y : pyfloat) : bool :=
  match x, y with
  | NaN, _ | _, NaN => false
  | Fin a, Fin b => negb (Qle_bool b a)
  | NegInf, (Fin _ | PosInf) => true
  | Fin _, PosInf => true
  | _, _ => false
  end.

Definition leb (x y : pyfloat) : bool :=
  match x, y with
  | NaN, _ | _, NaN => false
  | Fin a, Fin b => Qle_bool a b
  | NegInf, _ => true
  | _, PosInf => true
  | _, _ => false
  end.

Definition gtb (x y : pyfloat) : bool := ltb y x.
Definition geb (x y : pyfloat) : bool := leb y x.

(** [np.maximum] / [np.minimum]: NaN wins. *)
Definition maximum (x y : pyfloat) : pyfloat :=
  match x, y with
  | NaN, _ | _, NaN => NaN
  | _, _ => if leb x y then y else x
  end.

Definition minimum (x y : pyfloat) : pyfloat :=
  match x, y with
  | NaN, _ | _, NaN => NaN
  | _, _ => if leb x y then x else y
  end.

(** [np.clip(x, lo, hi)] *)
Definition clip (x lo hi : pyfloat) : pyfloat := minimum (maximum x lo) hi.

(** The value is a number between [lo] and [hi]. *)
Definition within (lo hi : Q) (x : pyfloat) : Prop :=
  match x with
  | Fin q => lo <= q /\ q <= hi
  | _ => False
  end.

Definition is_nan (x : pyfloat) : bool :=
  match x with NaN => true | _ => false end.

Definition is_finite (x : pyfloat) : bool :=
  match x with Fin _ => true | _ => false end.

(** Equality of floats as numbers ([1#2] and [2#4] are the same float). *)
Definition eq (x y : pyfloat) : Prop :=
  match x, y with
  | Fin a, Fin b => a == b
  | PosInf, PosInf | NegInf, NegInf | NaN, NaN => True
  | _, _ => False
  end.

End F.

Declare Scope pyfloat_scope.
Delimit Scope pyfloat_scope with F.
Bind Scope pyfloat_scope with pyfloat.
Infix "+" := F.add : pyfloat_scope.
Infix "-" := F.sub : pyfloat_scope.
Infix "*" := F.mul : pyfloat_scope.
Infix "/" := F.div : pyfloat_scope.
Notation "- x" := (F.neg x) : pyfloat_scope.
Infix "<?" := F.ltb : pyfloat_scope.
Infix "<=?" := F.leb : pyfloat_scope.
Infix ">?" := F.gtb : pyfloat_scope.
Infix ">=?" := F.geb : pyfloat_scope.
Infix "=F" := F.eq (at level 70) : type_scope.

(* ===================================================================== *)
(** ** Exceptions                                                         *)
(* ===================================================================== *)

Inductive exn : Type :=
  | ValueError (msg : string)
  | KeyError (key : string).

Inductive result (A : Type) : Type :=
  | Ok (a : A)
  | Raise (e : exn).
Arguments Ok {A} a.
Arguments Raise {A} e.

#[export] Instance result_ret : MRet result := fun _ a => Ok a.
#[export] Instance result_bind : MBind result := fun _ _ k r =>
  match r with
  | Ok a => k a
  | Raise e => Raise e
  end.

(* ===================================================================== *)
(** ** Data frames and series                                             *)
(* ===================================================================== *)

(** A bar's timestamp: calendar date (day number) and time within the day;
    [.date()] is the first projection. *)
Record Timestamp : Type := { ts_date : Z; ts_time : Z }.

(** A frame of price columns over a [RangeIndex] of [index] rows; the
    [timestamp] column is kept apart because it is not numeric. *)
Record DataFrame : Type := {
  index : nat;
  columns : gmap string (list Q);
  timestamp : list Timestamp
}.

(** Every column of a pandas frame has one value per row. *)
Definition df_wf (df : DataFrame) : Prop :=
  length (timestamp df) = index df /\
  forall (k : string) (s : list Q), columns df !! k = Some s -> length s = index df.

(** [df[name]] *)
Definition getitem (df : DataFrame) (name : string) : result (list Q) :=
  match columns df !! name with
  | Some s => Ok s
  | None => Raise (KeyError name)
  end.

(** [pd.Series(values, index=df.index)] for an array of values. *)
Definition series_with_index {A} (df : DataFrame) (values : list A) : result (list A) :=
  if (length values =? index df)%nat then Ok values
  else Raise (ValueError "Length of values does not match length of index").

Fixpoint zip_with3 {A B C D} (f : A -> B -> C -> D)
    (xs : list A) (ys : list B) (zs : list C) : list D :=
  match xs, ys, zs with
  | x :: xs', y :: ys', z :: zs' => f x y z :: zip_with3 f xs' ys' zs'
  | _, _, _ => []
  end.

(** [sum(xs)] of Python: a left fold from 0. *)
Definition sum (xs : list Q) : Q := fold_left Qplus xs 0.

Definition mean (xs : list Q) : Q := sum xs / inject_Z (Z.of_nat (length xs)).

(** [s.rolling(window=w, min_periods=1).mean()]: at row [i] the mean of the
    last [w] values up to and including row [i] (fewer at the start). *)
Definition rolling_window (w : nat) (s : list Q) (i : nat) : list Q :=
  drop (S i - w) (take (S i) s).

Definition rolling_mean (w : nat) (s : list Q) : list Q :=
  (fun i => mean (rolling_window w s i)) <$> seq 0 (length s).

(** [s.rolling(window=w, min_periods=1)] refuses a window below 1. *)
Definition rolling (w : Z) (s : list Q) : result (list Q) :=
  if (w <? 0)%Z then Raise (ValueError "window must be an integer 0 or greater")
  else if (w =? 0)%Z then Raise (ValueError "min_periods 1 must be <= window 0")
  else Ok (rolling_mean (Z.to_nat w) s).

(* ===================================================================== *)
(** ** indicators/weighted_signals.py                                     *)
(* ===================================================================== *)

(** The two indicator modules the generator imports. [rsi close length]
    is the RSI series; [wavetrend hlc3 channel average] is the frame of
    the [wt1] and [wt2] columns, one pair per row. *)
Class Indicators : Type := {
  rsi : list Q -> Z -> list pyfloat;
  wavetrend : list Q -> Z -> Z -> list (pyfloat * pyfloat)
}.

Record WeightedSignalGenerator : Type := {
  rsi_weight : Q;
  wavetrend_weight : Q;
  buy_sell_weight : Q
}.

(** The dictionary [generate_weighted_signal] returns. *)
Record Signals : Type := {
  rsi_signal : list pyfloat;
  wavetrend_signal : list pyfloat;
  buy_sell_signal : list pyfloat;
  weighted_signal : list pyfloat;
  final_long : list bool;
  final_short : list bool
}.

Module WeightedSignalGenerator.

(** [__init__].  The text of the error is cut short: the source appends the
    offending total to it. *)
Definition weights_error (total_weight : Q) : exn :=
  ValueError "Weights must sum to 1.0".

Definition init (rsi_weight wavetrend_weight buy_sell_weight : Q)
    : result WeightedSignalGenerator :=
  let self := {| rsi_weight := rsi_weight;
                 wavetrend_weight := wavetrend_weight;
                 buy_sell_weight := buy_sell_weight |} in
  let total_weight := rsi_weight + wavetrend_weight + buy_sell_weight in
  if (Fin (Qabs (total_weight - 1)) >? Fin 0.001)%F
  then Raise (weights_error total_weight)
  else Ok self.

(** The default arguments of [__init__]. *)
Definition default : result WeightedSignalGenerator := init 0.4 0.4 0.2.

(** One element of the nested [np.where] of [generate_rsi_signal]. *)
Definition rsi_signal_at (oversold overbought : Q) (r : pyfloat) : pyfloat :=
  if (r <=? Fin oversold)%F then Fin 1
  else if (r >=? Fin overbought)%F then Fin (-1)
  else if (r <? Fin 50)%F
       then ((Fin 50 - r) / Fin (50 - oversold))%F
       else ((- (r - Fin 50)) / Fin (overbought - 50))%F.

(** One element of the nested [np.where] of [generate_wavetrend_signal]. *)
Definition wt_signal_at (wt : pyfloat * pyfloat) : pyfloat :=
  let '(wt1, wt2) := wt in
  if (wt1 >? wt2)%F && (wt1 <? Fin (-50))%F then Fin 1
  else if (wt1 <? wt2)%F && (wt1 >? Fin 50)%F then Fin (-1)
  else if (wt1 >? wt2)%F then Fin 0.5
  else Fin (-0.5).

(** One element of the momentum series of [generate_buy_sell_signal]. *)
Definition momentum_at (price sma_short sma_long : Q) : pyfloat :=
  let price_vs_short := (Fin (price - sma_short) / Fin sma_short)%F in
  let price_vs_long := (Fin (price - sma_long) / Fin sma_long)%F in
  let momentum_signal := ((price_vs_short + price_vs_long) / Fin 2)%F in
  F.clip (momentum_signal * Fin 10)%F (Fin (-1)) (Fin 1).

Section Methods.
Context `{Indicators}.
Variable self : WeightedSignalGenerator.

Definition generate_rsi_signal (df : DataFrame)
    (rsi_length : Z) (oversold overbought : Q) : result (list pyfloat) :=
  close ← getitem df "close";
  let rsi_values := rsi close rsi_length in
  series_with_index df (rsi_signal_at oversold overbought <$> rsi_values).

Definition hlc3 (df : DataFrame) : result (list Q) :=
  match columns df !! "high", columns df !! "low", columns df !! "close" with
  | Some high, Some low, Some close =>
      Ok (zip_with3 (fun h l c => (h + l + c) / 3) high low close)
  | _, _, _ => getitem df "close"
  end.

Definition generate_wavetrend_signal (df : DataFrame)
    (channel_length average_length : Z) : result (list pyfloat) :=
  src ← hlc3 df;
  let wt := wavetrend src channel_length average_length in
  series_with_index df (wt_signal_at <$> wt).

Definition generate_buy_sell_signal (df : DataFrame)
    (price_col : string) (lookback : Z) : result (list pyfloat) :=
  price ← getitem df price_col;
  sma_short ← rolling 5 price;
  sma_long ← rolling lookback price;
  Ok (zip_with3 momentum_at price sma_short sma_long).

Definition weighted_at (rsi_sig wt_sig bs_sig : pyfloat) : pyfloat :=
  (rsi_sig * Fin (rsi_weight self)
   + wt_sig * Fin (wavetrend_weight self)
   + bs_sig * Fin (buy_sell_weight self))%F.

Definition generate_weighted_signal (df : DataFrame)
    (rsi_length : Z) (rsi_oversold rsi_overbought : Q)
    (wt_channel_length wt_average_length momentum_lookback : Z)
    : result Signals :=
  rsi_sig ← generate_rsi_signal df rsi_length rsi_oversold rsi_overbought;
  wt_sig ← generate_wavetrend_signal df wt_channel_length wt_average_length;
  bs_sig ← generate_buy_sell_signal df "close" momentum_lookback;
  let weighted_signal := zip_with3 weighted_at rsi_sig wt_sig bs_sig in
  let final_long := (fun w => (w >? Fin 0.3)%F) <$> weighted_signal in
  let final_short := (fun w => (w <? Fin (-0.3))%F) <$> weighted_signal in
  Ok {| rsi_signal := rsi_sig;
        wavetrend_signal := wt_sig;
        buy_sell_signal := bs_sig;
        weighted_signal := weighted_signal;
        final_long := final_long;
        final_short := final_short |}.

End Methods.

(** [get_signal_strength] *)
Definition get_signal_strength (weighted_signal : pyfloat) : string :=
  if (weighted_signal >=? Fin 0.7)%F then "Very Strong Buy"
  else if (weighted_signal >=? Fin 0.3)%F then "Strong Buy"
  else if (weighted_signal >=? Fin 0.1)%F then "Weak Buy"
  else if (weighted_signal <=? Fin (-0.7))%F then "Very Strong Sell"
  else if (weighted_signal <=? Fin (-0.3))%F then "Strong Sell"
  else if (weighted_signal <=? Fin (-0.1))%F then "Weak Sell"
  else "Neutral".

End WeightedSignalGenerator.

(* ===================================================================== *)
(** ** Sample inputs                                                      *)
(* ===================================================================== *)

(** A stand-in for the two indicator modules, used to run the generator on
    concrete frames: a neutral RSI of 50 and a flat WaveTrend pair on every
    row. *)
Definition flat_indicators : Indicators := {|
  rsi := fun close _ => (fun _ => Fin 50) <$> close;
  wavetrend := fun src _ _ => (fun _ => (Fin 0, Fin 0)) <$> src
|}.

(** Indicators that follow the price: RSI is the close itself and the
    WaveTrend pair is (price - 100, 0). *)
Definition price_indicators : Indicators := {|
  rsi := fun close _ => Fin <$> close;
  wavetrend := fun src _ _ => (fun p => (Fin (p - 100), Fin 0)) <$> src
|}.

Definition frame_of_closes (closes : list Q) : DataFrame := {|
  index := length closes;
  columns := {[ "close" := closes ]};
  timestamp := (fun i => {| ts_date := Z.of_nat i; ts_time := 0 |}) <$> seq 0 (length closes)
|}.

Definition two_bar_frame : DataFrame := frame_of_closes [1; 2].
Definition rsi_frame : DataFrame := frame_of_closes [20; 40; 60; 80].

(** The generator of the default weights run on four bars whose RSI, under
    [price_indicators], is 20, 40, 60 and 80. *)
Definition sample_run : result Signals :=
  @WeightedSignalGenerator.generate_weighted_signal price_indicators
    {| rsi_weight := 0.4; wavetrend_weight := 0.4; buy_sell_weight := 0.2 |}
    rsi_frame 14 30 70 10 21 20.

Definition sample_signals : Signals :=
  match sample_run with
  | Ok sigs => sigs
  | Raise _ => {| rsi_signal := []; wavetrend_signal := []; buy_sell_signal := [];
                  weighted_signal := []; final_long := []; final_short := [] |}
  end.

(* ===================================================================== *)
(** ** utils/advanced_risk.py: the interface the simulator calls          *)
(* ===================================================================== *)

(** The dictionaries the risk manager hands out.  The simulator reads
    [position['id']], ['symbol'], ['side'], ['entry_price'], ['quantity'],
    tests ['pnl' in trade], reads [trade['pnl']] and
    [summary['current_capital']]; everything else in them is opaque. *)
Class RiskData : Type := {
  PosId : Type;
  Trade : Type;
  Summary : Type;
  trade_pnl : Trade -> option Q;
  current_capital : Summary -> Q
}.

Record Position `{RiskData} : Type := {
  pos_id : PosId;
  pos_symbol : string;
  pos_side : string;
  pos_entry_price : Q;
  pos_quantity : Q
}.

(** [update_position] returns [{'status': ..., 'trade': ...}]; the trade
    key may be missing. *)
Record UpdateResult `{RiskData} : Type := {
  status : string;
  trade : option Trade
}.

(** Methods of [AdvancedRiskManager] over the state [RM] of one instance;
    every method may change that state. *)
Class AdvancedRiskManager `{RiskData} (RM : Type) : Type := {
  new_manager : Q -> Q -> Q -> RM;
  positions : RM -> list Position;
  update_position : RM -> PosId -> Q -> RM * UpdateResult;
  is_daily_breaker_triggered : RM -> RM * bool;
  open_position : RM -> string -> string -> Q -> Q -> Q -> Q -> Q -> RM * option Position;
  get_portfolio_summary : RM -> RM * Summary;
  reset_daily_tracking : RM -> RM
}.

(* ===================================================================== *)
(** ** backtester/enhanced_backtester.py                                  *)
(* ===================================================================== *)

(** [yf.Ticker(symbol).history(start, end, interval, ...)] followed by the
    column clean-up of [_fetch_yfinance_data]; only the interval depends on
    the requested timeframe. *)
Class MarketData : Type := {
  yfinance_history : string -> string -> string -> string -> result DataFrame
}.

(** One row of the frame [_simulate_trading] iterates over.  A signal
    column that the frame does not have reads as [None]. *)
Record Row : Type := {
  row_close : Q;
  row_timestamp : Timestamp;
  row_final_long : option bool;
  row_final_short : option bool
}.

(** An entry of the [trades] list: the record the simulator writes when a
    position opens, or the trade dictionary of a closing update. *)
Inductive LedgerEntry `{RiskData} : Type :=
  | OpenRecord (position_id : PosId) (symbol side : string)
               (entry_price quantity : Q) (ts : Timestamp)
  | ClosedTrade (t : Trade).

Record DailySummary `{RiskData} : Type := {
  ds_summary : Summary;
  ds_date : Z
}.

(** What one run of [_simulate_trading] returns. *)
Record SimResults `{RiskData} : Type := {
  res_trades : list LedgerEntry;
  res_daily_summaries : list DailySummary;
  res_risk_summary : Summary
}.

(** Calls the simulator makes on the risk manager, in order. *)
Inductive Event `{RiskData} : Type :=
  | GetSummary
  | ResetDaily
  | UpdatePosition (id : PosId) (price : Q)
  | BreakerChecked (triggered : bool)
  | OpenPosition (side : string) (entry_price stop_loss_price : Q).

(** What happened on one bar: the calls made and the ledger entries
    appended. *)
Record BarLog `{RiskData} : Type := {
  bar_events : list Event;
  bar_trades : list LedgerEntry
}.

Module EnhancedBacktester.

Definition supported_timeframes : list string :=
  [ "1m"; "2m"; "3m"; "5m"; "10m"; "15m"; "20m"; "30m";
    "1h"; "2h"; "3h"; "4h"; "6h"; "8h"; "12h";
    "1d"; "2d"; "3d"; "5d";
    "1w"; "2w"; "3w";
    "1M"; "2M"; "3M"; "6M";
    "1y"; "2y"; "5y" ].

Definition crypto_exchanges : list string := ["binance"; "bybit"; "mexc"; "coinbase"].
Definition stock_sources : list string := ["alpaca"; "yfinance"].

Definition timeframe_map : gmap string string :=
  list_to_map
    [ ("1m", "1m"); ("2m", "2m"); ("5m", "5m"); ("15m", "15m"); ("30m", "30m");
      ("1h", "1h"); ("2h", "2h"); ("4h", "4h"); ("6h", "6h"); ("12h", "12h");
      ("1d", "1d"); ("5d", "5d"); ("1w", "1wk"); ("1M", "1mo"); ("3M", "3mo");
      ("6M", "6mo"); ("1y", "1y"); ("2y", "2y"); ("5y", "5y") ].

(** [timeframe_map.get(timeframe, '1d')] *)
Definition _convert_timeframe_to_yfinance (timeframe : string) : string :=
  default "1d" (timeframe_map !! timeframe).

(** [timeframe in self.supported_timeframes] *)
Definition validate_timeframe (timeframe : string) : bool :=
  bool_decide (timeframe ∈ supported_timeframes).

(** [symbol.endswith(suffix)] *)
Definition endswith (s suffix : string) : bool :=
  String.prefix (String.rev suffix) (String.rev s).

(** [symbol.isalpha()] on ASCII symbols. *)
Definition isalpha (s : string) : bool :=
  negb (String.eqb s "") &&
  forallb (fun c => let n := Ascii.nat_of_ascii c in
                    ((65 <=? n) && (n <=? 90) || (97 <=? n) && (n <=? 122))%nat)
          (String.list_ascii_of_string s).

Definition _detect_data_source (symbol : string) : string :=
  let crypto_suffixes := ["USDT"; "USD"; "BTC"; "ETH"; "BNB"; "ADA"; "SOL"] in
  if existsb (endswith symbol) crypto_suffixes then "yfinance"
  else if (String.length symbol <=? 5)%nat && isalpha symbol then "yfinance"
  else "yfinance".

(** [df.empty] *)
Definition df_empty (df : DataFrame) : bool := (index df =? 0)%nat.

Section DataSources.
Context `{MarketData}.

(** Any failure inside the [try] block, and an empty frame, come out as
    a [ValueError]. *)
Definition _fetch_yfinance_data (symbol timeframe start_date end_date : string)
    : result DataFrame :=
  let yf_interval := _convert_timeframe_to_yfinance timeframe in
  match yfinance_history symbol start_date end_date yf_interval with
  | Ok df =>
      if df_empty df then Raise (ValueError "Failed to fetch yfinance data")
      else Ok df
  | Raise _ => Raise (ValueError "Failed to fetch yfinance data")
  end.

Definition _fetch_alpaca_data (symbol timeframe start_date end_date : string)
    : result DataFrame :=
  _fetch_yfinance_data symbol timeframe start_date end_date.

Definition _fetch_crypto_data (symbol timeframe start_date end_date exchange : string)
    : result DataFrame :=
  _fetch_yfinance_data symbol timeframe start_date end_date.

Definition fetch_historical_data (symbol timeframe start_date end_date source : string)
    : result DataFrame :=
  let source := if String.eqb source "auto" then _detect_data_source symbol else source in
  if String.eqb source "yfinance" then
    _fetch_yfinance_data symbol timeframe start_date end_date
  else if String.eqb source "alpaca" then
    _fetch_alpaca_data symbol timeframe start_date end_date
  else if bool_decide (source ∈ crypto_exchanges) then
    _fetch_crypto_data symbol timeframe start_date end_date source
  else Raise (ValueError "Unsupported data source").

End DataSources.

(* --------------------------------------------------------------- *)
(** *** [_simulate_trading]                                           *)
(* --------------------------------------------------------------- *)

Section Simulation.
Context `{RiskData} {RM : Type} `{!AdvancedRiskManager RM}.

Record SimState : Type := {
  st_manager : RM;
  st_trades : list LedgerEntry;
  st_daily_summaries : list DailySummary;
  st_current_date : option Z
}.

Definition empty_log : BarLog := {| bar_events := []; bar_trades := [] |}.

Definition log_app (a b : BarLog) : BarLog :=
  {| bar_events := bar_events a ++ bar_events b;
     bar_trades := bar_trades a ++ bar_trades b |}.

Definition closing_statuses : list string := ["fully_closed"; "partially_closed"].

(** The "new day" block at the top of the loop body. *)
Definition day_rollover (rm : RM) (summaries : list DailySummary)
    (current_date : option Z) (today : Z)
    : RM * list DailySummary * option Z * BarLog :=
  if bool_decide (current_date = Some today) then
    (rm, summaries, current_date, empty_log)
  else
    match current_date with
    | Some previous =>
        let '(rm, daily_summary) := get_portfolio_summary rm in
        let summaries :=
          summaries ++ [{| ds_summary := daily_summary; ds_date := previous |}] in
        let rm := reset_daily_tracking rm in
        (rm, summaries, Some today,
         {| bar_events := [GetSummary; ResetDaily]; bar_trades := [] |})
    | None => (rm, summaries, Some today, empty_log)
    end.

(** [for position in risk_manager.positions[:]]: the list is copied
    before the loop, the manager changes under it. *)
Fixpoint update_positions (rm : RM) (current_price : Q) (snapshot : list Position)
    : RM * BarLog * option exn :=
  match snapshot with
  | [] => (rm, empty_log, None)
  | position :: rest =>
      let '(rm, update_result) := update_position rm (pos_id position) current_price in
      let call := UpdatePosition (pos_id position) current_price in
      if bool_decide (status update_result ∈ closing_statuses) then
        match trade update_result with
        | Some t =>
            let '(rm, log, err) := update_positions rm current_price rest in
            (rm, log_app {| bar_events := [call]; bar_trades := [ClosedTrade t] |} log, err)
        | None =>
            (rm, {| bar_events := [call]; bar_trades := [] |}, Some (KeyError "trade"))
        end
      else
        let '(rm, log, err) := update_positions rm current_price rest in
        (rm, log_app {| bar_events := [call]; bar_trades := [] |} log, err)
  end.

(** One entry block: [open_position] and, if a position came back, the
    'open' record. *)
Definition open_and_record (rm : RM) (side : string)
    (current_price stop_loss_price : Q) (current_timestamp : Timestamp)
    (tp1_multiplier tp2_multiplier runner_multiplier : Q) : RM * BarLog :=
  let '(rm, position) :=
    open_position rm "SYMBOL" side current_price stop_loss_price
                  tp1_multiplier tp2_multiplier runner_multiplier in
  (rm,
   {| bar_events := [OpenPosition side current_price stop_loss_price];
      bar_trades :=
        match position with
        | Some position =>
            [OpenRecord (pos_id position) (pos_symbol position) (pos_side position)
                        (pos_entry_price position) (pos_quantity position)
                        current_timestamp]
        | None => []
        end |}).

(** ['final_long' in df.columns and bool(row.get('final_long', False))] *)
Definition signal_set (flag : option bool) : bool := default false flag.

(** The block under [if not risk_manager.is_daily_breaker_triggered()]. *)
Definition new_entries (rm : RM) (row : Row)
    (tp1_multiplier tp2_multiplier runner_multiplier : Q) : RM * BarLog :=
  let current_price := row_close row in
  let current_timestamp := row_timestamp row in
  let '(rm, long_log) :=
    if signal_set (row_final_long row) then
      open_and_record rm "buy" current_price (current_price * 0.98) current_timestamp
                      tp1_multiplier tp2_multiplier runner_multiplier
    else (rm, empty_log) in
  let '(rm, short_log) :=
    if signal_set (row_final_short row) then
      open_and_record rm "sell" current_price (current_price * 1.02) current_timestamp
                      tp1_multiplier tp2_multiplier runner_multiplier
    else (rm, empty_log) in
  (rm, log_app long_log short_log).

(** The body of [for idx, row in df.iterrows()]. *)
Definition process_bar (tp1_multiplier tp2_multiplier runner_multiplier : Q)
    (st : SimState) (row : Row) : SimState * BarLog * option exn :=
  let current_price := row_close row in
  let current_timestamp := row_timestamp row in
  let '(rm, summaries, current_date, log0) :=
    day_rollover (st_manager st) (st_daily_summaries st) (st_current_date st)
                 (ts_date current_timestamp) in
  let '(rm, log1, err) := update_positions rm current_price (positions rm) in
  let log := log_app log0 log1 in
  match err with
  | Some e =>
      ({| st_manager := rm; st_trades := st_trades st ++ bar_trades log;
          st_daily_summaries := summaries; st_current_date := current_date |},
       log, Some e)
  | None =>
      let '(rm, triggered) := is_daily_breaker_triggered rm in
      let log := log_app log {| bar_events := [BreakerChecked triggered]; bar_trades := [] |} in
      let '(rm, log2) :=
        if negb triggered
        then new_entries rm row tp1_multiplier tp2_multiplier runner_multiplier
        else (rm, empty_log) in
      let log := log_app log log2 in
      ({| st_manager := rm; st_trades := st_trades st ++ bar_trades log;
          st_daily_summaries := summaries; st_current_date := current_date |},
       log, None)
  end.

(** The loop; an exception stops it.  Besides the state it returns one
    [BarLog] per bar entered. *)
Fixpoint simulate_bars (tp1_multiplier tp2_multiplier runner_multiplier : Q)
    (rows : list Row) (st : SimState) : SimState * list BarLog * option exn :=
  match rows with
  | [] => (st, [], None)
  | row :: rest =>
      let '(st, log, err) :=
        process_bar tp1_multiplier tp2_multiplier runner_multiplier st row in
      match err with
      | Some e => (st, [log], Some e)
      | None =>
          let '(st, logs, err) :=
            simulate_bars tp1_multiplier tp2_multiplier runner_multiplier rest st in
          (st, log :: logs, err)
      end
  end.

Definition initial_state (risk_manager : RM) : SimState :=
  {| st_manager := risk_manager; st_trades := [];
     st_daily_summaries := []; st_current_date := None |}.

Definition _simulate_trading (rows : list Row) (risk_manager : RM)
    (tp1_multiplier tp2_multiplier runner_multiplier : Q) : result SimResults :=
  let '(st, _, err) :=
    simulate_bars tp1_multiplier tp2_multiplier runner_multiplier rows
                  (initial_state risk_manager) in
  match err with
  | Some e => Raise e
  | None =>
      let '(rm, summaries) :=
        match st_current_date st with
        | Some current_date =>
            let '(rm, daily_summary) := get_portfolio_summary (st_manager st) in
            (rm, st_daily_summaries st
                   ++ [{| ds_summary := daily_summary; ds_date := current_date |}])
        | None => (st_manager st, st_daily_summaries st)
        end in
      let '(_, risk_summary) := get_portfolio_summary rm in
      Ok {| res_trades := st_trades st;
            res_daily_summaries := summaries;
            res_risk_summary := risk_summary |}
  end.

(** The calls and ledger entries of a run, bar by bar. *)
Definition bar_logs (rows : list Row) (risk_manager : RM)
    (tp1_multiplier tp2_multiplier runner_multiplier : Q) : list BarLog :=
  (simulate_bars tp1_multiplier tp2_multiplier runner_multiplier rows
                 (initial_state risk_manager)).1.2.

End Simulation.

(* --------------------------------------------------------------- *)
(** *** [_calculate_enhanced_metrics]                                 *)
(* --------------------------------------------------------------- *)

(** [np.maximum] on two finite values. *)
Definition qmax (a b : Q) : Q := if Qle_bool a b then b else a.
Definition qmin (a b : Q) : Q := if Qle_bool a b then a else b.

(** [np.maximum.accumulate] *)
Fixpoint accumulate_from (peak : Q) (xs : list Q) : list Q :=
  match xs with
  | [] => []
  | x :: rest => let peak := qmax peak x in peak :: accumulate_from peak rest
  end.

Definition maximum_accumulate (xs : list Q) : list Q :=
  match xs with
  | [] => []
  | x :: rest => x :: accumulate_from x rest
  end.

(** [np.min], NaN wins; the callers guard the empty array. *)
Definition np_min (xs : list pyfloat) : pyfloat :=
  match xs with
  | [] => NaN
  | x :: rest => fold_left F.minimum rest x
  end.

(** [(np.array(equity_curve) - peak) / peak] *)
Definition drawdown_series (equity_curve : list Q) : list pyfloat :=
  let peak := maximum_accumulate equity_curve in
  zip_with (fun e p => (Fin (e - p) / Fin p)%F) equity_curve peak.

(** Lines 457-459: [np.min(drawdown) if len(drawdown) > 0 else 0]. *)
Definition max_drawdown_of (equity_curve : list Q) : pyfloat :=
  let drawdown := drawdown_series equity_curve in
  if (0 <? length drawdown)%nat then np_min drawdown else Fin 0.

(** Line 446 *)
Definition profit_factor_of (total_profit total_loss : Q) : pyfloat :=
  if (Fin total_loss >? Fin 0)%F then Fin (total_profit / total_loss) else PosInf.

Definition of_nat (n : nat) : Q := inject_Z (Z.of_nat n).

Section Metrics.
Context `{RiskData}.

(** ['pnl' in t] and [t['pnl']] *)
Definition entry_pnl (t : LedgerEntry) : option Q :=
  match t with
  | OpenRecord _ _ _ _ _ _ => None
  | ClosedTrade t => trade_pnl t
  end.

(** The returned dictionary.  Of the eleven keys of the full result,
    ['sharpe_ratio'] (a square root) and ['total_return'] are not
    modelled. *)
Definition _calculate_enhanced_metrics
    (trades : list LedgerEntry) (daily_summaries : list DailySummary)
    : gmap string pyfloat :=
  match trades with
  | [] =>
      list_to_map
        [ ("total_trades", Fin 0); ("win_rate", Fin 0); ("profit_factor", Fin 0);
          ("sharpe_ratio", Fin 0); ("max_drawdown", Fin 0); ("total_return", Fin 0);
          ("avg_trade_return", Fin 0); ("best_trade", Fin 0); ("worst_trade", Fin 0) ]
  | _ :: _ =>
      (* the pnl of the closed trades, in ledger order *)
      let closed_trades := omap entry_pnl trades in
      match closed_trades with
      | [] =>
          list_to_map
            [ ("total_trades", Fin (of_nat (length trades))); ("win_rate", Fin 0) ]
      | first :: others =>
          let total_trades := length closed_trades in
          let winning_trades := filter (fun pnl => Qlt 0 pnl) closed_trades in
          let losing_trades := filter (fun pnl => Qlt pnl 0) closed_trades in
          let win_rate := of_nat (length winning_trades) / of_nat total_trades in
          let total_profit := sum winning_trades in
          let total_loss := Qabs (sum losing_trades) in
          let profit_factor := profit_factor_of total_profit total_loss in
          let max_drawdown :=
            match daily_summaries with
            | _ :: _ =>
                let equity_curve :=
                  (fun ds => current_capital (ds_summary ds)) <$> daily_summaries in
                max_drawdown_of equity_curve
            | [] => Fin 0
            end in
          let avg_trade_return := mean closed_trades in
          let best_trade := fold_left qmax others first in
          let worst_trade := fold_left qmin others first in
          list_to_map
            [ ("total_trades", Fin (of_nat total_trades));
              ("win_rate", Fin win_rate);
              ("profit_factor", profit_factor);
              ("max_drawdown", max_drawdown);
              ("avg_trade_return", Fin avg_trade_return);
              ("best_trade", Fin best_trade);
              ("worst_trade", Fin worst_trade);
              ("total_profit", Fin total_profit);
              ("total_loss", Fin total_loss) ]
      end
  end.

End Metrics.

(* --------------------------------------------------------------- *)
(** *** [run_enhanced_backtest]                                       *)
(* --------------------------------------------------------------- *)

(** The keyword arguments of [run_enhanced_backtest]. *)
Record BacktestArgs : Type := {
  initial_capital : Q;
  risk_per_trade : Q;
  daily_loss_limit : Q;
  rsi_length : Z;
  rsi_oversold : Q;
  rsi_overbought : Q;
  wt_channel_length : Z;
  wt_average_length : Z;
  momentum_lookback : Z;
  tp1_multiplier : Q;
  tp2_multiplier : Q;
  runner_multiplier : Q;
  data_source : string
}.

Definition default_args : BacktestArgs := {|
  initial_capital := 10000;
  risk_per_trade := 0.02;
  daily_loss_limit := 0.05;
  rsi_length := 14;
  rsi_oversold := 30;
  rsi_overbought := 70;
  wt_channel_length := 10;
  wt_average_length := 21;
  momentum_lookback := 20;
  tp1_multiplier := 1.5;
  tp2_multiplier := 2;
  runner_multiplier := 3;
  data_source := "auto"
|}.

Record BacktestResult `{RiskData} : Type := {
  bt_symbol : string;
  bt_timeframe : string;
  bt_start_date : string;
  bt_end_date : string;
  bt_data_source : string;
  bt_df : DataFrame;
  bt_signals : Signals;
  bt_trades : list LedgerEntry;
  bt_daily_summaries : list DailySummary;
  bt_metrics : gmap string pyfloat;
  bt_risk_summary : Summary
}.

(** The rows [df.iterrows()] yields once the signal columns are added. *)
Definition frame_rows (df : DataFrame) (signals : Signals) : result (list Row) :=
  close ← getitem df "close";
  Ok (zip_with3
        (fun c ts '(long, short) =>
           {| row_close := c; row_timestamp := ts;
              row_final_long := Some long; row_final_short := Some short |})
        close (timestamp df) (zip (final_long signals) (final_short signals))).

Section Run.
Context `{Indicators} `{MarketData} `{RiskData}.
Context (RM : Type) `{!AdvancedRiskManager RM}.

(** Lines 258-301: everything after the data is fetched. *)
Definition backtest_frame (symbol timeframe start_date end_date : string)
    (args : BacktestArgs) (df : DataFrame) : result BacktestResult :=
  signal_generator ← WeightedSignalGenerator.default;
  let risk_manager : RM :=
    new_manager (initial_capital args) (risk_per_trade args) (daily_loss_limit args) in
  signals ← WeightedSignalGenerator.generate_weighted_signal signal_generator df
              (rsi_length args) (rsi_oversold args) (rsi_overbought args)
              (wt_channel_length args) (wt_average_length args)
              (momentum_lookback args);
  rows ← frame_rows df signals;
  results ← _simulate_trading rows risk_manager
              (tp1_multiplier args) (tp2_multiplier args) (runner_multiplier args);
  let metrics :=
    _calculate_enhanced_metrics (res_trades results) (res_daily_summaries results) in
  Ok {| bt_symbol := symbol;
        bt_timeframe := timeframe;
        bt_start_date := start_date;
        bt_end_date := end_date;
        bt_data_source := data_source args;
        bt_df := df;
        bt_signals := signals;
        bt_trades := res_trades results;
        bt_daily_summaries := res_daily_summaries results;
        bt_metrics := metrics;
        bt_risk_summary := res_risk_summary results |}.

Definition run_enhanced_backtest (symbol timeframe start_date end_date : string)
    (args : BacktestArgs) : result BacktestResult :=
  if negb (validate_timeframe timeframe) then
    Raise (ValueError "Unsupported timeframe")
  else
    df ← fetch_historical_data symbol timeframe start_date end_date (data_source args);
    if df_empty df then Raise (ValueError "No data fetched for backtesting")
    else backtest_frame symbol timeframe start_date end_date args df.

End Run.

End EnhancedBacktester.

(* ===================================================================== *)
(** ** A small risk manager and market, to run the code on concrete bars  *)
(* ===================================================================== *)

Module Sample.

Record SampleTrade : Type := { tr_position : nat; tr_pnl : Q }.
Record SampleSummary : Type := { sm_capital : Q; sm_daily_pnl : Q }.

#[export] Instance data : RiskData := {|
  PosId := nat;
  Trade := SampleTrade;
  Summary := SampleSummary;
  trade_pnl := fun t => Some (tr_pnl t);
  current_capital := sm_capital
|}.

Record OpenTrade : Type := {
  ot_position : Position;
  ot_stop_loss : Q;
  ot_take_profit : Q
}.

(** Sizing from the risk budget, one exit per position (at the stop or
    at the first target), and the daily-loss breaker. *)
Record Manager : Type := {
  capital : Q;
  risk_fraction : Q;
  loss_limit : Q;
  day_start_capital : Q;
  realized_daily_pnl : Q;
  open_trades : list OpenTrade;
  next_id : nat
}.

Definition breaker (m : Manager) : bool :=
  Qle_bool (realized_daily_pnl m) (- (loss_limit m * day_start_capital m)).

Definition is_long (p : Position) : bool := String.eqb (pos_side p) "buy".

Definition exit_hit (t : OpenTrade) (price : Q) : bool :=
  if is_long (ot_position t)
  then Qle_bool price (ot_stop_loss t) || Qle_bool (ot_take_profit t) price
  else Qle_bool (ot_stop_loss t) price || Qle_bool price (ot_take_profit t).

Definition pnl_at (t : OpenTrade) (price : Q) : Q :=
  let p := ot_position t in
  if is_long p
  then (price - pos_entry_price p) * pos_quantity p
  else (pos_entry_price p - price) * pos_quantity p.

Definition update (m : Manager) (id : nat) (price : Q) : Manager * UpdateResult :=
  match List.find (fun t => Nat.eqb (pos_id (ot_position t)) id) (open_trades m) with
  | Some t =>
      if exit_hit t price then
        let pnl := pnl_at t price in
        ({| capital := capital m + pnl;
            risk_fraction := risk_fraction m;
            loss_limit := loss_limit m;
            day_start_capital := day_start_capital m;
            realized_daily_pnl := realized_daily_pnl m + pnl;
            open_trades :=
              List.filter (fun t => negb (Nat.eqb (pos_id (ot_position t)) id))
                          (open_trades m);
            next_id := next_id m |},
         {| status := "fully_closed";
            trade := Some {| tr_position := id; tr_pnl := pnl |} |})
      else (m, {| status := "open"; trade := None |})
  | None => (m, {| status := "not_found"; trade := None |})
  end.

Definition open (m : Manager) (symbol side : string)
    (entry_price stop_loss_price tp1 tp2 runner : Q) : Manager * option Position :=
  let risk_distance := Qabs (entry_price - stop_loss_price) in
  let quantity := capital m * risk_fraction m / risk_distance in
  if breaker m || Qle_bool quantity 0 then (m, None)
  else
    let p := {| pos_id := next_id m; pos_symbol := symbol; pos_side := side;
                pos_entry_price := entry_price; pos_quantity := quantity |} in
    let target :=
      if String.eqb side "buy"
      then entry_price + tp1 * risk_distance
      else entry_price - tp1 * risk_distance in
    ({| capital := capital m;
        risk_fraction := risk_fraction m;
        loss_limit := loss_limit m;
        day_start_capital := day_start_capital m;
        realized_daily_pnl := realized_daily_pnl m;
        open_trades := open_trades m ++
          [{| ot_position := p; ot_stop_loss := stop_loss_price; ot_take_profit := target |}];
        next_id := S (next_id m) |},
     Some p).

Definition reset (m : Manager) : Manager :=
  {| capital := capital m;
     risk_fraction := risk_fraction m;
     loss_limit := loss_limit m;
     day_start_capital := capital m;
     realized_daily_pnl := 0;
     open_trades := open_trades m;
     next_id := next_id m |}.

#[export] Instance manager : AdvancedRiskManager Manager := {|
  new_manager := fun initial_capital risk_per_trade daily_loss_limit =>
    {| capital := initial_capital; risk_fraction := risk_per_trade;
       loss_limit := daily_loss_limit; day_start_capital := initial_capital;
       realized_daily_pnl := 0; open_trades := []; next_id := 0 |};
  positions := fun m => ot_position <$> open_trades m;
  update_position := update;
  is_daily_breaker_triggered := fun m => (m, breaker m);
  open_position := open;
  get_portfolio_summary := fun m =>
    (m, {| sm_capital := capital m; sm_daily_pnl := realized_daily_pnl m |});
  reset_daily_tracking := reset
|}.

(** The same manager behind a call counter: a second implementation of
    the interface whose state differs from [Manager] but whose answers do
    not. *)
Record Counted : Type := { calls : nat; inner : Manager }.

Definition counted {A} (c : Counted) (r : Manager * A) : Counted * A :=
  ({| calls := S (calls c); inner := r.1 |}, r.2).

Definition counted_manager : AdvancedRiskManager Counted := {|
  new_manager := fun initial_capital risk_per_trade daily_loss_limit =>
    {| calls := 0; inner := new_manager initial_capital risk_per_trade daily_loss_limit |};
  positions := fun c => positions (inner c);
  update_position := fun c id price => counted c (update_position (inner c) id price);
  is_daily_breaker_triggered := fun c => counted c (is_daily_breaker_triggered (inner c));
  open_position := fun c symbol side entry stop tp1 tp2 runner =>
    counted c (open_position (inner c) symbol side entry stop tp1 tp2 runner);
  get_portfolio_summary := fun c => counted c (get_portfolio_summary (inner c));
  reset_daily_tracking := fun c =>
    {| calls := S (calls c); inner := reset_daily_tracking (inner c) |}
|}.

(** A market that answers every request with the same four daily bars. *)
Definition four_bars : DataFrame := {|
  index := 4;
  columns := {[ "open" := [100; 101; 99; 100]; "high" := [102; 103; 100; 104];
                "low" := [99; 100; 96; 99]; "close" := [100; 102; 97; 103];
                "volume" := [10; 10; 10; 10] ]};
  timestamp := [ {| ts_date := 0; ts_time := 0 |}; {| ts_date := 1; ts_time := 0 |};
                 {| ts_date := 2; ts_time := 0 |}; {| ts_date := 3; ts_time := 0 |} ]
|}.

#[export] Instance market : MarketData := {|
  yfinance_history := fun _ _ _ _ => Ok four_bars
|}.

Definition bar (date time : Z) (close : Q) (long short : bool) : Row :=
  {| row_close := close; row_timestamp := {| ts_date := date; ts_time := time |};
     row_final_long := Some long; row_final_short := Some short |}.

(** Day 0: a long is opened at 100 and stopped out at 97, which trips the
    breaker while the long signal is still on; day 1: the signal is on
    again. *)
Definition breaker_day : list Row :=
  [ bar 0 0 100 true false;
    bar 0 1 97 true false;
    bar 0 2 98 true true;
    bar 1 0 99 true false ].

Definition risky_manager : Manager := new_manager 10000 0.1 0.05.

(** Ledgers of closed trades: one that broke even; a win of 300 and a
    loss of 100. *)
Definition break_even_ledger : list LedgerEntry :=
  [ClosedTrade {| tr_position := 0; tr_pnl := 0 |}].

Definition win_loss_ledger : list LedgerEntry :=
  [ClosedTrade {| tr_position := 0; tr_pnl := 300 |};
   ClosedTrade {| tr_position := 1; tr_pnl := -100 |}].

Definition summary_of (capital : Q) (date : Z) : DailySummary :=
  {| ds_summary := {| sm_capital := capital; sm_daily_pnl := 0 |}; ds_date := date |}.

(** The equity curve of scenario C, one daily summary per point. *)
Definition scenario_c : list DailySummary :=
  [summary_of 10000 0; summary_of 10500 1; summary_of 9800 2; summary_of 10200 3].

(** An account that lost all of its capital on the first day. *)
Definition wiped_out_ledger : list LedgerEntry :=
  [ClosedTrade {| tr_position := 0; tr_pnl := -10000 |}].

Definition wiped_out : list DailySummary := [summary_of 0 0].

End Sample.

(* ===================================================================== *)
(** ** Notions the properties are stated with                             *)
(* ===================================================================== *)

(** The running peak of an equity curve at point [i]: the largest equity
    among the points [0..i]. *)
Definition running_peak (equity_curve : list Q) (i : nat) : Q :=
  match take (S i) equity_curve with
  | [] => 0
  | first :: others => fold_left EnhancedBacktester.qmax others first
  end.

(** The drawdown at point [i]: [(equity - running_peak) / running_peak]. *)
Definition drawdown_at (equity_curve : list Q) (i : nat) (equity : Q) : Q :=
  (equity - running_peak equity_curve i) / running_peak equity_curve i.

(** Two instances of the risk manager, possibly of different make, answer
    alike: [R] relates their states, every method keeps them related and
    returns the same value on both sides. *)
Record AnswerAlike `{RiskData} {RM1 RM2 : Type}
    `{!AdvancedRiskManager RM1} `{!AdvancedRiskManager RM2}
    (R : RM1 -> RM2 -> Prop) : Prop := {
  alike_new : forall c r d, R (new_manager c r d) (new_manager c r d);
  alike_positions : forall a b, R a b -> positions a = positions b;
  alike_update : forall a b id price, R a b ->
    R (update_position a id price).1 (update_position b id price).1 /\
    (update_position a id price).2 = (update_position b id price).2;
  alike_breaker : forall a b, R a b ->
    R (is_daily_breaker_triggered a).1 (is_daily_breaker_triggered b).1 /\
    (is_daily_breaker_triggered a).2 = (is_daily_breaker_triggered b).2;
  alike_open : forall a b symbol side entry stop tp1 tp2 runner, R a b ->
    R (open_position a symbol side entry stop tp1 tp2 runner).1
      (open_position b symbol side entry stop tp1 tp2 runner).1 /\
    (open_position a symbol side entry stop tp1 tp2 runner).2
    = (open_position b symbol side entry stop tp1 tp2 runner).2;
  alike_summary : forall a b, R a b ->
    R (get_portfolio_summary a).1 (get_portfolio_summary b).1 /\
    (get_portfolio_summary a).2 = (get_portfolio_summary b).2;
  alike_reset : forall a b, R a b -> R (reset_daily_tracking a) (reset_daily_tracking b)
}.

(** The pnl of the closed trades of a ledger, in ledger order, and the two
    totals of the profit factor (lines 444-445). *)
Definition closed_pnls `{RiskData} (trades : list LedgerEntry) : list Q :=
  omap EnhancedBacktester.entry_pnl trades.

Definition total_profit_of `{RiskData} (trades : list LedgerEntry) : Q :=
  sum (filter (fun pnl => 0 < pnl) (closed_pnls trades)).

Definition total_loss_of `{RiskData} (trades : list LedgerEntry) : Q :=
  Qabs (sum (filter (fun pnl => pnl < 0) (closed_pnls trades))).

(** Line 450: the equity curve the metrics are computed on. *)
Definition equity_curve_of `{RiskData} (daily_summaries : list DailySummary) : list Q :=
  (fun ds => current_capital (ds_summary ds)) <$> daily_summaries.

(** A ledger entry written by the simulator when a position opens. *)
Definition is_open_record `{RiskData} (t : LedgerEntry) : bool :=
  match t with
  | OpenRecord _ _ _ _ _ _ => true
  | ClosedTrade _ => false
  end.

Definition is_open_call `{RiskData} (e : Event) : bool :=
  match e with
  | OpenPosition _ _ _ => true
  | _ => false
  end.

(** The indicator modules return one value per row of their input. *)
Definition indicators_keep_length `{Indicators} : Prop :=
  (forall close n, length (rsi close n) = length close) /\
  (forall src c a, length (wavetrend src c a) = length src).

(** States of two runs that differ in the manager only. *)
Definition states_alike `{RiskData} {RM1 RM2 : Type} (R : RM1 -> RM2 -> Prop)
    (s1 : @EnhancedBacktester.SimState _ RM1)
    (s2 : @EnhancedBacktester.SimState _ RM2) : Prop :=
  R (EnhancedBacktester.st_manager s1) (EnhancedBacktester.st_manager s2) /\
  EnhancedBacktester.st_trades s1 = EnhancedBacktester.st_trades s2 /\
  EnhancedBacktester.st_daily_summaries s1 = EnhancedBacktester.st_daily_summaries s2 /\
  EnhancedBacktester.st_current_date s1 = EnhancedBacktester.st_current_date s2.

(** A bar's log in which nothing is opened: no [open_position] call and
    no 'open' record. *)
Definition no_entries `{RiskData} (log : BarLog) : Prop :=
  Forall (fun e => is_open_call e = false) (bar_events log) /\
  Forall (fun t => is_open_record t = false) (bar_trades log).

Definition no_breaker_check `{RiskData} (log : BarLog) : Prop :=
  forall triggered, BreakerChecked triggered ∉ bar_events log.

(** Two bars of opening prices only: a frame without a close column. *)
Definition frame_without_close : DataFrame := {|
  index := 2;
  columns := {[ "open" := [1; 2] ]};
  timestamp := [ {| ts_date := 0; ts_time := 0 |}; {| ts_date := 1; ts_time := 0 |} ]
|}.

(** The sample manager after the first bar of [Sample.breaker_day]: it holds
    one long position. *)
Definition manager_with_a_long : Sample.Manager :=
  @EnhancedBacktester.st_manager Sample.data Sample.Manager
    (@EnhancedBacktester.process_bar Sample.data Sample.Manager Sample.manager 1.5 2 3
       (@EnhancedBacktester.initial_state Sample.data Sample.Manager Sample.risky_manager)
       (Sample.bar 0 0 100 true false)).1.1.

(** An 'open' record stamped with the timestamp [ts]. *)
Definition stamped `{RiskData} (ts : Timestamp) (t : LedgerEntry) : Prop :=
  match t with
  | OpenRecord _ _ _ _ _ ts' => ts' = ts
  | ClosedTrade _ => False
  end.

(** The label of the opposite signal: Buy and Sell swapped. *)
Definition mirror_label (label : string) : string :=
  if String.eqb label "Very Strong Buy" then "Very Strong Sell"
  else if String.eqb label "Strong Buy" then "Strong Sell"
  else if String.eqb label "Weak Buy" then "Weak Sell"
  else if String.eqb label "Very Strong Sell" then "Very Strong Buy"
  else if String.eqb label "Strong Sell" then "Strong Buy"
  else if String.eqb label "Weak Sell" then "Weak Buy"
  else label.

(** The days of a sequence of bar dates: each run of equal consecutive
    dates counted once. *)
Fixpoint day_runs (dates : list Z) : list Z :=
  match dates with
  | [] => []
  | d :: rest =>
      match rest with
      | [] => [d]
      | next :: _ => if bool_decide (d = next) then day_runs rest else d :: day_runs rest
      end
  end.

Definition bar_date (row : Row) : Z := ts_date (row_timestamp row).

(** The [open_position] calls a bar's signals ask for: long first, the stop
    2% below the close; then short, the stop 2% above. *)
Definition entry_calls `{RiskData} (row : Row) : list Event :=
  (if EnhancedBacktester.signal_set (row_final_long row)
   then [OpenPosition "buy" (row_close row) (row_close row * 0.98)] else [])
  ++ (if EnhancedBacktester.signal_set (row_final_short row)
      then [OpenPosition "sell" (row_close row) (row_close row * 1.02)] else []).

(** A risk manager that reports a position as closed without handing out
    the trade: the sample manager with the 'trade' key dropped. *)
Definition forgetful_manager : AdvancedRiskManager Sample.Manager := {|
  new_manager := @new_manager _ _ Sample.manager;
  positions := @positions _ _ Sample.manager;
  update_position := fun m id price =>
    let '(m, result) := Sample.update m id price in
    (m, {| status := status result; trade := None |});
  is_daily_breaker_triggered := @is_daily_breaker_triggered _ _ Sample.manager;
  open_position := @open_position _ _ Sample.manager;
  get_portfolio_summary := @get_portfolio_summary _ _ Sample.manager;
  reset_daily_tracking := @reset_daily_tracking _ _ Sample.manager
|}.

(* ===================================================================== *)
(** * Properties                                                          *)
(* ===================================================================== *)

(** ** Float comparisons *)

Lemma Qle_bool_false (x y : Q) : Qle_bool x y = false <-> y < x.
Proof.
  split; intros Hf.
  - apply Qnot_le_lt. intros Hle. apply Qle_bool_iff in Hle. congruence.
  - destruct (Qle_bool x y) eqn:E; [|reflexivity].
    apply Qle_bool_iff in E. exfalso. apply (Qlt_not_le _ _ Hf E).
Qed.

Lemma Fin_leb (a b : Q) : (Fin a <=? Fin b)%F = true <-> a <= b.
Proof. apply Qle_bool_iff. Qed.

Lemma Fin_ltb (a b : Q) : (Fin a <? Fin b)%F = true <-> a < b.
Proof.
  unfold F.ltb. rewrite negb_true_iff. apply Qle_bool_false.
Qed.

Lemma Fin_leb_false (a b : Q) : (Fin a <=? Fin b)%F = false <-> b < a.
Proof. apply Qle_bool_false. Qed.

Lemma Fin_ltb_false (a b : Q) : (Fin a <? Fin b)%F = false <-> b <= a.
Proof.
  unfold F.ltb. rewrite negb_false_iff. apply Qle_bool_iff.
Qed.

Lemma is_zero_false (q : Q) : ~ q == 0 -> F.is_zero q = false.
Proof.
  intros Hq. unfold F.is_zero. destruct (Qeq_bool q 0) eqn:E; [|reflexivity].
  apply Qeq_bool_iff in E. contradiction.
Qed.

(** Case analysis on a comparison of two finite floats. *)
Ltac cmp_cases :=
  repeat match goal with
  | H : (Fin _ <=? Fin _)%F = true |- _ => apply Fin_leb in H
  | H : (Fin _ <=? Fin _)%F = false |- _ => apply Fin_leb_false in H
  | H : (Fin _ <? Fin _)%F = true |- _ => apply Fin_ltb in H
  | H : (Fin _ <? Fin _)%F = false |- _ => apply Fin_ltb_false in H
  | H : (Fin _ >=? Fin _)%F = _ |- _ => unfold F.geb in H
  | H : (Fin _ >? Fin _)%F = _ |- _ => unfold F.gtb in H
  end.

(** ** Series *)

Lemma zip_with3_lookup {A B C D} (f : A -> B -> C -> D) xs ys zs (i : nat) (d : D) :
  zip_with3 f xs ys zs !! i = Some d <->
  exists x y z, xs !! i = Some x /\ ys !! i = Some y /\ zs !! i = Some z /\ d = f x y z.
Proof.
  revert ys zs i. induction xs as [|x xs IH]; intros ys zs i.
  - simpl. split; [discriminate | intros (?&?&?&?&_); discriminate].
  - destruct ys as [|y ys]; [simpl; split; [discriminate | intros (?&?&?&_&?&_); discriminate]|].
    destruct zs as [|z zs]; [simpl; split; [discriminate | intros (?&?&?&_&_&?&_); discriminate]|].
    destruct i as [|i]; simpl.
    + split.
      * intros [= <-]. eauto 10.
      * intros (?&?&?&[= <-]&[= <-]&[= <-]&->). reflexivity.
    + apply IH.
Qed.

Lemma zip_with3_length {A B C D} (f : A -> B -> C -> D) xs ys zs (n : nat) :
  length xs = n -> length ys = n -> length zs = n ->
  length (zip_with3 f xs ys zs) = n.
Proof.
  revert ys zs n. induction xs as [|x xs IH]; intros [|y ys] [|z zs] n; simpl; try congruence.
  intros <- [= Hy] [= Hz]. f_equal. apply IH; congruence.
Qed.

Lemma series_with_index_ok {A} (df : DataFrame) (values s : list A) :
  series_with_index df values = Ok s <-> s = values /\ length values = index df.
Proof.
  unfold series_with_index. destruct (Nat.eqb_spec (length values) (index df)).
  - split; [intros [= <-]; auto | intros [-> _]; reflexivity].
  - split; [discriminate | intros [_ ?]; contradiction].
Qed.

Lemma bind_ok {A B} (r : result A) (k : A -> result B) (b : B) :
  r ≫= k = Ok b <-> exists a, r = Ok a /\ k a = Ok b.
Proof.
  destruct r as [a|e]; simpl.
  - split; [eauto | intros (a' & [= <-] & Hk); exact Hk].
  - split; [discriminate | intros (? & ? & _); discriminate].
Qed.

(** ** The signal generator *)

Module SignalProps.
Import WeightedSignalGenerator.

Lemma init_accepts_within_tolerance (w1 w2 w3 : Q) (self : WeightedSignalGenerator) :
  init w1 w2 w3 = Ok self ->
  Qabs (w1 + w2 + w3 - 1) <= 0.001 /\
  rsi_weight self = w1 /\ wavetrend_weight self = w2 /\ buy_sell_weight self = w3.
Proof.
  unfold init, F.gtb.
  destruct (Fin 0.001 <? Fin (Qabs (w1 + w2 + w3 - 1)))%F eqn:E; [discriminate|].
  cmp_cases. intros [= <-]. auto.
Qed.


(** The default weights 0.4 / 0.4 / 0.2 are accepted, and a sum that is
    off by a thousandth is accepted as it stands. *)
Lemma init_examples :
  init 0.4 0.4 0.2
    = Ok {| rsi_weight := 0.4; wavetrend_weight := 0.4; buy_sell_weight := 0.2 |} /\
  init 0.4 0.4 0.201
    = Ok {| rsi_weight := 0.4; wavetrend_weight := 0.4; buy_sell_weight := 0.201 |} /\
  init 0.5 0.5 0.5 = Raise (weights_error 1.5).
Proof. repeat split. Qed.

(** The interpolation branches never divide by zero. *)
Lemma rsi_signal_at_finite (oversold overbought r : Q) :
  rsi_signal_at oversold overbought (Fin r) =
    if decide (r <= oversold) then Fin 1
    else if decide (overbought <= r) then Fin (-1)
    else if decide (r < 50) then Fin ((50 - r) / (50 - oversold))
    else Fin (- (r - 50) / (overbought - 50)).
Proof.
  unfold rsi_signal_at.
  destruct (Fin r <=? Fin oversold)%F eqn:E1; cmp_cases.
  { rewrite decide_True by assumption. reflexivity. }
  rewrite decide_False by (apply Qlt_not_le; assumption).
  destruct (Fin r >=? Fin overbought)%F eqn:E2; cmp_cases.
  { rewrite decide_True by assumption. reflexivity. }
  rewrite decide_False by (apply Qlt_not_le; assumption).
  destruct (Fin r <? Fin 50)%F eqn:E3; cmp_cases.
  - rewrite decide_True by assumption.
    simpl. rewrite is_zero_false; [reflexivity|]. lra.
  - rewrite decide_False by (apply Qle_not_lt; assumption).
    simpl. rewrite is_zero_false; [reflexivity|]. lra.
Qed.

Section WithIndicators.
Context `{Indicators}.

(** C5. On every bar whose RSI value is a number [r], the RSI sub-signal
    is 1.0 if r <= oversold; else -1.0 if r >= overbought (with
    oversold < overbought that is: whenever r >= overbought); and
    between the two thresholds it is (50 - r)/(50 - oversold) below 50
    and -(r - 50)/(overbought - 50) from 50 on. *)
Theorem rsi_signal_piecewise (df : DataFrame) (rsi_length : Z)
    (oversold overbought : Q) (close : list Q) (s : list pyfloat)
    (i : nat) (r : Q) :
  getitem df "close" = Ok close ->
  generate_rsi_signal df rsi_length oversold overbought = Ok s ->
  rsi close rsi_length !! i = Some (Fin r) ->
  exists v, s !! i = Some v /\
    (r <= oversold -> v = Fin 1) /\
    (oversold < r -> overbought <= r -> v = Fin (-1)) /\
    (oversold < overbought -> overbought <= r -> v = Fin (-1)) /\
    (oversold < r -> r < overbought -> r < 50 ->
       v = Fin ((50 - r) / (50 - oversold))) /\
    (oversold < r -> r < overbought -> 50 <= r ->
       v = Fin (- (r - 50) / (overbought - 50))).
Proof.
  intros Hclose Hgen Hr. unfold generate_rsi_signal in Hgen.
  rewrite Hclose in Hgen. simpl in Hgen.
  apply series_with_index_ok in Hgen as [-> _].
  exists (rsi_signal_at oversold overbought (Fin r)). split.
  { rewrite list_lookup_fmap, Hr. reflexivity. }
  rewrite rsi_signal_at_finite.
  repeat split; intros; repeat case_decide; try reflexivity; exfalso; lra.
Qed.

(** C6. On every bar the WaveTrend sub-signal is 1.0 when WT1 > WT2 and
    WT1 < -50; -1.0 when WT1 < WT2 and WT1 > 50; otherwise 0.5 when
    WT1 > WT2 and -0.5 when WT1 < WT2; a tie WT1 == WT2 gives -0.5. *)
Theorem wavetrend_signal_buckets (df : DataFrame)
    (channel_length average_length : Z) (src : list Q) (s : list pyfloat)
    (i : nat) (wt1 wt2 : pyfloat) :
  hlc3 df = Ok src ->
  generate_wavetrend_signal df channel_length average_length = Ok s ->
  wavetrend src channel_length average_length !! i = Some (wt1, wt2) ->
  exists v, s !! i = Some v /\
    ((wt1 >? wt2)%F = true -> (wt1 <? Fin (-50))%F = true -> v = Fin 1) /\
    ((wt1 <? wt2)%F = true -> (wt1 >? Fin 50)%F = true -> v = Fin (-1)) /\
    ((wt1 >? wt2)%F = true -> (wt1 <? Fin (-50))%F = false -> v = Fin 0.5) /\
    ((wt1 <? wt2)%F = true -> (wt1 >? Fin 50)%F = false -> v = Fin (-0.5)) /\
    (wt1 = wt2 -> v = Fin (-0.5)) /\
    (forall a b, wt1 = Fin a -> wt2 = Fin b -> a == b -> v = Fin (-0.5)).
Proof.
  intros Hsrc Hgen Hwt. unfold generate_wavetrend_signal in Hgen.
  rewrite Hsrc in Hgen. simpl in Hgen.
  apply series_with_index_ok in Hgen as [-> _].
  exists (wt_signal_at (wt1, wt2)). split.
  { rewrite list_lookup_fmap, Hwt. reflexivity. }
  assert (Hasym : forall x y, (x <? y)%F = true -> (y <? x)%F = false).
  { intros [a| | |] [b| | |]; simpl; try reflexivity; try discriminate.
    rewrite !negb_true_iff, negb_false_iff.
    intros Hlt. apply Qle_bool_false in Hlt. apply Qle_bool_iff. lra. }
  assert (Hirr : forall a b, a == b -> (Fin a <? Fin b)%F = false).
  { intros a b Hab. apply Fin_ltb_false. lra. }
  unfold wt_signal_at, F.gtb.
  repeat split.
  - intros -> ->. reflexivity.
  - intros Hlt Hgt. rewrite (Hasym _ _ Hlt), Hlt. unfold F.gtb in Hgt.
    rewrite Hgt. reflexivity.
  - intros Hgt Hnlt. rewrite Hgt, Hnlt, (Hasym _ _ Hgt). reflexivity.
  - intros Hlt Hngt. rewrite (Hasym _ _ Hlt), Hlt. unfold F.gtb in Hngt.
    rewrite Hngt. reflexivity.
  - intros <-.
    assert (Hself : (wt1 <? wt1)%F = false).
    { destruct wt1 as [a| | |]; try reflexivity. apply Hirr. reflexivity. }
    rewrite Hself. reflexivity.
  - intros a b -> -> Hab.
    rewrite (Hirr b a) by (symmetry; exact Hab). rewrite (Hirr a b Hab).
    reflexivity.
Qed.

(** What a successful call of [generate_weighted_signal] returned. *)
Lemma generate_weighted_signal_ok (self : WeightedSignalGenerator) (df : DataFrame)
    (rsi_length : Z) (os ob : Q) (cl al lookback : Z) (sigs : Signals) :
  generate_weighted_signal self df rsi_length os ob cl al lookback = Ok sigs ->
  generate_rsi_signal df rsi_length os ob = Ok (rsi_signal sigs) /\
  generate_wavetrend_signal df cl al = Ok (wavetrend_signal sigs) /\
  generate_buy_sell_signal df "close" lookback = Ok (buy_sell_signal sigs) /\
  weighted_signal sigs =
    zip_with3 (weighted_at self) (rsi_signal sigs) (wavetrend_signal sigs)
              (buy_sell_signal sigs) /\
  final_long sigs = (fun w => (w >? Fin 0.3)%F) <$> weighted_signal sigs /\
  final_short sigs = (fun w => (w <? Fin (-0.3))%F) <$> weighted_signal sigs.
Proof.
  unfold generate_weighted_signal. intros Hgen.
  apply bind_ok in Hgen as (rsi_sig & Hrsi & Hgen).
  apply bind_ok in Hgen as (wt_sig & Hwt & Hgen).
  apply bind_ok in Hgen as (bs_sig & Hbs & Hgen).
  injection Hgen as <-. simpl. auto 10.
Qed.

(** No float is above 0.3 and below -0.3. *)
Lemma long_short_disjoint (w : pyfloat) :
  (w >? Fin 0.3)%F && (w <? Fin (-0.3))%F = false.
Proof.
  destruct w as [q| | |]; try reflexivity.
  unfold F.gtb. destruct (Fin 0.3 <? Fin q)%F eqn:E1; [|reflexivity].
  destruct (Fin q <? Fin (-0.3))%F eqn:E2; [|reflexivity].
  cmp_cases. exfalso. lra.
Qed.

(** C2. Whatever the bars and the weights (accepted ones included), on
    every bar [final_long] is exactly [weighted_signal > 0.3],
    [final_short] is exactly [weighted_signal < -0.3], and the two are
    never both true. *)
Theorem final_long_short_exclusive (self : WeightedSignalGenerator) (df : DataFrame)
    (rsi_length : Z) (os ob : Q) (cl al lookback : Z) (sigs : Signals) (i : nat) :
  generate_weighted_signal self df rsi_length os ob cl al lookback = Ok sigs ->
  final_long sigs !! i = (fun w => (w >? Fin 0.3)%F) <$> weighted_signal sigs !! i /\
  final_short sigs !! i = (fun w => (w <? Fin (-0.3))%F) <$> weighted_signal sigs !! i /\
  ~ (final_long sigs !! i = Some true /\ final_short sigs !! i = Some true).
Proof.
  intros Hgen.
  apply generate_weighted_signal_ok in Hgen as (_ & _ & _ & _ & Hlong & Hshort).
  rewrite Hlong, Hshort, !list_lookup_fmap.
  split; [reflexivity|]. split; [reflexivity|].
  destruct (weighted_signal sigs !! i) as [w|]; intros [Hl Hs]; [|discriminate Hl].
  assert (El : (w >? Fin 0.3)%F = true) by (injection Hl; auto).
  assert (Es : (w <? Fin (-0.3))%F = true) by (injection Hs; auto).
  pose proof (long_short_disjoint w) as Hd. rewrite El, Es in Hd. discriminate Hd.
Qed.

End WithIndicators.

Lemma sample_run_ok : sample_run = Ok sample_signals.
Proof. vm_compute. reflexivity. Qed.

(** On the last of the four bars the generator says short and not long. *)
Lemma final_long_short_exclusive_witness :
  final_short sample_signals !! 3%nat = Some true /\
  ~ (final_long sample_signals !! 3%nat = Some true /\
     final_short sample_signals !! 3%nat = Some true).
Proof.
  split; [vm_compute; reflexivity|].
  exact (proj2 (proj2 (@final_long_short_exclusive price_indicators _ _ _ _ _ _ _ _ _ 3%nat
                         sample_run_ok))).
Defined.

Lemma rsi_signal_piecewise_witness :
  exists v, rsi_signal sample_signals !! 1%nat = Some v /\ v = Fin ((50 - 40) / (50 - 30)).
Proof.
  destruct (@rsi_signal_piecewise price_indicators rsi_frame 14 30 70
              [20; 40; 60; 80] (rsi_signal sample_signals) 1%nat 40)
    as (v & Hv & _ & _ & _ & Hbuy & _).
  - reflexivity.
  - vm_compute. reflexivity.
  - reflexivity.
  - exists v. split; [exact Hv|]. apply Hbuy; reflexivity.
Defined.

Lemma wavetrend_signal_buckets_witness :
  exists v, wavetrend_signal sample_signals !! 0%nat = Some v /\ v = Fin (-0.5).
Proof.
  destruct (@wavetrend_signal_buckets price_indicators rsi_frame 10 21
              [20; 40; 60; 80] (wavetrend_signal sample_signals) 0%nat
              (Fin (20 - 100)) (Fin 0))
    as (v & Hv & _ & _ & _ & Hsell & _).
  - reflexivity.
  - vm_compute. reflexivity.
  - reflexivity.
  - exists v. split; [exact Hv|]. apply Hsell; reflexivity.
Defined.

End SignalProps.

(** ** Bounds on the fused signal *)

Module SignalBounds.
Import WeightedSignalGenerator.

Lemma clip_within (x : pyfloat) :
  x <> NaN -> F.within (-1) 1 (F.clip x (Fin (-1)) (Fin 1)).
Proof.
  destruct x as [q| | |]; intros Hx; try congruence; try (vm_compute; split; discriminate).
  unfold F.clip, F.maximum.
  destruct (Fin q <=? Fin (-1))%F eqn:E1; cmp_cases.
  - vm_compute. split; discriminate.
  - unfold F.minimum. destruct (Fin q <=? Fin 1)%F eqn:E2; cmp_cases; simpl; lra.
Qed.

Lemma rsi_signal_at_within (oversold overbought : Q) (r : pyfloat) :
  r <> NaN -> F.within (-1) 1 (rsi_signal_at oversold overbought r).
Proof.
  destruct r as [q| | |]; intros Hr; try congruence.
  - rewrite SignalProps.rsi_signal_at_finite. repeat case_decide; simpl; try lra.
    + assert (0 < 50 - oversold) by lra. split.
      * apply Qle_shift_div_l; [assumption|]. lra.
      * apply Qle_shift_div_r; [assumption|]. lra.
    + assert (0 < overbought - 50) by lra. split.
      * apply Qle_shift_div_l; [assumption|]. lra.
      * apply Qle_shift_div_r; [assumption|]. lra.
  - unfold rsi_signal_at. simpl. split; discriminate.
  - unfold rsi_signal_at. simpl. split; discriminate.
Qed.

Lemma wt_signal_at_within (wt : pyfloat * pyfloat) :
  F.within (-1) 1 (wt_signal_at wt).
Proof.
  destruct wt as [wt1 wt2]. unfold wt_signal_at.
  repeat match goal with |- context [if ?b then _ else _] => destruct b end;
    simpl; split; discriminate.
Qed.

Lemma momentum_at_within (price sma_short sma_long : Q) :
  0 < sma_short -> 0 < sma_long ->
  F.within (-1) 1 (momentum_at price sma_short sma_long).
Proof.
  intros Hs Hl. unfold momentum_at. apply clip_within.
  simpl. rewrite !is_zero_false by lra. simpl. discriminate.
Qed.

Lemma weighted_at_within (self : WeightedSignalGenerator) (a b c : pyfloat) :
  0 <= rsi_weight self -> 0 <= wavetrend_weight self -> 0 <= buy_sell_weight self ->
  F.within (-1) 1 a -> F.within (-1) 1 b -> F.within (-1) 1 c ->
  F.within (- (rsi_weight self + wavetrend_weight self + buy_sell_weight self))
           (rsi_weight self + wavetrend_weight self + buy_sell_weight self)
           (weighted_at self a b c).
Proof.
  intros H1 H2 H3.
  destruct a as [qa| | |], b as [qb| | |], c as [qc| | |]; simpl; try tauto.
  intros Ha Hb Hc. split; nra.
Qed.


(** Sums and means of positive numbers. *)
Lemma fold_left_Qplus_ge (xs : list Q) (acc : Q) :
  Forall (fun x => 0 < x) xs -> acc <= fold_left Qplus xs acc.
Proof.
  revert acc. induction xs as [|x xs IH]; intros acc Hpos; simpl; [lra|].
  inversion Hpos as [|? ? Hx Hxs]; subst.
  specialize (IH (acc + x) Hxs). lra.
Qed.

Lemma sum_pos (xs : list Q) :
  Forall (fun x => 0 < x) xs -> xs <> [] -> 0 < sum xs.
Proof.
  destruct xs as [|x xs]; [congruence|]. intros Hpos _. unfold sum. simpl.
  inversion Hpos as [|? ? Hx Hxs]; subst.
  pose proof (fold_left_Qplus_ge xs (0 + x) Hxs). lra.
Qed.

Lemma mean_pos (xs : list Q) :
  Forall (fun x => 0 < x) xs -> xs <> [] -> 0 < mean xs.
Proof.
  intros Hpos Hne. unfold mean. apply Qlt_shift_div_l.
  - destruct xs; [congruence|]. unfold Qlt. simpl. lia.
  - rewrite Qmult_0_l. apply sum_pos; assumption.
Qed.

Lemma rolling_mean_pos (w : nat) (s : list Q) (i : nat) (m : Q) :
  (0 < w)%nat -> Forall (fun x => 0 < x) s ->
  rolling_mean w s !! i = Some m -> 0 < m.
Proof.
  intros Hw Hpos. unfold rolling_mean. rewrite list_lookup_fmap.
  destruct (seq 0 (length s) !! i) as [j|] eqn:Hj; [|discriminate].
  apply lookup_seq in Hj as [-> Hlt]. simpl. intros [= <-].
  apply mean_pos.
  - unfold rolling_window. apply Forall_drop, Forall_take, Hpos.
  - unfold rolling_window. intros Hnil.
    apply (f_equal length) in Hnil. rewrite length_drop, length_take in Hnil.
    change (length (@nil Q)) with 0%nat in Hnil. lia.
Qed.

Lemma rolling_ok (w : Z) (s r : list Q) :
  rolling w s = Ok r -> (0 < w)%Z /\ r = rolling_mean (Z.to_nat w) s.
Proof.
  unfold rolling. destruct (Z.ltb_spec w 0); [discriminate|].
  destruct (Z.eqb_spec w 0); [discriminate|].
  intros [= <-]. split; [lia | reflexivity].
Qed.

Section WithIndicators.
Context `{Indicators}.

Lemma buy_sell_signal_within (df : DataFrame) (lookback : Z)
    (close : list Q) (bs : list pyfloat) (i : nat) (c : pyfloat) :
  getitem df "close" = Ok close -> Forall (fun p => 0 < p) close ->
  generate_buy_sell_signal df "close" lookback = Ok bs ->
  bs !! i = Some c -> F.within (-1) 1 c.
Proof.
  intros Hclose Hpos Hgen Hc. unfold generate_buy_sell_signal in Hgen.
  rewrite Hclose in Hgen. simpl in Hgen.
  destruct (rolling lookback close) as [sma_long|] eqn:Hlong; [|discriminate].
  simpl in Hgen. injection Hgen as <-.
  apply rolling_ok in Hlong as [Hlb ->].
  apply zip_with3_lookup in Hc as (p & s & l & _ & Hs & Hl & ->).
  apply momentum_at_within.
  - apply (rolling_mean_pos 5 close i); [lia | exact Hpos | exact Hs].
  - apply (rolling_mean_pos (Z.to_nat lookback) close i); [lia | exact Hpos | exact Hl].
Qed.

(** C4, as amended. For accepted weights that are not negative, on
    every bar of a series of positive closes whose RSI value is a
    number, the fused signal lies between -1.001 and 1.001, and
    between -1 and 1 when the weights sum to at most 1. *)
Theorem weighted_signal_bounded (w1 w2 w3 : Q) (self : WeightedSignalGenerator)
    (df : DataFrame) (rsi_length : Z) (os ob : Q) (cl al lookback : Z)
    (close : list Q) (sigs : Signals) (i : nat) (w : pyfloat) :
  init w1 w2 w3 = Ok self ->
  0 <= w1 -> 0 <= w2 -> 0 <= w3 ->
  getitem df "close" = Ok close ->
  Forall (fun p => 0 < p) close ->
  Forall (fun r => r <> NaN) (rsi close rsi_length) ->
  generate_weighted_signal self df rsi_length os ob cl al lookback = Ok sigs ->
  weighted_signal sigs !! i = Some w ->
  F.within (- (1.001)) 1.001 w /\ (w1 + w2 + w3 <= 1 -> F.within (-1) 1 w).
Proof.
  intros Hinit H1 H2 H3 Hclose Hpos Hrsi Hgen Hw.
  destruct (SignalProps.init_accepts_within_tolerance w1 w2 w3 self Hinit)
    as (Htol & E1 & E2 & E3).
  apply SignalProps.generate_weighted_signal_ok in Hgen
    as (Hr & Hwt & Hbs & Hweighted & _ & _).
  rewrite Hweighted in Hw.
  apply zip_with3_lookup in Hw as (a & b & c & Ha & Hb & Hc & ->).
  assert (Wa : F.within (-1) 1 a).
  { unfold generate_rsi_signal in Hr. rewrite Hclose in Hr. simpl in Hr.
    apply series_with_index_ok in Hr as [Hr _]. rewrite Hr in Ha.
    rewrite list_lookup_fmap in Ha.
    destruct (rsi close rsi_length !! i) as [r|] eqn:Hri; [|discriminate].
    injection Ha as <-. apply rsi_signal_at_within.
    rewrite Forall_forall in Hrsi. apply Hrsi.
    eapply list_elem_of_lookup_2. exact Hri. }
  assert (Wb : F.within (-1) 1 b).
  { unfold generate_wavetrend_signal in Hwt.
    destruct (hlc3 df) as [src|]; [|discriminate]. simpl in Hwt.
    apply series_with_index_ok in Hwt as [Hwt _]. rewrite Hwt in Hb.
    rewrite list_lookup_fmap in Hb.
    destruct (wavetrend src cl al !! i) as [wt|]; [|discriminate].
    injection Hb as <-. apply wt_signal_at_within. }
  assert (Wc : F.within (-1) 1 c)
    by (eapply buy_sell_signal_within; eassumption).
  pose proof (weighted_at_within self a b c) as Hbound.
  rewrite E1, E2, E3 in Hbound. specialize (Hbound H1 H2 H3 Wa Wb Wc).
  apply Qabs_Qle_condition in Htol.
  destruct (weighted_at self a b c) as [q| | |]; simpl in Hbound |- *; try tauto.
  split; [lra|]. intros Hsum. lra.
Qed.

End WithIndicators.

(** C4 fails on the code. The weights 0 / 0 / 1.001 are accepted (the sum
    is within the tolerance); on the two bars with closes 1 and 2 the
    momentum sub-signal of the second bar is clipped to 1, and the fused
    signal there is 1.001. *)
Lemma weighted_signal_exceeds_one :
  exists self sigs w,
    init 0 0 1.001 = Ok self /\
    @generate_weighted_signal flat_indicators self two_bar_frame 14 30 70 10 21 20
      = Ok sigs /\
    buy_sell_signal sigs !! 1%nat = Some (Fin 1) /\
    weighted_signal sigs !! 1%nat = Some (Fin w) /\
    w == 1.001 /\ 1 < w.
Proof.
  eexists. eexists. eexists.
  split; [reflexivity|]. split; [vm_compute; reflexivity|].
  split; [reflexivity|]. split; [reflexivity|].
  split; reflexivity.
Qed.

(** The same holds whatever the two indicator modules compute on these
    bars: a sub-signal times the weight 0 is 0 or NaN. *)
Lemma any_indicators_exceed_one `{Indicators}
    (sigs : Signals) (w : pyfloat) :
  generate_weighted_signal
    {| rsi_weight := 0; wavetrend_weight := 0; buy_sell_weight := 1.001 |}
    two_bar_frame 14 30 70 10 21 20 = Ok sigs ->
  weighted_signal sigs !! 1%nat = Some w ->
  ~ F.within (-1) 1 w.
Proof.
  intros Hgen Hw.
  apply SignalProps.generate_weighted_signal_ok in Hgen
    as (_ & Hwt & Hbs & Hweighted & _ & _).
  rewrite Hweighted in Hw.
  apply zip_with3_lookup in Hw as (a & b & c & _ & Hb & Hc & ->).
  assert (Hc1 : c = Fin 1).
  { change (generate_buy_sell_signal two_bar_frame "close" 20)
      with (Ok [Fin (0 # 2); Fin 1] : result (list pyfloat)) in Hbs.
    injection Hbs as Hbs. rewrite <- Hbs in Hc. simpl in Hc. congruence. }
  assert (Wb : F.within (-1) 1 b).
  { unfold generate_wavetrend_signal in Hwt.
    destruct (hlc3 two_bar_frame) as [src|]; [|discriminate]. simpl in Hwt.
    apply series_with_index_ok in Hwt as [Hwt _]. rewrite Hwt in Hb.
    rewrite list_lookup_fmap in Hb.
    destruct (wavetrend src 10 21 !! 1%nat) as [wt|]; [|discriminate].
    injection Hb as <-. apply wt_signal_at_within. }
  subst c. unfold weighted_at. simpl rsi_weight. simpl wavetrend_weight.
  simpl buy_sell_weight.
  destruct b as [qb| | |]; simpl in Wb; try tauto.
  destruct a as [qa| | |]; simpl; try tauto.
  intros [_ Hle]. lra.
Qed.

Lemma weighted_signal_bounded_witness :
  exists w, weighted_signal sample_signals !! 3%nat = Some w /\
    F.within (- (1.001)) 1.001 w /\ F.within (-1) 1 w.
Proof.
  exists (Fin (-0.4000)). split; [vm_compute; reflexivity|].
  destruct (@weighted_signal_bounded price_indicators 0.4 0.4 0.2
              {| rsi_weight := 0.4; wavetrend_weight := 0.4; buy_sell_weight := 0.2 |}
              rsi_frame 14 30 70 10 21 20 [20; 40; 60; 80] sample_signals
              3%nat (Fin (-0.4000))) as [Hwide Hnarrow].
  - reflexivity.
  - discriminate.
  - discriminate.
  - discriminate.
  - reflexivity.
  - repeat constructor.
  - repeat constructor; discriminate.
  - exact SignalProps.sample_run_ok.
  - vm_compute. reflexivity.
  - split; [exact Hwide | apply Hnarrow; discriminate].
Defined.

End SignalBounds.

(** ** The metrics *)

Module MetricsProps.
Import EnhancedBacktester.

(** *** Profit factor *)

Lemma fold_left_Qplus_le (xs : list Q) (acc : Q) :
  Forall (fun x => x < 0) xs -> fold_left Qplus xs acc <= acc.
Proof.
  revert acc. induction xs as [|x xs IH]; intros acc Hneg; simpl; [lra|].
  inversion Hneg as [|? ? Hx Hxs]; subst.
  specialize (IH (acc + x) Hxs). lra.
Qed.

Lemma sum_neg (xs : list Q) :
  Forall (fun x => x < 0) xs -> xs <> [] -> sum xs < 0.
Proof.
  destruct xs as [|x xs]; [congruence|]. intros Hneg _. unfold sum. simpl.
  inversion Hneg as [|? ? Hx Hxs]; subst.
  pose proof (fold_left_Qplus_le xs (0 + x) Hxs). lra.
Qed.

Lemma profit_factor_of_cases (total_profit total_loss : Q) :
  (0 < total_loss -> profit_factor_of total_profit total_loss
                     = Fin (total_profit / total_loss)) /\
  (total_loss <= 0 -> profit_factor_of total_profit total_loss = PosInf).
Proof.
  unfold profit_factor_of, F.gtb.
  destruct (Fin 0 <? Fin total_loss)%F eqn:E; cmp_cases; split; intros Hl;
    try reflexivity; exfalso; lra.
Qed.

Section WithData.
Context `{RiskData}.


Lemma metrics_full (trades : list LedgerEntry) (daily_summaries : list DailySummary) :
  closed_pnls trades <> [] ->
  _calculate_enhanced_metrics trades daily_summaries !! "profit_factor"
    = Some (profit_factor_of (total_profit_of trades) (total_loss_of trades)) /\
  _calculate_enhanced_metrics trades daily_summaries !! "total_profit"
    = Some (Fin (total_profit_of trades)) /\
  _calculate_enhanced_metrics trades daily_summaries !! "total_loss"
    = Some (Fin (total_loss_of trades)) /\
  _calculate_enhanced_metrics trades daily_summaries !! "max_drawdown"
    = Some (match daily_summaries with
            | [] => Fin 0
            | _ :: _ => max_drawdown_of
                          ((fun ds => current_capital (ds_summary ds)) <$> daily_summaries)
            end).
Proof.
  intros Hclosed. unfold _calculate_enhanced_metrics.
  destruct trades as [|t trades]; [contradiction Hclosed; reflexivity|].
  unfold total_profit_of, total_loss_of, closed_pnls in *.
  destruct (omap entry_pnl (t :: trades)) as [|first others] eqn:Hpnls;
    [contradiction Hclosed; reflexivity|].
  unfold list_to_map. cbn [foldr uncurry fst snd].
  repeat split; by simplify_map_eq.
Qed.



End WithData.



End MetricsProps.

(** *** Maximum drawdown *)

Module DrawdownProps.
Import EnhancedBacktester.

Lemma qmax_ge_l (a b : Q) : a <= qmax a b.
Proof.
  unfold qmax. destruct (Qle_bool a b) eqn:E; [apply Qle_bool_iff in E; exact E | lra].
Qed.

Lemma qmax_ge_r (a b : Q) : b <= qmax a b.
Proof.
  unfold qmax. destruct (Qle_bool a b) eqn:E; [lra | apply Qle_bool_false in E; lra].
Qed.

Lemma accumulate_from_lookup (xs : list Q) (peak : Q) (i : nat) :
  (i < length xs)%nat ->
  accumulate_from peak xs !! i = Some (fold_left qmax (take (S i) xs) peak).
Proof.
  revert peak i. induction xs as [|x xs IH]; intros peak i Hi; simpl in Hi; [lia|].
  destruct i as [|i]; simpl.
  - destruct xs; reflexivity.
  - apply IH. lia.
Qed.

(** [np.maximum.accumulate] computes the running peak. *)
Lemma maximum_accumulate_lookup (equity_curve : list Q) (i : nat) :
  (i < length equity_curve)%nat ->
  maximum_accumulate equity_curve !! i = Some (running_peak equity_curve i).
Proof.
  destruct equity_curve as [|x rest]; simpl; [lia|]. intros Hi.
  unfold running_peak. simpl.
  destruct i as [|i]; simpl.
  - destruct rest; reflexivity.
  - rewrite accumulate_from_lookup by lia. reflexivity.
Qed.

Lemma maximum_accumulate_length (equity_curve : list Q) :
  length (maximum_accumulate equity_curve) = length equity_curve.
Proof.
  destruct equity_curve as [|x rest]; [reflexivity|]. simpl. f_equal.
  generalize x. induction rest as [|y rest IH]; intros p; simpl; [reflexivity|].
  f_equal. apply IH.
Qed.

(** The running peak is the largest equity so far. *)
Lemma fold_left_qmax_ge (xs : list Q) (p : Q) :
  p <= fold_left qmax xs p /\ Forall (fun x => x <= fold_left qmax xs p) xs.
Proof.
  revert p. induction xs as [|x xs IH]; intros p; simpl; [split; [lra | constructor]|].
  destruct (IH (qmax p x)) as [Hp Hxs].
  pose proof (qmax_ge_l p x). pose proof (qmax_ge_r p x).
  split; [lra|]. constructor; [lra | exact Hxs].
Qed.

Lemma fold_left_qmax_in (xs : list Q) (p : Q) :
  fold_left qmax xs p = p \/ fold_left qmax xs p ∈ xs.
Proof.
  revert p. induction xs as [|x xs IH]; intros p; simpl; [left; reflexivity|].
  destruct (IH (qmax p x)) as [Heq|Hin].
  - rewrite Heq. unfold qmax. destruct (Qle_bool p x); [right; left | left; reflexivity].
  - right. right. exact Hin.
Qed.

Lemma running_peak_is_largest (equity_curve : list Q) (i : nat) :
  (i < length equity_curve)%nat ->
  (forall j e, (j <= i)%nat -> equity_curve !! j = Some e ->
               e <= running_peak equity_curve i) /\
  (exists j, (j <= i)%nat /\ equity_curve !! j = Some (running_peak equity_curve i)).
Proof.
  intros Hi. unfold running_peak.
  destruct equity_curve as [|x rest]; simpl in Hi; [lia|]. simpl.
  destruct (fold_left_qmax_ge (take i rest) x) as [Hx Hrest]. split.
  - intros [|j] e Hj He; simpl in He.
    + injection He as <-. exact Hx.
    + rewrite Forall_forall in Hrest. apply Hrest.
      apply list_elem_of_lookup. exists j. rewrite lookup_take_lt by lia. exact He.
  - destruct (fold_left_qmax_in (take i rest) x) as [Heq|Hin].
    + exists 0%nat. split; [lia|]. simpl. rewrite Heq. reflexivity.
    + apply list_elem_of_lookup in Hin as [j Hj].
      pose proof (lookup_lt_Some _ _ _ Hj) as Hlt. rewrite length_take in Hlt.
      rewrite lookup_take_lt in Hj by lia.
      exists (S j). split; [lia | exact Hj].
Qed.

Lemma drawdown_series_lookup (equity_curve : list Q) (i : nat) (e : Q) :
  equity_curve !! i = Some e ->
  drawdown_series equity_curve !! i
    = Some (Fin (e - running_peak equity_curve i) / Fin (running_peak equity_curve i))%F.
Proof.
  intros He. unfold drawdown_series. rewrite lookup_zip_with, He. simpl.
  rewrite maximum_accumulate_lookup by (eapply lookup_lt_Some; exact He).
  reflexivity.
Qed.

Lemma drawdown_series_length (equity_curve : list Q) :
  length (drawdown_series equity_curve) = length equity_curve.
Proof.
  unfold drawdown_series. rewrite length_zip_with, maximum_accumulate_length. lia.
Qed.

(** [np.min] over finite values is their minimum. *)
Lemma fold_minimum_finite (ds : list pyfloat) (q0 : Q) :
  Forall (fun d => F.is_finite d = true) ds ->
  exists m, fold_left F.minimum ds (Fin q0) = Fin m /\
    (m = q0 \/ Fin m ∈ ds) /\ m <= q0 /\ (forall q, Fin q ∈ ds -> m <= q).
Proof.
  revert q0. induction ds as [|d ds IH]; intros q0 Hfin; cbn [fold_left].
  - exists q0. split; [reflexivity|]. split; [left; reflexivity|].
    split; [lra|]. intros q Hq. inversion Hq.
  - inversion Hfin as [|? ? Hd Hds]; subst.
    destruct d as [q1| | |]; try discriminate.
    assert (Hm : exists q2, F.minimum (Fin q0) (Fin q1) = Fin q2 /\
                 (q2 = q0 \/ q2 = q1) /\ q2 <= q0 /\ q2 <= q1).
    { unfold F.minimum. destruct (Fin q0 <=? Fin q1)%F eqn:E; cmp_cases.
      - exists q0. repeat split; [left; reflexivity | lra | exact E].
      - exists q1. repeat split; [right; reflexivity | lra | lra]. }
    destruct Hm as (q2 & -> & Hq2 & Hle0 & Hle1).
    destruct (IH q2 Hds) as (m & Hfold & Hin & Hle & Hall).
    exists m. split; [exact Hfold|]. split; [|split].
    + destruct Hin as [->|Hin].
      * destruct Hq2 as [->| ->]; [left; reflexivity | right; left].
      * right. right. exact Hin.
    + lra.
    + intros q Hq. apply elem_of_cons in Hq as [[= ->]|Hq]; [lra | auto].
Qed.

Lemma drawdown_finite (equity_curve : list Q) (i : nat) (e : Q) :
  ~ running_peak equity_curve i == 0 ->
  equity_curve !! i = Some e ->
  drawdown_series equity_curve !! i = Some (Fin (drawdown_at equity_curve i e)).
Proof.
  intros Hpeak He. rewrite (drawdown_series_lookup _ _ _ He).
  simpl. rewrite is_zero_false by exact Hpeak. reflexivity.
Qed.

(** The minimum of the drawdowns of a curve whose running peaks are not
    zero. *)
Lemma max_drawdown_of_minimum (equity_curve : list Q) :
  equity_curve <> [] ->
  (forall i, (i < length equity_curve)%nat -> ~ running_peak equity_curve i == 0) ->
  exists m, max_drawdown_of equity_curve = Fin m /\ m <= 0 /\
    (forall i e, equity_curve !! i = Some e -> m <= drawdown_at equity_curve i e) /\
    (exists i e, equity_curve !! i = Some e /\ m = drawdown_at equity_curve i e).
Proof.
  intros Hne Hpeaks.
  destruct equity_curve as [|e0 rest] eqn:Hec; [congruence|]. rewrite <- Hec in *.
  assert (He0 : equity_curve !! 0%nat = Some e0) by (rewrite Hec; reflexivity).
  assert (Hlen : length equity_curve = S (length rest)) by (rewrite Hec; reflexivity).
  pose proof (drawdown_finite _ _ _ (Hpeaks 0%nat ltac:(lia)) He0) as Hd0.
  unfold max_drawdown_of.
  destruct (drawdown_series equity_curve) as [|d0 ds] eqn:Hds; [discriminate Hd0|].
  simpl in Hd0. injection Hd0 as ->.
  assert (Hlookup : forall j e, equity_curve !! S j = Some e ->
            ds !! j = Some (Fin (drawdown_at equity_curve (S j) e))).
  { intros j e He.
    pose proof (drawdown_finite equity_curve (S j) e) as Hd.
    rewrite Hds in Hd. apply Hd; [|exact He].
    apply Hpeaks. eapply lookup_lt_Some. exact He. }
  assert (Hfin : Forall (fun d => F.is_finite d = true) ds).
  { apply Forall_lookup. intros j d Hj.
    assert (Hjlt : (S j < length equity_curve)%nat).
    { rewrite <- drawdown_series_length, Hds. simpl.
      apply lookup_lt_Some in Hj. lia. }
    destruct (lookup_lt_is_Some_2 equity_curve (S j) Hjlt) as [e He].
    rewrite (Hlookup j e He) in Hj. injection Hj as <-. reflexivity. }
  destruct (fold_minimum_finite ds (drawdown_at equity_curve 0 e0) Hfin)
    as (m & Hfold & Hin & Hle & Hall).
  exists m. simpl. split; [exact Hfold|]. split; [|split].
  - assert (Hzero : drawdown_at equity_curve 0 e0 == 0).
    { unfold drawdown_at. pose proof (Hpeaks 0%nat ltac:(lia)) as Hp.
      replace (running_peak equity_curve 0) with e0 in * by (rewrite Hec; reflexivity).
      field. exact Hp. }
    lra.
  - intros [|j] e He.
    + rewrite He0 in He. injection He as <-. exact Hle.
    + apply Hall. eapply list_elem_of_lookup_2. apply Hlookup. exact He.
  - destruct Hin as [->|Hin].
    + exists 0%nat, e0. split; [exact He0 | reflexivity].
    + apply list_elem_of_lookup in Hin as [j Hj].
      assert (Hjlt : (S j < length equity_curve)%nat).
      { rewrite <- drawdown_series_length, Hds. simpl.
        apply lookup_lt_Some in Hj. lia. }
      destruct (lookup_lt_is_Some_2 equity_curve (S j) Hjlt) as [e He].
      exists (S j), e. split; [exact He|].
      rewrite (Hlookup j e He) in Hj. congruence.
Qed.

Section WithData.
Context `{RiskData}.


End WithData.



End DrawdownProps.

(** ** Timeframes *)

Module TimeframeProps.
Import EnhancedBacktester.

(** The supported timeframes the conversion map has no entry for. *)
Lemma unmapped_timeframes :
  filter (fun tf => timeframe_map !! tf = None) supported_timeframes
  = ["3m"; "10m"; "20m"; "3h"; "8h"; "2d"; "3d"; "2w"; "3w"; "2M"].
Proof. vm_compute. reflexivity. Qed.

Lemma convert_unmapped (timeframe : string) :
  timeframe_map !! timeframe = None ->
  _convert_timeframe_to_yfinance timeframe = "1d".
Proof. unfold _convert_timeframe_to_yfinance. intros ->. reflexivity. Qed.

Lemma convert_daily : _convert_timeframe_to_yfinance "1d" = "1d".
Proof. vm_compute. reflexivity. Qed.

Section WithMarket.
Context `{Indicators} `{MarketData} `{RiskData}.
Context (RM : Type) `{!AdvancedRiskManager RM}.

Lemma fetch_depends_on_interval (symbol t1 t2 start_date end_date source : string) :
  _convert_timeframe_to_yfinance t1 = _convert_timeframe_to_yfinance t2 ->
  fetch_historical_data symbol t1 start_date end_date source
  = fetch_historical_data symbol t2 start_date end_date source.
Proof.
  intros Hsame.
  unfold fetch_historical_data, _fetch_alpaca_data, _fetch_crypto_data,
    _fetch_yfinance_data.
  rewrite Hsame. reflexivity.
Qed.

(** C10, as amended. For every member of [supported_timeframes] that
    the conversion map has no entry for - these are 3m, 10m, 20m, 3h,
    8h, 2d, 3d, 2w, 3w and 2M - the timeframe check of
    [run_enhanced_backtest] passes, the converted interval is '1d', and
    the run is the run on the data fetched for '1d'. *)
Theorem unmapped_timeframe_runs_on_daily_data
    (symbol timeframe start_date end_date : string) (args : BacktestArgs) :
  timeframe ∈ supported_timeframes ->
  timeframe_map !! timeframe = None ->
  timeframe ∈ ["3m"; "10m"; "20m"; "3h"; "8h"; "2d"; "3d"; "2w"; "3w"; "2M"] /\
  validate_timeframe timeframe = true /\
  _convert_timeframe_to_yfinance timeframe = "1d" /\
  _fetch_yfinance_data symbol timeframe start_date end_date
    = match yfinance_history symbol start_date end_date "1d" with
      | Ok df => if df_empty df then Raise (ValueError "Failed to fetch yfinance data")
                 else Ok df
      | Raise _ => Raise (ValueError "Failed to fetch yfinance data")
      end /\
  run_enhanced_backtest RM symbol timeframe start_date end_date args
    = (df ← fetch_historical_data symbol "1d" start_date end_date (data_source args);
       if df_empty df then Raise (ValueError "No data fetched for backtesting")
       else backtest_frame RM symbol timeframe start_date end_date args df).
Proof.
  intros Hsupported Hunmapped.
  pose proof (convert_unmapped timeframe Hunmapped) as Hconv.
  split; [|split; [|split; [|split]]].
  - rewrite <- unmapped_timeframes. apply list_elem_of_filter. auto.
  - unfold validate_timeframe. apply bool_decide_eq_true. exact Hsupported.
  - exact Hconv.
  - unfold _fetch_yfinance_data. rewrite Hconv. reflexivity.
  - unfold run_enhanced_backtest, validate_timeframe.
    rewrite bool_decide_eq_true_2 by exact Hsupported. simpl negb. cbv iota.
    rewrite (fetch_depends_on_interval symbol timeframe "1d"); [reflexivity|].
    rewrite Hconv, convert_daily. reflexivity.
Qed.

End WithMarket.

(** C10 fails for one of its examples: '2y' is a supported timeframe that
    the conversion map does have an entry for, and it is converted to
    '2y', not to '1d'. *)
Lemma two_years_is_mapped :
  validate_timeframe "2y" = true /\
  timeframe_map !! "2y" = Some "2y" /\
  _convert_timeframe_to_yfinance "2y" = "2y" /\
  bool_decide ("2y" ∈ filter (fun tf => timeframe_map !! tf = None) supported_timeframes)
    = false.
Proof. vm_compute. repeat split. Qed.

(** A three-minute backtest on the sample market is the daily one. *)
Lemma unmapped_timeframe_runs_on_daily_data_witness :
  _convert_timeframe_to_yfinance "3m" = "1d" /\
  @run_enhanced_backtest price_indicators Sample.market Sample.data
     Sample.Manager Sample.manager "AAPL" "3m" "2024-01-01" "2024-01-05" default_args
  = (df ← @fetch_historical_data Sample.market "AAPL" "1d" "2024-01-01" "2024-01-05" "auto";
     if df_empty df then Raise (ValueError "No data fetched for backtesting")
     else @backtest_frame price_indicators Sample.data Sample.Manager Sample.manager
            "AAPL" "3m" "2024-01-01" "2024-01-05" default_args df).
Proof.
  destruct (@unmapped_timeframe_runs_on_daily_data price_indicators Sample.market
              Sample.data Sample.Manager Sample.manager
              "AAPL" "3m" "2024-01-01" "2024-01-05" default_args)
    as (_ & _ & Hconv & _ & Hrun).
  - apply (bool_decide_unpack _). vm_compute. exact I.
  - vm_compute. reflexivity.
  - split; [exact Hconv | exact Hrun].
Defined.

End TimeframeProps.

(** ** The simulator loop *)

Module SimulatorProps.
Import EnhancedBacktester.

Section OneManager.
Context `{RiskData} {RM : Type} `{!AdvancedRiskManager RM}.

Lemma no_entries_app (a b : BarLog) :
  no_entries a -> no_entries b -> no_entries (log_app a b).
Proof.
  intros [Ha1 Ha2] [Hb1 Hb2]. split; simpl; apply Forall_app; auto.
Qed.

Lemma no_breaker_check_app (a b : BarLog) :
  no_breaker_check a -> no_breaker_check b -> no_breaker_check (log_app a b).
Proof.
  intros Ha Hb t Hin. simpl in Hin. apply elem_of_app in Hin as [Hin|Hin].
  - exact (Ha t Hin).
  - exact (Hb t Hin).
Qed.

Lemma day_rollover_quiet (rm : RM) (summaries : list DailySummary)
    (current_date : option Z) (today : Z) :
  no_entries (day_rollover rm summaries current_date today).2 /\
  no_breaker_check (day_rollover rm summaries current_date today).2.
Proof.
  unfold day_rollover. case_bool_decide.
  - split; [split; constructor | intros t Hin; inversion Hin].
  - destruct current_date as [previous|].
    + destruct (get_portfolio_summary rm) as [rm' s]. simpl. split.
      * split; simpl; repeat constructor.
      * intros t Hin. simpl in Hin.
        apply elem_of_cons in Hin as [Hin|Hin]; [discriminate|].
        apply elem_of_cons in Hin as [Hin|Hin]; [discriminate|]. inversion Hin.
    + split; [split; constructor | intros t Hin; inversion Hin].
Qed.

Lemma update_positions_quiet (price : Q) (snapshot : list Position) (rm : RM) :
  no_entries (update_positions rm price snapshot).1.2 /\
  no_breaker_check (update_positions rm price snapshot).1.2.
Proof.
  revert rm. induction snapshot as [|position rest IH]; intros rm; simpl.
  - split; [split; constructor | intros t Hin; inversion Hin].
  - destruct (update_position rm (pos_id position) price) as [rm' result].
    assert (Hcall : forall trades,
              Forall (fun t => is_open_record t = false) trades ->
              no_entries {| bar_events := [UpdatePosition (pos_id position) price];
                            bar_trades := trades |} /\
              no_breaker_check {| bar_events := [UpdatePosition (pos_id position) price];
                                  bar_trades := trades |}).
    { intros trades Htrades. split.
      - split; simpl; [repeat constructor | exact Htrades].
      - intros t Hin. simpl in Hin.
        apply elem_of_cons in Hin as [Hin|Hin]; [discriminate | inversion Hin]. }
    specialize (IH rm').
    case_bool_decide.
    + destruct (trade result) as [t|].
      * destruct (update_positions rm' price rest) as [[rm'' log] err]. simpl in *.
        destruct (Hcall [ClosedTrade t]) as [H1 H2]; [repeat constructor|].
        destruct IH as [IH1 IH2].
        split; [apply no_entries_app | apply no_breaker_check_app]; assumption.
      * simpl. apply Hcall. constructor.
    + destruct (update_positions rm' price rest) as [[rm'' log] err]. simpl in *.
      destruct (Hcall []) as [H1 H2]; [constructor|].
      destruct IH as [IH1 IH2].
      split; [apply no_entries_app | apply no_breaker_check_app]; assumption.
Qed.

Lemma new_entries_no_breaker_check (rm : RM) (row : Row) (tp1 tp2 runner : Q) :
  no_breaker_check (new_entries rm row tp1 tp2 runner).2.
Proof.
  unfold new_entries, open_and_record.
  destruct (signal_set (row_final_long row)).
  - destruct (open_position rm _ _ _ _ _ _ _) as [rm1 p1].
    destruct (signal_set (row_final_short row)).
    + destruct (open_position rm1 _ _ _ _ _ _ _) as [rm2 p2]. simpl.
      intros t Hin. simpl in Hin.
      apply elem_of_cons in Hin as [Hin|Hin]; [discriminate|].
      apply elem_of_cons in Hin as [Hin|Hin]; [discriminate | inversion Hin].
    + simpl. intros t Hin. simpl in Hin.
      apply elem_of_cons in Hin as [Hin|Hin]; [discriminate | inversion Hin].
  - destruct (signal_set (row_final_short row)).
    + destruct (open_position rm _ _ _ _ _ _ _) as [rm2 p2]. simpl.
      intros t Hin. simpl in Hin.
      apply elem_of_cons in Hin as [Hin|Hin]; [discriminate | inversion Hin].
    + simpl. intros t Hin. inversion Hin.
Qed.

(** On a bar where the breaker check answered true, nothing is opened. *)
Lemma process_bar_blocked (tp1 tp2 runner : Q) (st : SimState) (row : Row) :
  BreakerChecked true ∈ bar_events (process_bar tp1 tp2 runner st row).1.2 ->
  no_entries (process_bar tp1 tp2 runner st row).1.2.
Proof.
  unfold process_bar.
  pose proof (day_rollover_quiet (st_manager st) (st_daily_summaries st)
                (st_current_date st) (ts_date (row_timestamp row))) as [Hr1 Hr2].
  destruct (day_rollover _ _ _ _) as [[[rm summaries] current_date] log0].
  simpl in Hr1, Hr2.
  pose proof (update_positions_quiet (row_close row) (positions rm) rm) as [Hu1 Hu2].
  destruct (update_positions rm (row_close row) (positions rm)) as [[rm1 log1] err].
  simpl in Hu1, Hu2.
  destruct err as [e|]; simpl.
  - intros Hin. exfalso.
    apply elem_of_app in Hin as [Hin|Hin]; [exact (Hr2 _ Hin) | exact (Hu2 _ Hin)].
  - destruct (is_daily_breaker_triggered rm1) as [rm2 triggered].
    destruct triggered; simpl.
    + intros _. split; simpl.
      * rewrite app_nil_r. apply Forall_app. split.
        -- apply Forall_app. split; [apply Hr1 | apply Hu1].
        -- repeat constructor.
      * rewrite !app_nil_r. apply Forall_app. split; [apply Hr1 | apply Hu1].
    + pose proof (new_entries_no_breaker_check rm2 row tp1 tp2 runner) as He.
      destruct (new_entries rm2 row tp1 tp2 runner) as [rm3 log2]. simpl in He |- *.
      intros Hin. exfalso.
      rewrite <- !app_assoc in Hin.
      apply elem_of_app in Hin as [Hin|Hin]; [exact (Hr2 _ Hin)|].
      apply elem_of_app in Hin as [Hin|Hin]; [exact (Hu2 _ Hin)|].
      apply elem_of_cons in Hin as [Hin|Hin]; [discriminate|].
      exact (He _ Hin).
Qed.

(** Every log of a run is the log of [process_bar] on that bar. *)
Lemma simulate_bars_logs (tp1 tp2 runner : Q) (rows : list Row) (st : SimState)
    (i : nat) (log : BarLog) :
  (simulate_bars tp1 tp2 runner rows st).1.2 !! i = Some log ->
  exists st' row, rows !! i = Some row /\
                  log = (process_bar tp1 tp2 runner st' row).1.2.
Proof.
  revert st i. induction rows as [|row rest IH]; intros st i; simpl.
  - intros Hlog. discriminate Hlog.
  - destruct (process_bar tp1 tp2 runner st row) as [[st1 log1] err] eqn:Hbar.
    destruct err as [e|]; simpl.
    + destruct i as [|i]; simpl; [|intros Hlog; discriminate Hlog].
      intros [= <-]. exists st, row. rewrite Hbar. auto.
    + specialize (IH st1).
      destruct (simulate_bars tp1 tp2 runner rest st1) as [[st2 logs] err] eqn:Hrest.
      simpl in *. destruct i as [|i]; simpl.
      * intros [= <-]. exists st, row. rewrite Hbar. auto.
      * intros Hlog. apply IH in Hlog as (st' & row' & Hrow & ->). eauto.
Qed.

(** The ledger of a run is what the bars appended, in order. *)
Lemma simulate_bars_trades (tp1 tp2 runner : Q) (rows : list Row) (st : SimState) :
  st_trades (simulate_bars tp1 tp2 runner rows st).1.1
  = st_trades st ++ concat (bar_trades <$> (simulate_bars tp1 tp2 runner rows st).1.2).
Proof.
  revert st. induction rows as [|row rest IH]; intros st; simpl.
  - rewrite app_nil_r. reflexivity.
  - assert (Hbar : st_trades (process_bar tp1 tp2 runner st row).1.1
                   = st_trades st ++ bar_trades (process_bar tp1 tp2 runner st row).1.2).
    { unfold process_bar.
      destruct (day_rollover _ _ _ _) as [[[rm summaries] current_date] log0].
      destruct (update_positions rm (row_close row) (positions rm)) as [[rm1 log1] err].
      destruct err as [e|]; [reflexivity|].
      destruct (is_daily_breaker_triggered rm1) as [rm2 triggered].
      destruct (if negb triggered then _ else _) as [rm3 log2]. reflexivity. }
    destruct (process_bar tp1 tp2 runner st row) as [[st1 log1] err].
    simpl in Hbar. destruct err as [e|]; simpl.
    + rewrite app_nil_r. exact Hbar.
    + specialize (IH st1).
      destruct (simulate_bars tp1 tp2 runner rest st1) as [[st2 logs] err].
      simpl in *. rewrite IH, Hbar, <- app_assoc. reflexivity.
Qed.


End OneManager.

Section TwoManagers.
Context `{RiskData} {RM1 RM2 : Type}.
Context `{!AdvancedRiskManager RM1} `{!AdvancedRiskManager RM2}.
Variable R : RM1 -> RM2 -> Prop.
Hypothesis alike : AnswerAlike R.

Lemma day_rollover_alike (a : RM1) (b : RM2) (summaries : list DailySummary)
    (current_date : option Z) (today : Z) :
  R a b ->
  R (day_rollover a summaries current_date today).1.1.1
    (day_rollover b summaries current_date today).1.1.1 /\
  (day_rollover a summaries current_date today).1.1.2
  = (day_rollover b summaries current_date today).1.1.2 /\
  (day_rollover a summaries current_date today).1.2
  = (day_rollover b summaries current_date today).1.2 /\
  (day_rollover a summaries current_date today).2
  = (day_rollover b summaries current_date today).2.
Proof.
  intros Hab. unfold day_rollover. case_bool_decide; [simpl; auto|].
  destruct current_date as [previous|]; [|simpl; auto].
  destruct (alike_summary R alike a b Hab) as [HR Hs].
  destruct (get_portfolio_summary a) as [a' sa].
  destruct (get_portfolio_summary b) as [b' sb].
  simpl in *. subst sb. split; [|auto].
  apply (alike_reset R alike). exact HR.
Qed.

Lemma update_positions_alike (price : Q) (snapshot : list Position)
    (a : RM1) (b : RM2) :
  R a b ->
  R (update_positions a price snapshot).1.1 (update_positions b price snapshot).1.1 /\
  (update_positions a price snapshot).1.2 = (update_positions b price snapshot).1.2 /\
  (update_positions a price snapshot).2 = (update_positions b price snapshot).2.
Proof.
  revert a b. induction snapshot as [|position rest IH]; intros a b Hab; simpl; [auto|].
  destruct (alike_update R alike a b (pos_id position) price Hab) as [HR Hres].
  destruct (update_position a (pos_id position) price) as [a' ra].
  destruct (update_position b (pos_id position) price) as [b' rb].
  simpl in HR, Hres. subst rb. specialize (IH a' b' HR).
  destruct (update_positions a' price rest) as [[a'' loga] erra].
  destruct (update_positions b' price rest) as [[b'' logb] errb].
  simpl in IH. destruct IH as (HR' & -> & ->).
  case_bool_decide; [destruct (trade ra)|]; simpl; auto.
Qed.

Lemma open_and_record_alike (a : RM1) (b : RM2) (side : string)
    (price stop : Q) (ts : Timestamp) (tp1 tp2 runner : Q) :
  R a b ->
  R (open_and_record a side price stop ts tp1 tp2 runner).1
    (open_and_record b side price stop ts tp1 tp2 runner).1 /\
  (open_and_record a side price stop ts tp1 tp2 runner).2
  = (open_and_record b side price stop ts tp1 tp2 runner).2.
Proof.
  intros Hab. unfold open_and_record.
  destruct (alike_open R alike a b "SYMBOL" side price stop tp1 tp2 runner Hab)
    as [HR Hp].
  destruct (open_position a _ _ _ _ _ _ _) as [a' pa].
  destruct (open_position b _ _ _ _ _ _ _) as [b' pb].
  simpl in *. subst pb. auto.
Qed.

Lemma new_entries_alike (a : RM1) (b : RM2) (row : Row) (tp1 tp2 runner : Q) :
  R a b ->
  R (new_entries a row tp1 tp2 runner).1 (new_entries b row tp1 tp2 runner).1 /\
  (new_entries a row tp1 tp2 runner).2 = (new_entries b row tp1 tp2 runner).2.
Proof.
  intros Hab. unfold new_entries.
  assert (Hlong :
    R (if signal_set (row_final_long row)
       then open_and_record a "buy" (row_close row) (row_close row * 0.98)
              (row_timestamp row) tp1 tp2 runner
       else (a, empty_log)).1
      (if signal_set (row_final_long row)
       then open_and_record b "buy" (row_close row) (row_close row * 0.98)
              (row_timestamp row) tp1 tp2 runner
       else (b, empty_log)).1 /\
    (if signal_set (row_final_long row)
     then open_and_record a "buy" (row_close row) (row_close row * 0.98)
            (row_timestamp row) tp1 tp2 runner
     else (a, empty_log)).2
    = (if signal_set (row_final_long row)
       then open_and_record b "buy" (row_close row) (row_close row * 0.98)
              (row_timestamp row) tp1 tp2 runner
       else (b, empty_log)).2).
  { destruct (signal_set (row_final_long row)); [|simpl; auto].
    apply open_and_record_alike. exact Hab. }
  destruct (if signal_set (row_final_long row) then _ else (a, empty_log))
    as [a1 la].
  destruct (if signal_set (row_final_long row) then _ else (b, empty_log))
    as [b1 lb].
  simpl in Hlong. destruct Hlong as [HR1 ->].
  destruct (signal_set (row_final_short row)).
  - destruct (open_and_record_alike a1 b1 "sell" (row_close row)
                (row_close row * 1.02) (row_timestamp row) tp1 tp2 runner HR1)
      as [HR2 Hlog].
    destruct (open_and_record a1 _ _ _ _ _ _ _) as [a2 sa].
    destruct (open_and_record b1 _ _ _ _ _ _ _) as [b2 sb].
    simpl in *. subst sb. auto.
  - simpl. auto.
Qed.

Lemma process_bar_alike (tp1 tp2 runner : Q) (s1 : @SimState _ RM1)
    (s2 : @SimState _ RM2) (row : Row) :
  states_alike R s1 s2 ->
  states_alike R (process_bar tp1 tp2 runner s1 row).1.1
               (process_bar tp1 tp2 runner s2 row).1.1 /\
  (process_bar tp1 tp2 runner s1 row).1.2 = (process_bar tp1 tp2 runner s2 row).1.2 /\
  (process_bar tp1 tp2 runner s1 row).2 = (process_bar tp1 tp2 runner s2 row).2.
Proof.
  intros (HR & Htrades & Hsummaries & Hdate). unfold process_bar.
  rewrite <- Htrades, <- Hsummaries, <- Hdate.
  destruct (day_rollover_alike (st_manager s1) (st_manager s2)
              (st_daily_summaries s1) (st_current_date s1)
              (ts_date (row_timestamp row)) HR) as (HR0 & Hs0 & Hd0 & Hl0).
  destruct (day_rollover (st_manager s1) _ _ _) as [[[a0 sa] da] la].
  destruct (day_rollover (st_manager s2) _ _ _) as [[[b0 sb] db] lb].
  simpl in HR0, Hs0, Hd0, Hl0. subst sb db lb.
  rewrite <- (alike_positions R alike a0 b0 HR0).
  destruct (update_positions_alike (row_close row) (positions a0) a0 b0 HR0)
    as (HR1 & Hl1 & He1).
  destruct (update_positions a0 _ _) as [[a1 la1] ea].
  destruct (update_positions b0 _ _) as [[b1 lb1] eb].
  simpl in HR1, Hl1, He1. subst lb1 eb.
  destruct ea as [e|]; [simpl; unfold states_alike; simpl; auto 10|].
  destruct (alike_breaker R alike a1 b1 HR1) as [HR2 Ht].
  destruct (is_daily_breaker_triggered a1) as [a2 ta].
  destruct (is_daily_breaker_triggered b1) as [b2 tb].
  simpl in HR2, Ht. subst tb.
  destruct ta; simpl.
  - unfold states_alike; simpl; auto 10.
  - destruct (new_entries_alike a2 b2 row tp1 tp2 runner HR2) as [HR3 Hl3].
    destruct (new_entries a2 row tp1 tp2 runner) as [a3 la3].
    destruct (new_entries b2 row tp1 tp2 runner) as [b3 lb3].
    simpl in HR3, Hl3. subst lb3. unfold states_alike; simpl; auto 10.
Qed.

Lemma simulate_bars_alike (tp1 tp2 runner : Q) (rows : list Row)
    (s1 : @SimState _ RM1) (s2 : @SimState _ RM2) :
  states_alike R s1 s2 ->
  states_alike R (simulate_bars tp1 tp2 runner rows s1).1.1
               (simulate_bars tp1 tp2 runner rows s2).1.1 /\
  (simulate_bars tp1 tp2 runner rows s1).1.2
  = (simulate_bars tp1 tp2 runner rows s2).1.2 /\
  (simulate_bars tp1 tp2 runner rows s1).2 = (simulate_bars tp1 tp2 runner rows s2).2.
Proof.
  revert s1 s2. induction rows as [|row rest IH]; intros s1 s2 Hs; simpl; [auto|].
  destruct (process_bar_alike tp1 tp2 runner s1 s2 row Hs) as (Hs' & Hl & He).
  destruct (process_bar tp1 tp2 runner s1 row) as [[s1' l1] e1].
  destruct (process_bar tp1 tp2 runner s2 row) as [[s2' l2] e2].
  simpl in Hs', Hl, He. subst l2 e2.
  destruct e1 as [e|]; [simpl; auto|].
  specialize (IH s1' s2' Hs').
  destruct (simulate_bars tp1 tp2 runner rest s1') as [[t1 ls1] er1].
  destruct (simulate_bars tp1 tp2 runner rest s2') as [[t2 ls2] er2].
  simpl in IH |- *. destruct IH as (Ht & -> & ->). auto.
Qed.

Lemma simulate_trading_alike (rows : list Row) (a : RM1) (b : RM2)
    (tp1 tp2 runner : Q) :
  R a b ->
  _simulate_trading rows a tp1 tp2 runner = _simulate_trading rows b tp1 tp2 runner.
Proof.
  intros Hab. unfold _simulate_trading.
  assert (Hinit : states_alike R (initial_state a) (initial_state b))
    by (unfold states_alike; simpl; auto).
  destruct (simulate_bars_alike tp1 tp2 runner rows _ _ Hinit) as (Hs & _ & He).
  destruct (simulate_bars tp1 tp2 runner rows (initial_state a)) as [[s1 l1] e1].
  destruct (simulate_bars tp1 tp2 runner rows (initial_state b)) as [[s2 l2] e2].
  simpl in Hs, He. subst e2. destruct e1 as [e|]; [reflexivity|].
  destruct Hs as (HR & Htrades & Hsummaries & Hdate).
  rewrite <- Htrades, <- Hsummaries, <- Hdate.
  destruct (st_current_date s1) as [d|].
  - destruct (alike_summary R alike _ _ HR) as [HR1 Hsum].
    destruct (get_portfolio_summary (st_manager s1)) as [a1 sa].
    destruct (get_portfolio_summary (st_manager s2)) as [b1 sb].
    simpl in HR1, Hsum. subst sb.
    destruct (alike_summary R alike _ _ HR1) as [_ Hrisk].
    destruct (get_portfolio_summary a1) as [a2 ra].
    destruct (get_portfolio_summary b1) as [b2 rb].
    simpl in Hrisk. subst rb. reflexivity.
  - destruct (alike_summary R alike _ _ HR) as [_ Hrisk].
    destruct (get_portfolio_summary (st_manager s1)) as [a2 ra].
    destruct (get_portfolio_summary (st_manager s2)) as [b2 rb].
    simpl in Hrisk. subst rb. reflexivity.
Qed.

End TwoManagers.

Section TwoRuns.
Context `{Indicators} `{MarketData} `{RiskData}.
Context (RM1 RM2 : Type) `{!AdvancedRiskManager RM1} `{!AdvancedRiskManager RM2}.


End TwoRuns.

Import Sample.

(** The sample manager and the same manager behind a call counter answer
    alike. *)
Lemma counted_answers_alike :
  @AnswerAlike data Manager Counted manager counted_manager (fun m c => inner c = m).
Proof.
  constructor; simpl.
  - reflexivity.
  - intros a b <-. reflexivity.
  - intros a b id price <-. split; reflexivity.
  - intros a b <-. split; reflexivity.
  - intros a b symbol side entry stop tp1 tp2 runner <-. split; reflexivity.
  - intros a b <-. split; reflexivity.
  - intros a b <-. reflexivity.
Qed.



End SimulatorProps.

(** *** Day boundaries *)

Module DayBoundaryProps.
Import EnhancedBacktester.

Section OneManager.
Context `{RiskData} {RM : Type} `{!AdvancedRiskManager RM}.

Lemma update_positions_no_reset (price : Q) (snapshot : list Position) (rm : RM) :
  ResetDaily ∉ bar_events (update_positions rm price snapshot).1.2.
Proof.
  revert rm. induction snapshot as [|position rest IH]; intros rm; simpl.
  - intros Hin. inversion Hin.
  - destruct (update_position rm (pos_id position) price) as [rm' result].
    specialize (IH rm').
    destruct (update_positions rm' price rest) as [[rm'' log] err]. simpl in IH.
    case_bool_decide; [destruct (trade result)|]; simpl; intros Hin;
      apply elem_of_cons in Hin as [Hin|Hin];
      try discriminate Hin; try (inversion Hin; fail); contradiction.
Qed.

Lemma new_entries_no_reset (rm : RM) (row : Row) (tp1 tp2 runner : Q) :
  ResetDaily ∉ bar_events (new_entries rm row tp1 tp2 runner).2.
Proof.
  unfold new_entries, open_and_record.
  destruct (signal_set (row_final_long row));
    [destruct (open_position rm _ _ _ _ _ _ _) as [rm1 p1]|];
    (destruct (signal_set (row_final_short row));
     [destruct (open_position _ _ _ _ _ _ _ _) as [rm2 p2]|]);
    simpl; intros Hin;
    repeat (apply elem_of_cons in Hin as [Hin|Hin]; [discriminate Hin|]);
    inversion Hin.
Qed.

Lemma day_rollover_reset (rm : RM) (summaries : list DailySummary)
    (current_date : option Z) (today : Z) :
  (ResetDaily ∈ bar_events (day_rollover rm summaries current_date today).2 <->
   exists previous, current_date = Some previous /\ previous <> today) /\
  (day_rollover rm summaries current_date today).1.2 = Some today.
Proof.
  unfold day_rollover. case_bool_decide as Hsame.
  - simpl. split; [|exact Hsame]. split.
    + intros Hin. inversion Hin.
    + intros (previous & -> & Hne). congruence.
  - destruct current_date as [previous|].
    + destruct (get_portfolio_summary rm) as [rm' s]. simpl. split; [|reflexivity].
      split.
      * intros _. exists previous. split; [reflexivity | congruence].
      * intros _. apply list_elem_of_further, list_elem_of_here.
    + simpl. split; [|reflexivity]. split.
      * intros Hin. inversion Hin.
      * intros (previous & Hp & _). discriminate Hp.
Qed.

(** Within one bar: [reset_daily_tracking] is called exactly when the
    bar's date differs from the date of the bar before, and after the bar
    the current date is the bar's. *)
Lemma process_bar_reset (tp1 tp2 runner : Q) (st : SimState) (row : Row) :
  (ResetDaily ∈ bar_events (process_bar tp1 tp2 runner st row).1.2 <->
   exists previous, st_current_date st = Some previous /\
                    previous <> ts_date (row_timestamp row)) /\
  st_current_date (process_bar tp1 tp2 runner st row).1.1
  = Some (ts_date (row_timestamp row)).
Proof.
  unfold process_bar.
  pose proof (day_rollover_reset (st_manager st) (st_daily_summaries st)
                (st_current_date st) (ts_date (row_timestamp row))) as [Hreset Hdate].
  destruct (day_rollover _ _ _ _) as [[[rm summaries] current_date] log0].
  simpl in Hreset, Hdate. subst current_date.
  pose proof (update_positions_no_reset (row_close row) (positions rm) rm) as Hu.
  destruct (update_positions rm (row_close row) (positions rm)) as [[rm1 log1] err].
  simpl in Hu.
  destruct err as [e|]; simpl.
  - split; [|reflexivity]. rewrite <- Hreset. rewrite elem_of_app. tauto.
  - destruct (is_daily_breaker_triggered rm1) as [rm2 triggered].
    pose proof (new_entries_no_reset rm2 row tp1 tp2 runner) as He.
    destruct (if negb triggered then _ else _) as [rm3 log2] eqn:Hentries.
    simpl. split; [|reflexivity]. rewrite <- Hreset.
    assert (Hlog2 : ResetDaily ∉ bar_events log2).
    { destruct triggered; simpl in Hentries.
      - injection Hentries as _ <-. intros Hin. inversion Hin.
      - rewrite Hentries in He. exact He. }
    rewrite !elem_of_app, elem_of_cons.
    split; [|tauto]. intros [[[Hin|Hin]|[Hin|Hin]]|Hin]; try tauto.
    + discriminate Hin.
    + inversion Hin.
Qed.

Lemma simulate_bars_dates (tp1 tp2 runner : Q) (rows : list Row) (st : SimState)
    (i : nat) (log : BarLog) :
  (simulate_bars tp1 tp2 runner rows st).1.2 !! i = Some log ->
  exists st' row, rows !! i = Some row /\
    log = (process_bar tp1 tp2 runner st' row).1.2 /\
    st_current_date st'
    = match i with
      | O => st_current_date st
      | S j => (fun r => ts_date (row_timestamp r)) <$> rows !! j
      end.
Proof.
  revert st i. induction rows as [|row rest IH]; intros st i; simpl.
  - intros Hlog. discriminate Hlog.
  - pose proof (process_bar_reset tp1 tp2 runner st row) as [_ Hdate].
    destruct (process_bar tp1 tp2 runner st row) as [[st1 log1] err] eqn:Hbar.
    simpl in Hdate.
    destruct err as [e|]; simpl.
    + destruct i as [|i]; simpl; [|intros Hlog; discriminate Hlog].
      intros [= <-]. exists st, row. rewrite Hbar. auto.
    + specialize (IH st1).
      destruct (simulate_bars tp1 tp2 runner rest st1) as [[st2 logs] err] eqn:Hrest.
      simpl in *. destruct i as [|i]; simpl.
      * intros [= <-]. exists st, row. rewrite Hbar. auto.
      * intros Hlog. apply IH in Hlog as (st' & row' & Hrow & -> & Hst').
        exists st', row'. split; [exact Hrow|]. split; [reflexivity|].
        rewrite Hst'. destruct i as [|i]; simpl; [exact Hdate | reflexivity].
Qed.

(** X23. Over a run: [reset_daily_tracking] is called on a bar exactly
    when the bar is not the first one and its date differs from the date of
    the bar before it. *)
Lemma reset_exactly_at_day_boundaries (rows : list Row) (risk_manager : RM)
    (tp1 tp2 runner : Q) (i : nat) (log : BarLog) (row : Row) :
  bar_logs rows risk_manager tp1 tp2 runner !! i = Some log ->
  rows !! i = Some row ->
  (ResetDaily ∈ bar_events log <->
   exists j before, i = S j /\ rows !! j = Some before /\
     ts_date (row_timestamp before) <> ts_date (row_timestamp row)).
Proof.
  unfold bar_logs. intros Hlog Hrow.
  apply simulate_bars_dates in Hlog as (st & row' & Hrow' & -> & Hdate).
  rewrite Hrow in Hrow'. injection Hrow' as <-.
  destruct (process_bar_reset tp1 tp2 runner st row) as [-> _].
  rewrite Hdate. destruct i as [|j]; simpl.
  - split.
    + intros (previous & Hp & _). discriminate Hp.
    + intros (j & before & Hj & _). discriminate Hj.
  - split.
    + intros (previous & Hp & Hne).
      destruct (rows !! j) as [before|] eqn:Hbefore; [|discriminate Hp].
      simpl in Hp. injection Hp as <-. exists j, before. auto.
    + intros (j' & before & [= <-] & Hbefore & Hne).
      exists (ts_date (row_timestamp before)). rewrite Hbefore. auto.
Qed.

End OneManager.

End DayBoundaryProps.

(** ** The generator returns *)

Module SignalTotality.
Import WeightedSignalGenerator.

Lemma rolling_mean_length (w : nat) (s : list Q) :
  length (rolling_mean w s) = length s.
Proof. unfold rolling_mean. rewrite length_fmap, length_seq. reflexivity. Qed.

Lemma rolling_returns (w : Z) (s : list Q) :
  (0 < w)%Z -> rolling w s = Ok (rolling_mean (Z.to_nat w) s).
Proof.
  intros Hw. unfold rolling. destruct (Z.ltb_spec w 0); [lia|].
  destruct (Z.eqb_spec w 0); [lia|]. reflexivity.
Qed.

Section WithIndicators.
Context `{Indicators}.

Lemma hlc3_returns (df : DataFrame) (close : list Q) :
  df_wf df -> columns df !! "close" = Some close ->
  exists src, hlc3 df = Ok src /\ length src = index df.
Proof.
  intros [_ Hwf] Hclose. unfold hlc3, getitem. rewrite Hclose.
  destruct (columns df !! "high") as [high|] eqn:Hhigh;
    [|exists close; split; [reflexivity | eapply Hwf; exact Hclose]].
  destruct (columns df !! "low") as [low|] eqn:Hlow;
    [|exists close; split; [reflexivity | eapply Hwf; exact Hclose]].
  eexists. split; [reflexivity|].
  apply zip_with3_length; eapply Hwf; eassumption.
Qed.

(** X9. On a well-formed frame with a close column, with indicators that
    keep the length of their input and a momentum window of at least one
    bar, [generate_weighted_signal] returns, with one value per row in each
    of its six series. *)
Lemma generate_weighted_signal_returns (self : WeightedSignalGenerator)
    (df : DataFrame) (close : list Q) (rsi_length : Z) (os ob : Q)
    (cl al lookback : Z) :
  df_wf df -> columns df !! "close" = Some close ->
  indicators_keep_length -> (0 < lookback)%Z ->
  exists sigs,
    generate_weighted_signal self df rsi_length os ob cl al lookback = Ok sigs /\
    length (rsi_signal sigs) = index df /\
    length (wavetrend_signal sigs) = index df /\
    length (buy_sell_signal sigs) = index df /\
    length (weighted_signal sigs) = index df /\
    length (final_long sigs) = index df /\
    length (final_short sigs) = index df.
Proof.
  intros Hwf Hclose [Hrsi Hwt] Hlb.
  assert (Hlen : length close = index df) by (eapply (proj2 Hwf); exact Hclose).
  destruct (hlc3_returns df close Hwf Hclose) as (src & Hsrc & Hsrclen).
  assert (Hr : generate_rsi_signal df rsi_length os ob
               = Ok (rsi_signal_at os ob <$> rsi close rsi_length)).
  { unfold generate_rsi_signal, getitem. rewrite Hclose. cbn [mbind result_bind].
    unfold series_with_index. rewrite length_fmap, Hrsi, Hlen, Nat.eqb_refl.
    reflexivity. }
  assert (Hw : generate_wavetrend_signal df cl al
               = Ok (wt_signal_at <$> wavetrend src cl al)).
  { unfold generate_wavetrend_signal. rewrite Hsrc. cbn [mbind result_bind].
    unfold series_with_index. rewrite length_fmap, Hwt, Hsrclen, Nat.eqb_refl.
    reflexivity. }
  assert (Hb : generate_buy_sell_signal df "close" lookback
               = Ok (zip_with3 momentum_at close (rolling_mean 5 close)
                       (rolling_mean (Z.to_nat lookback) close))).
  { unfold generate_buy_sell_signal, getitem. rewrite Hclose. cbn [mbind result_bind].
    rewrite (rolling_returns 5) by lia. rewrite (rolling_returns lookback) by exact Hlb.
    reflexivity. }
  unfold generate_weighted_signal. rewrite Hr, Hw, Hb. cbn [mbind result_bind].
  eexists. split; [reflexivity|]. cbn [rsi_signal wavetrend_signal buy_sell_signal
    weighted_signal final_long final_short].
  assert (L1 : length (rsi_signal_at os ob <$> rsi close rsi_length) = index df)
    by (rewrite length_fmap, Hrsi; exact Hlen).
  assert (L2 : length (wt_signal_at <$> wavetrend src cl al) = index df)
    by (rewrite length_fmap, Hwt; exact Hsrclen).
  assert (L3 : length (zip_with3 momentum_at close (rolling_mean 5 close)
                         (rolling_mean (Z.to_nat lookback) close)) = index df)
    by (apply zip_with3_length; rewrite ?rolling_mean_length; exact Hlen).
  rewrite !length_fmap.
  rewrite (zip_with3_length _ _ _ _ (index df) L1 L2 L3).
  rewrite length_fmap in L1. rewrite length_fmap in L2. auto 10.
Qed.

End WithIndicators.

End SignalTotality.

(** ** More on the signal generator *)

Module SignalExtras.
Import WeightedSignalGenerator.

(** The label of a finite signal, band by band. *)
Lemma get_signal_strength_finite (q : Q) :
  get_signal_strength (Fin q) =
    if decide (0.7 <= q) then "Very Strong Buy"
    else if decide (0.3 <= q) then "Strong Buy"
    else if decide (0.1 <= q) then "Weak Buy"
    else if decide (q <= -0.7) then "Very Strong Sell"
    else if decide (q <= -0.3) then "Strong Sell"
    else if decide (q <= -0.1) then "Weak Sell"
    else "Neutral".
Proof.
  unfold get_signal_strength, F.geb.
  repeat match goal with
  | |- context [(Fin ?a <=? Fin ?b)%F] =>
      let E := fresh "E" in
      destruct (Fin a <=? Fin b)%F eqn:E; cmp_cases;
      [rewrite decide_True by assumption
      |rewrite decide_False by (apply Qlt_not_le; assumption)]
  end; reflexivity.
Qed.

(** X1. The strength labels are symmetric: the label of the negated signal
    is the label of the signal with Buy and Sell swapped, on every float
    (the band edges, the infinities and NaN included). *)
Theorem signal_strength_mirrors (w : pyfloat) :
  get_signal_strength (- w)%F = mirror_label (get_signal_strength w).
Proof.
  destruct w as [q| | |]; try reflexivity.
  change (- Fin q)%F with (Fin (- q)). rewrite !get_signal_strength_finite.
  repeat case_decide; try reflexivity; exfalso; lra.
Qed.

Lemma div_le_div (a b c : Q) : 0 < c -> a <= b -> a / c <= b / c.
Proof.
  intros Hc Hab. unfold Qdiv. apply Qmult_le_compat_r; [exact Hab|].
  apply Qlt_le_weak, Qinv_lt_0_compat. exact Hc.
Qed.

Lemma buy_branch_bounds (oversold r : Q) :
  oversold < r -> r < 50 -> 0 <= (50 - r) / (50 - oversold) <= 1.
Proof.
  intros H1 H2. assert (0 < 50 - oversold) by lra. split.
  - apply Qle_shift_div_l; [assumption | lra].
  - apply Qle_shift_div_r; [assumption | lra].
Qed.

Lemma sell_branch_bounds (overbought r : Q) :
  50 <= r -> r < overbought -> -1 <= - (r - 50) / (overbought - 50) <= 0.
Proof.
  intros H1 H2. assert (0 < overbought - 50) by lra. split.
  - apply Qle_shift_div_l; [assumption | lra].
  - apply Qle_shift_div_r; [assumption | lra].
Qed.

(** X3. The RSI sub-signal never rises with the RSI: for any thresholds,
    a higher RSI value gives a lower or equal signal. *)
Theorem rsi_signal_monotone (oversold overbought r1 r2 : Q) :
  r1 <= r2 ->
  exists s1 s2,
    rsi_signal_at oversold overbought (Fin r1) = Fin s1 /\
    rsi_signal_at oversold overbought (Fin r2) = Fin s2 /\
    s2 <= s1.
Proof.
  intros Hle. rewrite !SignalProps.rsi_signal_at_finite.
  repeat case_decide;
    (eexists; eexists; split; [reflexivity|]; split; [reflexivity|]);
    try lra;
    try (pose proof (buy_branch_bounds oversold r1 ltac:(lra) ltac:(lra)));
    try (pose proof (buy_branch_bounds oversold r2 ltac:(lra) ltac:(lra)));
    try (pose proof (sell_branch_bounds overbought r1 ltac:(lra) ltac:(lra)));
    try (pose proof (sell_branch_bounds overbought r2 ltac:(lra) ltac:(lra)));
    try lra;
    apply div_le_div; lra.
Qed.

Lemma rsi_signal_monotone_witness :
  exists s1 s2,
    rsi_signal_at 30 70 (Fin 40) = Fin s1 /\
    rsi_signal_at 30 70 (Fin 60) = Fin s2 /\
    s2 <= s1.
Proof. apply (rsi_signal_monotone 30 70 40 60). discriminate. Defined.

Lemma strong_labels (w : pyfloat) :
  ((w >? Fin 0.3)%F = true ->
     get_signal_strength w ∈ ["Very Strong Buy"; "Strong Buy"]) /\
  ((w <? Fin (-0.3))%F = true ->
     get_signal_strength w ∈ ["Very Strong Sell"; "Strong Sell"]) /\
  (get_signal_strength w ∈ ["Very Strong Buy"; "Strong Buy"] ->
     (w >? Fin 0.3)%F = true \/ w =F Fin 0.3) /\
  (get_signal_strength w ∈ ["Very Strong Sell"; "Strong Sell"] ->
     (w <? Fin (-0.3))%F = true \/ w =F Fin (-0.3)).
Proof.
  assert (Hmem : forall (x a b : string), x ∈ [a; b] <-> x = a \/ x = b).
  { intros x a b. rewrite !elem_of_cons. split.
    - intros [?|[?|Hin]]; auto. inversion Hin.
    - intros [?|?]; auto. }
  rewrite !Hmem.
  destruct w as [q| | |].
  - rewrite get_signal_strength_finite. unfold F.gtb.
    destruct (Fin 0.3 <? Fin q)%F eqn:E1; destruct (Fin q <? Fin (-0.3))%F eqn:E2;
      cmp_cases; repeat case_decide;
      repeat split; intros Hx; try (destruct Hx as [Hx|Hx]);
      try discriminate Hx; auto; try (exfalso; lra);
      try (right; simpl; lra).
  - repeat split; intros Hx; try (destruct Hx as [Hx|Hx]); try discriminate Hx; auto.
  - repeat split; intros Hx; try (destruct Hx as [Hx|Hx]); try discriminate Hx; auto.
  - repeat split; intros Hx; try (destruct Hx as [Hx|Hx]); try discriminate Hx; auto.
Qed.

Lemma series_with_index_cases {A} (df : DataFrame) (values : list A) :
  series_with_index df values = Ok values \/
  series_with_index df values
  = Raise (ValueError "Length of values does not match length of index").
Proof. unfold series_with_index. destruct (_ =? _)%nat; auto. Qed.

(** A price that equals both of its moving averages has no momentum. *)
Lemma momentum_flat (price sma_short sma_long : Q) :
  sma_short == price -> sma_long == price -> ~ price == 0 ->
  momentum_at price sma_short sma_long =F Fin 0.
Proof.
  intros Hs Hl Hp. unfold momentum_at. simpl.
  rewrite !is_zero_false by lra. simpl.
  set (x := ((price - sma_short) / sma_short + (price - sma_long) / sma_long) / 2 * 10).
  assert (Hx : x == 0).
  { unfold x. rewrite Hs, Hl. field. exact Hp. }
  unfold F.clip, F.maximum, F.minimum.
  destruct (Fin x <=? Fin (-1))%F eqn:E1; cmp_cases; [exfalso; lra|].
  destruct (Fin x <=? Fin 1)%F eqn:E2; cmp_cases; [simpl; lra | exfalso; lra].
Qed.

Section WithIndicators.
Context `{Indicators}.

(** X2. On every bar, a set [final_long] comes with the label Strong Buy
    or Very Strong Buy and a set [final_short] with Strong Sell or Very
    Strong Sell; a bar with one of these labels whose flag is not set has a
    fused signal of exactly 0.3 or -0.3, which the labels include and the
    flags exclude. *)
Theorem entry_flags_have_strong_labels (self : WeightedSignalGenerator) (df : DataFrame)
    (rsi_length : Z) (os ob : Q) (cl al lookback : Z) (sigs : Signals)
    (i : nat) (w : pyfloat) :
  generate_weighted_signal self df rsi_length os ob cl al lookback = Ok sigs ->
  weighted_signal sigs !! i = Some w ->
  (final_long sigs !! i = Some true ->
     get_signal_strength w ∈ ["Very Strong Buy"; "Strong Buy"]) /\
  (final_short sigs !! i = Some true ->
     get_signal_strength w ∈ ["Very Strong Sell"; "Strong Sell"]) /\
  (get_signal_strength w ∈ ["Very Strong Buy"; "Strong Buy"] ->
     final_long sigs !! i = Some true \/ w =F Fin 0.3) /\
  (get_signal_strength w ∈ ["Very Strong Sell"; "Strong Sell"] ->
     final_short sigs !! i = Some true \/ w =F Fin (-0.3)).
Proof.
  intros Hgen Hw.
  apply SignalProps.generate_weighted_signal_ok in Hgen as (_ & _ & _ & _ & Hlong & Hshort).
  rewrite Hlong, Hshort, !list_lookup_fmap, Hw. cbn [fmap option_fmap option_map].
  destruct (strong_labels w) as (H1 & H2 & H3 & H4).
  split; [|split; [|split]].
  - intros [= Hl]. auto.
  - intros [= Hs]. auto.
  - intros Hlab. destruct (H3 Hlab) as [->|?]; auto.
  - intros Hlab. destruct (H4 Hlab) as [->|?]; auto.
Qed.

(** X4. For any thresholds, the RSI sub-signal of a bar lies in [-1, 1]
    whenever the bar's RSI value is not NaN, and is NaN when it is. *)
Theorem rsi_signal_in_unit_interval (df : DataFrame) (rsi_length : Z)
    (oversold overbought : Q) (close : list Q) (s : list pyfloat)
    (i : nat) (r : pyfloat) :
  getitem df "close" = Ok close ->
  generate_rsi_signal df rsi_length oversold overbought = Ok s ->
  rsi close rsi_length !! i = Some r ->
  exists v, s !! i = Some v /\
    (r <> NaN -> F.within (-1) 1 v) /\ (r = NaN -> v = NaN).
Proof.
  intros Hclose Hgen Hr. unfold generate_rsi_signal in Hgen.
  rewrite Hclose in Hgen. cbn [mbind result_bind] in Hgen.
  apply series_with_index_ok in Hgen as [-> _].
  exists (rsi_signal_at oversold overbought r). split.
  - rewrite list_lookup_fmap, Hr. reflexivity.
  - split.
    + apply SignalBounds.rsi_signal_at_within.
    + intros ->. reflexivity.
Qed.

(** X5. The WaveTrend sub-signal is never neutral: on every bar it is one
    of 1, -1, 0.5 and -0.5, whatever the two WaveTrend lines are (NaN
    included). *)
Theorem wavetrend_signal_never_neutral (df : DataFrame)
    (channel_length average_length : Z) (s : list pyfloat) (i : nat) (v : pyfloat) :
  generate_wavetrend_signal df channel_length average_length = Ok s ->
  s !! i = Some v ->
  v ∈ [Fin 1; Fin (-1); Fin 0.5; Fin (-0.5)].
Proof.
  intros Hgen Hv. unfold generate_wavetrend_signal in Hgen.
  destruct (hlc3 df) as [src|]; [|discriminate]. cbn [mbind result_bind] in Hgen.
  apply series_with_index_ok in Hgen as [-> _].
  rewrite list_lookup_fmap in Hv.
  destruct (wavetrend src channel_length average_length !! i) as [[wt1 wt2]|];
    [|discriminate].
  injection Hv as <-. unfold wt_signal_at.
  repeat match goal with |- context [if ?b then _ else _] => destruct b end;
    rewrite !elem_of_cons; auto.
Qed.

(** X6. On a series of positive closes the momentum sub-signal has one
    value per bar, each in [-1, 1], and the first bar is neutral (0): with
    a single bar of history both moving averages are the price itself. *)
Theorem momentum_signal_bounded_and_starts_neutral (df : DataFrame) (lookback : Z)
    (close : list Q) (bs : list pyfloat) :
  getitem df "close" = Ok close ->
  Forall (fun p => 0 < p) close ->
  generate_buy_sell_signal df "close" lookback = Ok bs ->
  length bs = length close /\
  (forall i c, bs !! i = Some c -> F.within (-1) 1 c) /\
  (forall c, bs !! 0%nat = Some c -> c =F Fin 0).
Proof.
  intros Hclose Hpos Hgen. split; [|split].
  - unfold generate_buy_sell_signal in Hgen. rewrite Hclose in Hgen.
    cbn [mbind result_bind] in Hgen.
    destruct (rolling lookback close) as [sma_long|] eqn:Hlong;
      [|simpl in Hgen; discriminate].
    apply SignalBounds.rolling_ok in Hlong as [_ ->].
    simpl in Hgen. injection Hgen as <-.
    apply zip_with3_length; rewrite ?SignalTotality.rolling_mean_length; reflexivity.
  - intros i c Hc. eapply SignalBounds.buy_sell_signal_within; eassumption.
  - intros c Hc. unfold generate_buy_sell_signal in Hgen. rewrite Hclose in Hgen.
    cbn [mbind result_bind] in Hgen.
    destruct (rolling lookback close) as [sma_long|] eqn:Hlong;
      [|simpl in Hgen; discriminate].
    apply SignalBounds.rolling_ok in Hlong as [Hlb ->].
    simpl in Hgen. injection Hgen as <-.
    destruct close as [|p rest]; [discriminate Hc|].
    inversion Hpos as [|? ? Hp _]; subst.
    assert (Hw : exists n, Z.to_nat lookback = S n) by (exists (Z.to_nat lookback - 1)%nat; lia).
    destruct Hw as [n Hn]. rewrite Hn in Hc. simpl in Hc. injection Hc as <-.
    apply momentum_flat; [| |lra]; unfold rolling_window, mean, sum; simpl; field.
Qed.

(** X7. A frame without a close column makes [generate_weighted_signal]
    raise KeyError('close'), whatever its other columns, the weights and
    the parameters. *)
Theorem missing_close_raises_key_error (self : WeightedSignalGenerator) (df : DataFrame)
    (rsi_length : Z) (os ob : Q) (cl al lookback : Z) :
  columns df !! "close" = None ->
  generate_weighted_signal self df rsi_length os ob cl al lookback
  = Raise (KeyError "close").
Proof.
  intros Hmissing. unfold generate_weighted_signal, generate_rsi_signal, getitem.
  rewrite Hmissing. reflexivity.
Qed.

(** X8. With a close column present, a momentum window of zero or fewer
    bars makes [generate_weighted_signal] raise a ValueError, whatever the
    indicators return. *)
Theorem bad_momentum_window_raises_value_error (self : WeightedSignalGenerator)
    (df : DataFrame) (close : list Q) (rsi_length : Z) (os ob : Q) (cl al lookback : Z) :
  columns df !! "close" = Some close ->
  (lookback <= 0)%Z ->
  exists msg,
    generate_weighted_signal self df rsi_length os ob cl al lookback
    = Raise (ValueError msg).
Proof.
  intros Hclose Hlb.
  assert (Hsrc : exists src, hlc3 df = Ok src).
  { unfold hlc3, getitem. rewrite Hclose.
    destruct (columns df !! "high"); [|eauto]. destruct (columns df !! "low"); eauto. }
  destruct Hsrc as [src Hsrc].
  unfold generate_weighted_signal, generate_rsi_signal, generate_wavetrend_signal,
    generate_buy_sell_signal, getitem.
  rewrite Hclose, Hsrc. cbn [mbind result_bind].
  destruct (series_with_index_cases df (rsi_signal_at os ob <$> rsi close rsi_length))
    as [-> | ->]; [|eexists; reflexivity].
  cbn [mbind result_bind].
  destruct (series_with_index_cases df (wt_signal_at <$> wavetrend src cl al))
    as [-> | ->]; [|eexists; reflexivity].
  cbn [mbind result_bind].
  rewrite (SignalTotality.rolling_returns 5) by lia. cbn [mbind result_bind].
  unfold rolling. destruct (Z.ltb_spec lookback 0); [eexists; reflexivity|].
  destruct (Z.eqb_spec lookback 0); [eexists; reflexivity | lia].
Qed.

End WithIndicators.

Lemma entry_flags_have_strong_labels_witness :
  final_short sample_signals !! 3%nat = Some true /\
  get_signal_strength (Fin (-0.4000)) ∈ ["Very Strong Sell"; "Strong Sell"].
Proof.
  split; [vm_compute; reflexivity|].
  apply (proj1 (proj2 (@entry_flags_have_strong_labels price_indicators _ rsi_frame
                         14 30 70 10 21 20 sample_signals 3%nat (Fin (-0.4000))
                         SignalProps.sample_run_ok ltac:(vm_compute; reflexivity)))).
  vm_compute. reflexivity.
Defined.

Lemma rsi_signal_in_unit_interval_witness :
  exists v, rsi_signal sample_signals !! 2%nat = Some v /\ F.within (-1) 1 v.
Proof.
  destruct (@rsi_signal_in_unit_interval price_indicators rsi_frame 14 30 70
              [20; 40; 60; 80] (rsi_signal sample_signals) 2%nat (Fin 60))
    as (v & Hv & Hin & _).
  - reflexivity.
  - vm_compute. reflexivity.
  - reflexivity.
  - exists v. split; [exact Hv | apply Hin; discriminate].
Defined.

Lemma wavetrend_signal_never_neutral_witness :
  wavetrend_signal sample_signals !! 0%nat = Some (Fin (-0.5)) /\
  Fin (-0.5) ∈ [Fin 1; Fin (-1); Fin 0.5; Fin (-0.5)].
Proof.
  split; [vm_compute; reflexivity|].
  apply (@wavetrend_signal_never_neutral price_indicators rsi_frame 10 21
           (wavetrend_signal sample_signals) 0%nat).
  - vm_compute. reflexivity.
  - vm_compute. reflexivity.
Defined.

Lemma momentum_signal_bounded_and_starts_neutral_witness :
  length (buy_sell_signal sample_signals) = 4%nat /\
  (forall i c, buy_sell_signal sample_signals !! i = Some c -> F.within (-1) 1 c) /\
  (forall c, buy_sell_signal sample_signals !! 0%nat = Some c -> c =F Fin 0).
Proof.
  apply (@momentum_signal_bounded_and_starts_neutral rsi_frame 20 [20; 40; 60; 80]).
  - reflexivity.
  - repeat constructor.
  - vm_compute. reflexivity.
Defined.

Lemma missing_close_raises_key_error_witness :
  @generate_weighted_signal price_indicators
    {| rsi_weight := 0.4; wavetrend_weight := 0.4; buy_sell_weight := 0.2 |}
    frame_without_close 14 30 70 10 21 20
  = Raise (KeyError "close").
Proof.
  apply (@missing_close_raises_key_error price_indicators). vm_compute. reflexivity.
Defined.

Lemma bad_momentum_window_raises_value_error_witness :
  exists msg,
    @generate_weighted_signal price_indicators
      {| rsi_weight := 0.4; wavetrend_weight := 0.4; buy_sell_weight := 0.2 |}
      rsi_frame 14 30 70 10 21 0
    = Raise (ValueError msg).
Proof.
  apply (@bad_momentum_window_raises_value_error price_indicators _ rsi_frame
           [20; 40; 60; 80]); [reflexivity | discriminate].
Defined.

Lemma rsi_frame_well_formed : df_wf rsi_frame.
Proof.
  split; [reflexivity|]. intros k s Hk.
  unfold rsi_frame, frame_of_closes in Hk. simpl in Hk.
  apply lookup_singleton_Some in Hk as [_ <-]. reflexivity.
Qed.

Lemma price_indicators_keep_length : @indicators_keep_length price_indicators.
Proof. split; intros; simpl; apply length_fmap. Qed.

Lemma generate_weighted_signal_returns_witness :
  exists sigs,
    @generate_weighted_signal price_indicators
      {| rsi_weight := 0.4; wavetrend_weight := 0.4; buy_sell_weight := 0.2 |}
      rsi_frame 14 30 70 10 21 20 = Ok sigs /\
    length (weighted_signal sigs) = 4%nat /\
    length (final_long sigs) = 4%nat /\
    length (final_short sigs) = 4%nat.
Proof.
  destruct (@SignalTotality.generate_weighted_signal_returns price_indicators
              {| rsi_weight := 0.4; wavetrend_weight := 0.4; buy_sell_weight := 0.2 |}
              rsi_frame [20; 40; 60; 80] 14 30 70 10 21 20
              rsi_frame_well_formed ltac:(reflexivity)
              price_indicators_keep_length ltac:(reflexivity))
    as (sigs & Hrun & _ & _ & _ & Hw & Hl & Hs).
  exists sigs. auto.
Defined.

End SignalExtras.

(** ** More on the simulator loop *)

Module SimulatorExtras.
Import EnhancedBacktester.

Section OneManager.
Context `{RiskData} {RM : Type} `{!AdvancedRiskManager RM}.

Lemma day_runs_cons (d next : Z) (rest : list Z) :
  day_runs (d :: next :: rest)
  = (if bool_decide (d = next) then [] else [d]) ++ day_runs (next :: rest).
Proof.
  change (day_runs (d :: next :: rest))
    with (if bool_decide (d = next) then day_runs (next :: rest)
          else d :: day_runs (next :: rest)).
  case_bool_decide; reflexivity.
Qed.

(** The dates of the summaries collected so far, then the day in progress. *)
Lemma simulate_bars_days (tp1 tp2 runner : Q) (rows : list Row) (st : SimState) :
  (simulate_bars tp1 tp2 runner rows st).2 = None ->
  (ds_date <$> st_daily_summaries (simulate_bars tp1 tp2 runner rows st).1.1)
    ++ option_list (st_current_date (simulate_bars tp1 tp2 runner rows st).1.1)
  = (ds_date <$> st_daily_summaries st)
    ++ day_runs (option_list (st_current_date st) ++ (bar_date <$> rows)).
Proof.
  revert st. induction rows as [|row rest IH]; intros st; simpl.
  - intros _. destruct (st_current_date st); reflexivity.
  - assert (Hbar :
      (process_bar tp1 tp2 runner st row).2 = None ->
      st_current_date (process_bar tp1 tp2 runner st row).1.1 = Some (bar_date row) /\
      (ds_date <$> st_daily_summaries (process_bar tp1 tp2 runner st row).1.1)
      = (ds_date <$> st_daily_summaries st)
        ++ match st_current_date st with
           | Some d => if bool_decide (d = bar_date row) then [] else [d]
           | None => []
           end).
    { unfold process_bar, day_rollover, bar_date.
      destruct (st_current_date st) as [d|] eqn:Hd.
      - case_bool_decide as Hsame.
        + injection Hsame as ->. rewrite bool_decide_eq_true_2 by reflexivity.
          destruct (update_positions _ _ _) as [[rm1 log1] err].
          destruct err as [e|]; [discriminate|]. intros _.
          destruct (is_daily_breaker_triggered rm1) as [rm2 triggered].
          destruct (if negb triggered then _ else _) as [rm3 log2]. simpl.
          rewrite app_nil_r. auto.
        + assert (d <> ts_date (row_timestamp row)) by congruence.
          rewrite bool_decide_eq_false_2 by assumption.
          destruct (get_portfolio_summary (st_manager st)) as [rm0 s].
          destruct (update_positions _ _ _) as [[rm1 log1] err].
          destruct err as [e|]; [discriminate|]. intros _.
          destruct (is_daily_breaker_triggered rm1) as [rm2 triggered].
          destruct (if negb triggered then _ else _) as [rm3 log2]. simpl.
          rewrite fmap_app. auto.
      - rewrite bool_decide_eq_false_2 by discriminate.
        destruct (update_positions _ _ _) as [[rm1 log1] err].
        destruct err as [e|]; [discriminate|]. intros _.
        destruct (is_daily_breaker_triggered rm1) as [rm2 triggered].
        destruct (if negb triggered then _ else _) as [rm3 log2]. simpl.
        rewrite app_nil_r. auto. }
    destruct (process_bar tp1 tp2 runner st row) as [[st1 log1] err].
    simpl in Hbar. destruct err as [e|]; [discriminate|].
    destruct (Hbar eq_refl) as [Hdate Hsums].
    specialize (IH st1).
    destruct (simulate_bars tp1 tp2 runner rest st1) as [[st2 logs] err2].
    simpl in IH |- *. intros Herr. rewrite (IH Herr), Hsums, Hdate, <- app_assoc.
    f_equal.
    destruct (st_current_date st) as [d|]; [|reflexivity].
    symmetry. apply day_runs_cons.
Qed.

(** The dates of the summaries of a run that returns. *)
Lemma simulate_trading_summary_dates (rows : list Row) (risk_manager : RM)
    (tp1 tp2 runner : Q) (results : SimResults) :
  _simulate_trading rows risk_manager tp1 tp2 runner = Ok results ->
  ds_date <$> res_daily_summaries results = day_runs (bar_date <$> rows).
Proof.
  unfold _simulate_trading.
  pose proof (simulate_bars_days tp1 tp2 runner rows (initial_state risk_manager)) as Hdays.
  destruct (simulate_bars tp1 tp2 runner rows (initial_state risk_manager))
    as [[st logs] err].
  simpl in Hdays. destruct err as [e|]; [discriminate|].
  specialize (Hdays eq_refl).
  destruct (st_current_date st) as [d|].
  - destruct (get_portfolio_summary (st_manager st)) as [rm s].
    destruct (get_portfolio_summary rm) as [rm' risk].
    intros [= <-]. simpl. rewrite fmap_app. exact Hdays.
  - destruct (get_portfolio_summary (st_manager st)) as [rm' risk].
    intros [= <-]. simpl. rewrite app_nil_r in Hdays. exact Hdays.
Qed.

(** X10. A run that returns yields one daily summary per day of the bar
    sequence, in order: the dates of its summaries are the bars' dates with
    each run of equal consecutive dates counted once - none for an empty
    frame, and two for a date that comes back after another one. *)
Theorem one_daily_summary_per_day (rows : list Row) (risk_manager : RM)
    (tp1 tp2 runner : Q) (results : SimResults) :
  _simulate_trading rows risk_manager tp1 tp2 runner = Ok results ->
  ds_date <$> res_daily_summaries results = day_runs (bar_date <$> rows).
Proof. apply simulate_trading_summary_dates. Qed.

Lemma new_entries_events (rm : RM) (row : Row) (tp1 tp2 runner : Q) :
  bar_events (new_entries rm row tp1 tp2 runner).2 = entry_calls row.
Proof.
  unfold new_entries, open_and_record, entry_calls.
  destruct (signal_set (row_final_long row)).
  - destruct (open_position rm _ _ _ _ _ _ _) as [rm1 p1].
    destruct (signal_set (row_final_short row)).
    + destruct (open_position rm1 _ _ _ _ _ _ _) as [rm2 p2]. reflexivity.
    + reflexivity.
  - destruct (signal_set (row_final_short row)).
    + destruct (open_position rm _ _ _ _ _ _ _) as [rm2 p2]. reflexivity.
    + reflexivity.
Qed.

Lemma process_bar_unblocked (tp1 tp2 runner : Q) (st : SimState) (row : Row) :
  BreakerChecked false ∈ bar_events (process_bar tp1 tp2 runner st row).1.2 ->
  exists before,
    Forall (fun e => is_open_call e = false) before /\
    bar_events (process_bar tp1 tp2 runner st row).1.2
    = before ++ BreakerChecked false :: entry_calls row.
Proof.
  unfold process_bar.
  pose proof (SimulatorProps.day_rollover_quiet (st_manager st) (st_daily_summaries st)
                (st_current_date st) (ts_date (row_timestamp row))) as [[Hr1 _] Hr2].
  destruct (day_rollover _ _ _ _) as [[[rm summaries] current_date] log0].
  simpl in Hr1, Hr2.
  pose proof (SimulatorProps.update_positions_quiet (row_close row) (positions rm) rm)
    as [[Hu1 _] Hu2].
  destruct (update_positions rm (row_close row) (positions rm)) as [[rm1 log1] err].
  simpl in Hu1, Hu2.
  destruct err as [e|]; simpl.
  - intros Hin. exfalso.
    apply elem_of_app in Hin as [Hin|Hin]; [exact (Hr2 _ Hin) | exact (Hu2 _ Hin)].
  - destruct (is_daily_breaker_triggered rm1) as [rm2 triggered].
    destruct triggered; simpl.
    + intros Hin. exfalso. rewrite app_nil_r in Hin.
      apply elem_of_app in Hin as [Hin|Hin].
      * apply elem_of_app in Hin as [Hin|Hin]; [exact (Hr2 _ Hin) | exact (Hu2 _ Hin)].
      * apply elem_of_cons in Hin as [Hin|Hin]; [discriminate Hin | inversion Hin].
    + intros _. pose proof (new_entries_events rm2 row tp1 tp2 runner) as He.
      destruct (new_entries rm2 row tp1 tp2 runner) as [rm3 log2]. simpl in He |- *.
      exists (bar_events log0 ++ bar_events log1). split.
      * apply Forall_app. split; assumption.
      * rewrite He, <- !app_assoc. reflexivity.
Qed.

(** X11. On every bar of a run on which the breaker check returned false,
    the calls the simulator makes after the check are exactly the ones the
    bar's signals ask for - a 'buy' with the stop at 0.98 of the close if
    final_long is set, then a 'sell' with the stop at 1.02 of the close if
    final_short is set, both on a bar that sets both - and it makes no
    [open_position] call before the check. *)
Theorem unblocked_bar_opens_what_signals_ask (rows : list Row) (risk_manager : RM)
    (tp1 tp2 runner : Q) (i : nat) (log : BarLog) :
  bar_logs rows risk_manager tp1 tp2 runner !! i = Some log ->
  BreakerChecked false ∈ bar_events log ->
  exists row before,
    rows !! i = Some row /\
    Forall (fun e => is_open_call e = false) before /\
    bar_events log = before ++ BreakerChecked false :: entry_calls row.
Proof.
  unfold bar_logs. intros Hlog Hcheck.
  apply SimulatorProps.simulate_bars_logs in Hlog as (st & row & Hrow & ->).
  apply process_bar_unblocked in Hcheck as (before & Hbefore & Hevents).
  exists row, before. auto.
Qed.

(** X12. The update loop of a bar, when it raises nothing, calls
    [update_position] once for every position of the list as it was copied
    before the loop, in list order and at the bar's close - also for a
    position that an earlier update of the same bar removed from the
    manager - and appends closed trades only, at most one per position. *)
Theorem every_listed_position_is_updated (rm : RM) (current_price : Q)
    (snapshot : list Position) :
  (update_positions rm current_price snapshot).2 = None ->
  bar_events (update_positions rm current_price snapshot).1.2
  = (fun p => UpdatePosition (pos_id p) current_price) <$> snapshot /\
  Forall (fun t => is_open_record t = false)
         (bar_trades (update_positions rm current_price snapshot).1.2) /\
  (length (bar_trades (update_positions rm current_price snapshot).1.2)
   <= length snapshot)%nat.
Proof.
  revert rm. induction snapshot as [|position rest IH]; intros rm; simpl.
  - intros _. repeat split; [constructor | lia].
  - destruct (update_position rm (pos_id position) current_price) as [rm' result].
    specialize (IH rm').
    case_bool_decide.
    + destruct (trade result) as [t|]; [|discriminate].
      destruct (update_positions rm' current_price rest) as [[rm'' log] err].
      simpl in *. intros Herr. destruct (IH Herr) as (-> & Htrades & Hlen).
      repeat split; [constructor; [reflexivity | exact Htrades] | lia].
    + destruct (update_positions rm' current_price rest) as [[rm'' log] err].
      simpl in *. intros Herr. destruct (IH Herr) as (-> & Htrades & Hlen).
      repeat split; [exact Htrades | lia].
Qed.

Lemma update_positions_error (rm : RM) (price : Q) (snapshot : list Position) (e : exn) :
  (update_positions rm price snapshot).2 = Some e -> e = KeyError "trade".
Proof.
  revert rm. induction snapshot as [|position rest IH]; intros rm; simpl;
    [discriminate|].
  destruct (update_position rm (pos_id position) price) as [rm' result].
  specialize (IH rm').
  case_bool_decide; [destruct (trade result)|];
    try (destruct (update_positions rm' price rest) as [[rm'' log] err]; exact IH).
  simpl. congruence.
Qed.

Lemma simulate_bars_error (tp1 tp2 runner : Q) (rows : list Row) (st : SimState) (e : exn) :
  (simulate_bars tp1 tp2 runner rows st).2 = Some e -> e = KeyError "trade".
Proof.
  revert st. induction rows as [|row rest IH]; intros st; simpl; [discriminate|].
  assert (Hbar : (process_bar tp1 tp2 runner st row).2 = Some e -> e = KeyError "trade").
  { unfold process_bar.
    destruct (day_rollover _ _ _ _) as [[[rm summaries] current_date] log0].
    pose proof (update_positions_error rm (row_close row) (positions rm) e) as Hu.
    destruct (update_positions rm (row_close row) (positions rm)) as [[rm1 log1] err].
    destruct err as [e'|]; [exact Hu|].
    destruct (is_daily_breaker_triggered rm1) as [rm2 triggered].
    destruct (if negb triggered then _ else _) as [rm3 log2]. discriminate. }
  destruct (process_bar tp1 tp2 runner st row) as [[st1 log1] err].
  destruct err as [e'|]; [exact Hbar|].
  specialize (IH st1).
  destruct (simulate_bars tp1 tp2 runner rest st1) as [[st2 logs] err2]. exact IH.
Qed.


Lemma open_and_record_trades (rm : RM) (side : string) (price stop : Q)
    (ts : Timestamp) (tp1 tp2 runner : Q) :
  (length (bar_trades (open_and_record rm side price stop ts tp1 tp2 runner).2) <= 1)%nat /\
  Forall (stamped ts)
         (bar_trades (open_and_record rm side price stop ts tp1 tp2 runner).2).
Proof.
  unfold open_and_record.
  destruct (open_position rm _ _ _ _ _ _ _) as [rm' [p|]]; simpl;
    split; try lia; repeat constructor.
Qed.

Lemma process_bar_trades (tp1 tp2 runner : Q) (st : SimState) (row : Row) :
  exists closed opened,
    bar_trades (process_bar tp1 tp2 runner st row).1.2 = closed ++ opened /\
    Forall (fun t => is_open_record t = false) closed /\
    Forall (stamped (row_timestamp row)) opened /\
    (length opened <= 2)%nat.
Proof.
  unfold process_bar.
  pose proof (SimulatorProps.day_rollover_quiet (st_manager st) (st_daily_summaries st)
                (st_current_date st) (ts_date (row_timestamp row))) as [[_ Hr] _].
  destruct (day_rollover _ _ _ _) as [[[rm summaries] current_date] log0].
  simpl in Hr.
  pose proof (SimulatorProps.update_positions_quiet (row_close row) (positions rm) rm)
    as [[_ Hu] _].
  destruct (update_positions rm (row_close row) (positions rm)) as [[rm1 log1] err].
  simpl in Hu.
  assert (Hclosed : Forall (fun t => is_open_record t = false)
                           (bar_trades log0 ++ bar_trades log1))
    by (apply Forall_app; auto).
  destruct err as [e|]; simpl.
  - exists (bar_trades log0 ++ bar_trades log1), []. rewrite app_nil_r.
    repeat split; [exact Hclosed | constructor | simpl; lia].
  - destruct (is_daily_breaker_triggered rm1) as [rm2 triggered].
    destruct triggered; simpl.
    + exists (bar_trades log0 ++ bar_trades log1), []. rewrite !app_nil_r.
      repeat split; [exact Hclosed | constructor | simpl; lia].
    + assert (He : Forall (stamped (row_timestamp row))
                     (bar_trades (new_entries rm2 row tp1 tp2 runner).2) /\
                   (length (bar_trades (new_entries rm2 row tp1 tp2 runner).2) <= 2)%nat).
      { unfold new_entries.
        destruct (signal_set (row_final_long row)).
        - pose proof (open_and_record_trades rm2 "buy" (row_close row)
                        (row_close row * 0.98) (row_timestamp row) tp1 tp2 runner)
            as [Hl1 Hs1].
          destruct (open_and_record rm2 "buy" _ _ _ _ _ _) as [rm3 long_log].
          simpl in Hl1, Hs1.
          destruct (signal_set (row_final_short row)).
          + pose proof (open_and_record_trades rm3 "sell" (row_close row)
                          (row_close row * 1.02) (row_timestamp row) tp1 tp2 runner)
              as [Hl2 Hs2].
            destruct (open_and_record rm3 "sell" _ _ _ _ _ _) as [rm4 short_log].
            simpl in *. split; [apply Forall_app; auto | rewrite length_app; lia].
          + simpl. rewrite app_nil_r. split; [exact Hs1 | lia].
        - destruct (signal_set (row_final_short row)).
          + pose proof (open_and_record_trades rm2 "sell" (row_close row)
                          (row_close row * 1.02) (row_timestamp row) tp1 tp2 runner)
              as [Hl2 Hs2].
            destruct (open_and_record rm2 "sell" _ _ _ _ _ _) as [rm4 short_log].
            simpl in *. split; [exact Hs2 | lia].
          + simpl. split; [constructor | lia]. }
      destruct (new_entries rm2 row tp1 tp2 runner) as [rm3 log2].
      simpl in He |- *. destruct He as [Hs Hl].
      exists (bar_trades log0 ++ bar_trades log1), (bar_trades log2).
      rewrite app_nil_r. auto.
Qed.

(** X14. What a bar appends to the ledger is first the trades of its
    closing updates and then at most two 'open' records, each stamped with
    the timestamp of that bar. *)
Theorem bar_appends_closed_trades_then_open_records (rows : list Row)
    (risk_manager : RM) (tp1 tp2 runner : Q) (i : nat) (log : BarLog) :
  bar_logs rows risk_manager tp1 tp2 runner !! i = Some log ->
  exists row closed opened,
    rows !! i = Some row /\
    bar_trades log = closed ++ opened /\
    Forall (fun t => is_open_record t = false) closed /\
    Forall (stamped (row_timestamp row)) opened /\
    (length opened <= 2)%nat.
Proof.
  unfold bar_logs. intros Hlog.
  apply SimulatorProps.simulate_bars_logs in Hlog as (st & row & Hrow & ->).
  destruct (process_bar_trades tp1 tp2 runner st row) as (closed & opened & Htrades).
  exists row, closed, opened. auto.
Qed.

End OneManager.

Import Sample.

Lemma one_daily_summary_per_day_witness :
  exists results,
    _simulate_trading breaker_day risky_manager 1.5 2 3 = Ok results /\
    ds_date <$> res_daily_summaries results = [0%Z; 1%Z].
Proof.
  destruct (_simulate_trading breaker_day risky_manager 1.5 2 3) as [results|e] eqn:Hrun;
    [|vm_compute in Hrun; discriminate Hrun].
  exists results. split; [reflexivity|].
  rewrite (one_daily_summary_per_day breaker_day risky_manager 1.5 2 3 results Hrun).
  reflexivity.
Defined.

Lemma unblocked_bar_opens_what_signals_ask_witness :
  exists row before,
    breaker_day !! 3%nat = Some row /\
    Forall (fun e => @is_open_call data e = false) before /\
    [GetSummary; ResetDaily; BreakerChecked false; OpenPosition "buy" 99 97.02]
    = before ++ BreakerChecked false :: entry_calls row.
Proof.
  exact (unblocked_bar_opens_what_signals_ask breaker_day risky_manager 1.5 2 3 3%nat
           {| bar_events := [GetSummary; ResetDaily; BreakerChecked false;
                             OpenPosition "buy" 99 97.02];
              bar_trades := [OpenRecord 1%nat "SYMBOL" "buy" 99 (1700000000 # 3960000)
                               {| ts_date := 1; ts_time := 0 |}] |}
           ltac:(vm_compute; reflexivity)
           ltac:(do 2 apply list_elem_of_further; apply list_elem_of_here)).
Defined.

Lemma every_listed_position_is_updated_witness :
  length (positions manager_with_a_long) = 1%nat /\
  bar_events (update_positions manager_with_a_long 97 (positions manager_with_a_long)).1.2
  = (fun p => UpdatePosition (pos_id p) 97) <$> positions manager_with_a_long.
Proof.
  split; [vm_compute; reflexivity|].
  apply (@every_listed_position_is_updated data Manager manager
           manager_with_a_long 97 (positions manager_with_a_long)).
  vm_compute. reflexivity.
Defined.


Lemma bar_appends_closed_trades_then_open_records_witness :
  exists row closed opened,
    breaker_day !! 0%nat = Some row /\
    [OpenRecord 0%nat "SYMBOL" "buy" 100 (1000000 # 2000) {| ts_date := 0; ts_time := 0 |}]
    = closed ++ opened /\
    Forall (fun t => @is_open_record data t = false) closed /\
    Forall (stamped (row_timestamp row)) opened /\
    (length opened <= 2)%nat.
Proof.
  exact (bar_appends_closed_trades_then_open_records breaker_day risky_manager 1.5 2 3
           0%nat
           {| bar_events := [BreakerChecked false; OpenPosition "buy" 100 98.00];
              bar_trades := [OpenRecord 0%nat "SYMBOL" "buy" 100 (1000000 # 2000)
                               {| ts_date := 0; ts_time := 0 |}] |}
           ltac:(vm_compute; reflexivity)).
Defined.

Lemma reset_exactly_at_day_boundaries_witness :
  @ResetDaily data
  ∈ [GetSummary; ResetDaily; BreakerChecked false; OpenPosition "buy" 99 97.02].
Proof.
  apply (proj2 (@DayBoundaryProps.reset_exactly_at_day_boundaries data Manager manager
                  breaker_day risky_manager 1.5 2 3 3%nat
                  {| bar_events := [GetSummary; ResetDaily; BreakerChecked false;
                                    OpenPosition "buy" 99 97.02];
                     bar_trades := [@OpenRecord data 1%nat "SYMBOL" "buy" 99
                                      (1700000000 # 3960000)
                                      {| ts_date := 1; ts_time := 0 |}] |}
                  (bar 1 0 99 true false)
                  ltac:(vm_compute; reflexivity) ltac:(reflexivity))).
  exists 2%nat, (bar 0 2 98 true true). repeat split. discriminate.
Defined.

End SimulatorExtras.

(** ** More on the metrics *)

Module MetricsExtras.
Import EnhancedBacktester.

Lemma fold_left_Qplus_acc (xs : list Q) (acc : Q) :
  fold_left Qplus xs acc == acc + sum xs.
Proof.
  unfold sum. revert acc. induction xs as [|x xs IH]; intros acc; simpl; [lra|].
  rewrite (IH (acc + x)), (IH (0 + x)). lra.
Qed.

Lemma sum_cons (x : Q) (xs : list Q) : sum (x :: xs) == x + sum xs.
Proof. unfold sum at 1. simpl. rewrite fold_left_Qplus_acc. lra. Qed.

(** A sum is the sum of its positive terms plus the sum of its negative
    terms. *)
Lemma sum_split_by_sign (xs : list Q) :
  sum xs == sum (filter (fun x => 0 < x) xs) + sum (filter (fun x => x < 0) xs).
Proof.
  induction xs as [|x xs IH]; [reflexivity|].
  rewrite sum_cons, IH. rewrite !filter_cons.
  destruct (decide (0 < x)) as [Hpos|Hnpos]; destruct (decide (x < 0)) as [Hneg|Hnneg];
    rewrite ?sum_cons; try lra.
Qed.

Lemma fold_qmax_bounds (xs : list Q) (first : Q) :
  (forall x, x ∈ first :: xs -> x <= fold_left qmax xs first) /\
  fold_left qmax xs first ∈ first :: xs.
Proof.
  destruct (DrawdownProps.fold_left_qmax_ge xs first) as [Hfirst Hrest].
  split.
  - intros x Hx. apply elem_of_cons in Hx as [->|Hx]; [exact Hfirst|].
    rewrite Forall_forall in Hrest. auto.
  - destruct (DrawdownProps.fold_left_qmax_in xs first) as [->|Hin];
      [apply list_elem_of_here | apply list_elem_of_further; exact Hin].
Qed.

Lemma fold_qmin_bounds (xs : list Q) (first : Q) :
  (forall x, x ∈ first :: xs -> fold_left qmin xs first <= x) /\
  fold_left qmin xs first ∈ first :: xs.
Proof.
  revert first. induction xs as [|y xs IH]; intros first; simpl.
  - split; [|apply list_elem_of_here].
    intros x Hx. apply elem_of_cons in Hx as [->|Hx]; [lra | inversion Hx].
  - destruct (IH (qmin first y)) as [Hle Hin].
    assert (Hq : qmin first y <= first /\ qmin first y <= y /\
                 (qmin first y = first \/ qmin first y = y)).
    { unfold qmin. destruct (Qle_bool first y) eqn:E.
      - apply Qle_bool_iff in E. repeat split; [lra | exact E | auto].
      - apply Qle_bool_false in E. repeat split; [lra | lra | auto]. }
    destruct Hq as (Hq1 & Hq2 & Hq3).
    pose proof (Hle (qmin first y) (list_elem_of_here _ _)) as Hbase.
    split.
    + intros x Hx. apply elem_of_cons in Hx as [->|Hx]; [lra|].
      apply elem_of_cons in Hx as [->|Hx]; [lra|].
      apply Hle. apply list_elem_of_further. exact Hx.
    + apply elem_of_cons in Hin as [Heq|Hin].
      * rewrite Heq. destruct Hq3 as [->| ->];
          [apply list_elem_of_here | apply list_elem_of_further, list_elem_of_here].
      * do 2 apply list_elem_of_further. exact Hin.
Qed.

Section WithData.
Context `{RiskData}.

(** The full dictionary, key by key. *)
Lemma metrics_values (trades : list LedgerEntry) (daily_summaries : list DailySummary)
    (first : Q) (others : list Q) :
  closed_pnls trades = first :: others ->
  _calculate_enhanced_metrics trades daily_summaries !! "total_trades"
    = Some (Fin (of_nat (length (first :: others)))) /\
  _calculate_enhanced_metrics trades daily_summaries !! "win_rate"
    = Some (Fin (of_nat (length (filter (fun pnl => 0 < pnl) (first :: others)))
                 / of_nat (length (first :: others)))) /\
  _calculate_enhanced_metrics trades daily_summaries !! "avg_trade_return"
    = Some (Fin (mean (first :: others))) /\
  _calculate_enhanced_metrics trades daily_summaries !! "best_trade"
    = Some (Fin (fold_left qmax others first)) /\
  _calculate_enhanced_metrics trades daily_summaries !! "worst_trade"
    = Some (Fin (fold_left qmin others first)).
Proof.
  intros Hclosed. unfold _calculate_enhanced_metrics. unfold closed_pnls in Hclosed.
  destruct trades as [|t trades]; [discriminate Hclosed|].
  rewrite Hclosed.
  unfold list_to_map. cbn [foldr uncurry fst snd].
  repeat split; by simplify_map_eq.
Qed.





(** X19. While every daily equity is positive, the reported max_drawdown
    lies in (-1, 0]: it is never a loss of the whole account.  It is 0
    exactly when the equity never falls below an earlier day's equity; with
    no daily summary at all it is 0 as well. *)
Theorem max_drawdown_of_positive_equity (trades : list LedgerEntry)
    (daily_summaries : list DailySummary) :
  closed_pnls trades <> [] ->
  (forall e, e ∈ equity_curve_of daily_summaries -> 0 < e) ->
  exists m,
    _calculate_enhanced_metrics trades daily_summaries !! "max_drawdown" = Some (Fin m) /\
    -1 < m <= 0 /\
    (m == 0 <->
     forall i j ei ej, (i <= j)%nat ->
       equity_curve_of daily_summaries !! i = Some ei ->
       equity_curve_of daily_summaries !! j = Some ej -> ei <= ej).
Proof.
  intros Hclosed Hpositive.
  destruct (MetricsProps.metrics_full trades daily_summaries Hclosed) as (_ & _ & _ & Hdd).
  destruct daily_summaries as [|d0 rest] eqn:Hds.
  { exists 0. split; [exact Hdd|]. split; [lra|]. split; [|reflexivity].
    intros _ i j ei ej _ Hi.
    change (equity_curve_of []) with (@nil Q) in Hi.
    rewrite lookup_nil in Hi. discriminate Hi. }
  rewrite <- Hds in *. fold (equity_curve_of daily_summaries) in Hdd.
  assert (Hdd' : _calculate_enhanced_metrics trades daily_summaries !! "max_drawdown"
                 = Some (max_drawdown_of (equity_curve_of daily_summaries))).
  { rewrite Hdd, Hds. reflexivity. }
  clear Hdd.
  set (curve := equity_curve_of daily_summaries) in *.
  assert (Hne : curve <> []).
  { unfold curve, equity_curve_of. rewrite Hds. discriminate. }
  assert (Hpeak : forall i, (i < length curve)%nat -> 0 < running_peak curve i).
  { intros i Hi.
    destruct (DrawdownProps.running_peak_is_largest curve i Hi) as [_ (j & _ & Hj)].
    apply Hpositive. apply list_elem_of_lookup. exists j. exact Hj. }
  destruct (DrawdownProps.max_drawdown_of_minimum curve Hne) as (m & Hm & Hle & Hall & Hat).
  { intros i Hi. pose proof (Hpeak i Hi). lra. }
  exists m. split; [rewrite Hdd', Hm; reflexivity|].
  destruct Hat as (i & e & He & Heq).
  assert (Hi : (i < length curve)%nat) by (eapply lookup_lt_Some; exact He).
  split; [split; [|exact Hle]|].
  - rewrite Heq. unfold drawdown_at. apply Qlt_shift_div_l; [apply Hpeak; exact Hi|].
    assert (0 < e) by (apply Hpositive, list_elem_of_lookup; exists i; exact He). lra.
  - split.
    + intros Hzero a b ea eb Hab Ha Hb.
      assert (Hb' : (b < length curve)%nat) by (eapply lookup_lt_Some; exact Hb).
      destruct (DrawdownProps.running_peak_is_largest curve b Hb') as [Hlargest _].
      pose proof (Hlargest a ea Hab Ha) as Hea.
      pose proof (Hall b eb Hb) as Hdraw. unfold drawdown_at in Hdraw.
      rewrite Hzero in Hdraw.
      pose proof (Hpeak b Hb') as Hpos.
      assert (Hnum : 0 <= eb - running_peak curve b).
      { apply (Qmult_le_r _ _ (running_peak curve b)) in Hdraw; [|exact Hpos].
        assert (Hcancel : (eb - running_peak curve b) / running_peak curve b
                          * running_peak curve b == eb - running_peak curve b)
          by (field; lra).
        lra. }
      lra.
    + intros Hrising. rewrite Heq. unfold drawdown_at.
      destruct (DrawdownProps.running_peak_is_largest curve i Hi) as [Hlargest (j & Hj & Hjp)].
      pose proof (Hrising j i _ _ Hj Hjp He) as Hge.
      pose proof (Hlargest i e ltac:(lia) He) as Hle'.
      pose proof (Hpeak i Hi) as Hpos.
      assert (Hnum : e - running_peak curve i == 0) by lra.
      rewrite Hnum. field. lra.
Qed.

End WithData.




(** Scenario C dips from 10500 to 9800: the drawdown is negative, and
    above -1. *)
Lemma max_drawdown_of_positive_equity_witness :
  exists m,
    _calculate_enhanced_metrics Sample.win_loss_ledger Sample.scenario_c !! "max_drawdown"
      = Some (Fin m) /\ -1 < m <= 0 /\ ~ m == 0.
Proof.
  destruct (max_drawdown_of_positive_equity Sample.win_loss_ledger Sample.scenario_c)
    as (m & Hm & Hbounds & Hzero).
  - discriminate.
  - intros e He. vm_compute in He.
    repeat (apply elem_of_cons in He as [-> | He]; [reflexivity|]).
    inversion He.
  - exists m. split; [exact Hm|]. split; [exact Hbounds|].
    intros Heq. pose proof (proj1 Hzero Heq) as Hrising.
    assert (Hdip : 10500 <= 9800).
    { apply (Hrising 1%nat 2%nat); [lia | reflexivity | reflexivity]. }
    revert Hdip. unfold Qle. simpl. lia.
Defined.

End MetricsExtras.

(** ** The backtest run *)

Module BacktestExtras.
Import EnhancedBacktester WeightedSignalGenerator.

(** All three branches of [_detect_data_source] return the same source. *)
Lemma detect_is_always_yfinance (symbol : string) :
  _detect_data_source symbol = "yfinance".
Proof.
  unfold _detect_data_source.
  destruct (existsb _ _); [reflexivity|]. destruct (_ && _); reflexivity.
Qed.

Lemma day_runs_nonempty (dates : list Z) : dates <> [] -> day_runs dates <> [].
Proof.
  induction dates as [|d rest IH]; [congruence|]. intros _.
  destruct rest as [|next rest]; [discriminate|].
  rewrite SimulatorExtras.day_runs_cons.
  intros Hnil. apply app_eq_nil in Hnil as [_ Hnil].
  apply IH in Hnil; [exact Hnil | discriminate].
Qed.

Section WithMarket.
Context `{Indicators} `{MarketData} `{RiskData}.
Context (RM : Type) `{!AdvancedRiskManager RM}.

Lemma fetch_yfinance_ok (symbol timeframe start_date end_date : string) :
  match _fetch_yfinance_data symbol timeframe start_date end_date with
  | Ok df => df_empty df = false /\
             yfinance_history symbol start_date end_date
               (_convert_timeframe_to_yfinance timeframe) = Ok df
  | Raise e => exists msg, e = ValueError msg
  end.
Proof.
  unfold _fetch_yfinance_data.
  destruct (yfinance_history _ _ _ _) as [df|e]; [|eauto].
  destruct (df_empty df) eqn:Hempty; [eauto | auto].
Qed.

Lemma fetch_ok (symbol timeframe start_date end_date source : string) :
  match fetch_historical_data symbol timeframe start_date end_date source with
  | Ok df => df_empty df = false /\
             yfinance_history symbol start_date end_date
               (_convert_timeframe_to_yfinance timeframe) = Ok df
  | Raise e => exists msg, e = ValueError msg
  end.
Proof.
  pose proof (fetch_yfinance_ok symbol timeframe start_date end_date) as Hyf.
  unfold fetch_historical_data, _fetch_alpaca_data, _fetch_crypto_data.
  rewrite detect_is_always_yfinance.
  destruct (String.eqb source "auto"); [exact Hyf|].
  destruct (String.eqb source "yfinance"); [exact Hyf|].
  destruct (String.eqb source "alpaca"); [exact Hyf|].
  case_bool_decide; [exact Hyf | eauto].
Qed.

(** X20. Every source the class lists - 'auto', the stock sources and the
    crypto exchanges - is read from yfinance, whatever the symbol looks
    like; any other source raises the unsupported-source [ValueError]
    and no data is requested. *)
Theorem every_listed_source_reads_yfinance
    (symbol timeframe start_date end_date source : string) :
  (source ∈ "auto" :: stock_sources ++ crypto_exchanges ->
   fetch_historical_data symbol timeframe start_date end_date source
   = _fetch_yfinance_data symbol timeframe start_date end_date) /\
  (source ∉ "auto" :: stock_sources ++ crypto_exchanges ->
   fetch_historical_data symbol timeframe start_date end_date source
   = Raise (ValueError "Unsupported data source")).
Proof.
  unfold fetch_historical_data, _fetch_alpaca_data, _fetch_crypto_data.
  rewrite detect_is_always_yfinance.
  destruct (String.eqb_spec source "auto") as [->|Hauto].
  { split; [reflexivity|]. intros Hnot. contradiction Hnot. apply list_elem_of_here. }
  destruct (String.eqb_spec source "yfinance") as [->|Hyf].
  { split; [reflexivity|]. intros Hnot. contradiction Hnot.
    apply (bool_decide_unpack _). vm_compute. exact I. }
  destruct (String.eqb_spec source "alpaca") as [->|Halpaca].
  { split; [reflexivity|]. intros Hnot. contradiction Hnot.
    apply (bool_decide_unpack _). vm_compute. exact I. }
  case_bool_decide as Hcrypto.
  - split; [reflexivity|]. intros Hnot. contradiction Hnot.
    apply list_elem_of_further, elem_of_app. right. exact Hcrypto.
  - split; [|reflexivity]. intros Hin.
    apply elem_of_cons in Hin as [->|Hin]; [congruence|].
    apply elem_of_app in Hin as [Hin|Hin]; [|contradiction].
    unfold stock_sources in Hin.
    apply elem_of_cons in Hin as [->|Hin]; [congruence|].
    apply elem_of_cons in Hin as [->|Hin]; [congruence|].
    inversion Hin.
Qed.

(** X21. [fetch_historical_data] either returns the frame yfinance gave
    for the converted interval, and that frame has rows, or raises a
    [ValueError].  So the empty-frame check of [run_enhanced_backtest]
    never fires: the run is the run without it. *)
Theorem fetched_frame_is_never_empty
    (symbol timeframe start_date end_date source : string) :
  match fetch_historical_data symbol timeframe start_date end_date source with
  | Ok df => (0 < index df)%nat /\
             yfinance_history symbol start_date end_date
               (_convert_timeframe_to_yfinance timeframe) = Ok df
  | Raise e => exists msg, e = ValueError msg
  end /\
  forall args : BacktestArgs,
    data_source args = source ->
    run_enhanced_backtest RM symbol timeframe start_date end_date args
    = if negb (validate_timeframe timeframe) then Raise (ValueError "Unsupported timeframe")
      else df ← fetch_historical_data symbol timeframe start_date end_date source;
           backtest_frame RM symbol timeframe start_date end_date args df.
Proof.
  pose proof (fetch_ok symbol timeframe start_date end_date source) as Hfetch.
  split.
  - destruct (fetch_historical_data _ _ _ _ _) as [df|e]; [|exact Hfetch].
    destruct Hfetch as [Hempty Hyf]. split; [|exact Hyf].
    unfold df_empty in Hempty. apply Nat.eqb_neq in Hempty. lia.
  - intros args Hsource. subst source. unfold run_enhanced_backtest.
    destruct (negb _); [reflexivity|].
    destruct (fetch_historical_data _ _ _ _ _) as [df|e]; [|reflexivity].
    cbn [mbind result_bind]. destruct Hfetch as [-> _]. reflexivity.
Qed.

Lemma momentum_length (df : DataFrame) (lookback : Z) (bs_sig : list pyfloat) :
  df_wf df ->
  generate_buy_sell_signal df "close" lookback = Ok bs_sig ->
  length bs_sig = index df.
Proof.
  intros [_ Hwf] Hgen. unfold generate_buy_sell_signal in Hgen.
  apply bind_ok in Hgen as (price & Hprice & Hgen).
  apply bind_ok in Hgen as (sma_short & Hshort & Hgen).
  apply bind_ok in Hgen as (sma_long & Hlong & Hgen).
  injection Hgen as <-.
  unfold getitem in Hprice.
  destruct (columns df !! "close") as [s|] eqn:Hclose; [|discriminate Hprice].
  injection Hprice as ->.
  pose proof (Hwf _ _ Hclose) as Hlen.
  unfold rolling in Hshort, Hlong. simpl in Hshort. injection Hshort as <-.
  destruct (lookback <? 0)%Z; [discriminate Hlong|].
  destruct (lookback =? 0)%Z; [discriminate Hlong|]. injection Hlong as <-.
  apply zip_with3_length; rewrite ?SignalTotality.rolling_mean_length; exact Hlen.
Qed.

(** X22. A backtest that returns ran on a supported timeframe, over the
    non-empty frame yfinance gave for the converted interval.  If that
    frame is well formed, each of the six signal columns has one value per
    bar, the daily summaries are one per day of the frame's timestamps, in
    order, with at least one of them, and the reported metrics are the
    metrics of the reported trades and daily summaries. *)
Theorem successful_backtest_covers_the_frame
    (symbol timeframe start_date end_date : string) (args : BacktestArgs)
    (r : BacktestResult) :
  run_enhanced_backtest RM symbol timeframe start_date end_date args = Ok r ->
  df_wf (bt_df r) ->
  validate_timeframe timeframe = true /\
  yfinance_history symbol start_date end_date (_convert_timeframe_to_yfinance timeframe)
    = Ok (bt_df r) /\
  (0 < index (bt_df r))%nat /\
  (length (rsi_signal (bt_signals r)) = index (bt_df r) /\
   length (wavetrend_signal (bt_signals r)) = index (bt_df r) /\
   length (buy_sell_signal (bt_signals r)) = index (bt_df r) /\
   length (weighted_signal (bt_signals r)) = index (bt_df r) /\
   length (final_long (bt_signals r)) = index (bt_df r) /\
   length (final_short (bt_signals r)) = index (bt_df r)) /\
  ds_date <$> bt_daily_summaries r = day_runs (ts_date <$> timestamp (bt_df r)) /\
  bt_daily_summaries r <> [] /\
  bt_metrics r = _calculate_enhanced_metrics (bt_trades r) (bt_daily_summaries r).
Proof.
  intros Hrun Hwf. unfold run_enhanced_backtest in Hrun.
  destruct (validate_timeframe timeframe); [|discriminate Hrun]. simpl negb in Hrun.
  cbv iota in Hrun.
  apply bind_ok in Hrun as (df & Hfetch & Hrun).
  pose proof (fetch_ok symbol timeframe start_date end_date (data_source args)) as Hshape.
  rewrite Hfetch in Hshape. destruct Hshape as [Hempty Hyf].
  rewrite Hempty in Hrun. unfold backtest_frame in Hrun.
  apply bind_ok in Hrun as (generator & _ & Hrun).
  apply bind_ok in Hrun as (sigs & Hsigs & Hrun).
  apply bind_ok in Hrun as (rows & Hrows & Hrun).
  apply bind_ok in Hrun as (results & Hsim & Hrun).
  injection Hrun as <-. simpl in *.
  assert (Hindex : (0 < index df)%nat).
  { unfold df_empty in Hempty. apply Nat.eqb_neq in Hempty. lia. }
  apply SignalProps.generate_weighted_signal_ok in Hsigs
    as (Hrsi & Hwt & Hbs & Hweighted & Hlong & Hshort).
  assert (Lrsi : length (rsi_signal sigs) = index df).
  { unfold generate_rsi_signal in Hrsi. apply bind_ok in Hrsi as (close & _ & Hrsi).
    apply series_with_index_ok in Hrsi as [-> Hlen]. exact Hlen. }
  assert (Lwt : length (wavetrend_signal sigs) = index df).
  { unfold generate_wavetrend_signal in Hwt. apply bind_ok in Hwt as (src & _ & Hwt).
    apply series_with_index_ok in Hwt as [-> Hlen]. exact Hlen. }
  assert (Lbs : length (buy_sell_signal sigs) = index df)
    by (eapply momentum_length; eassumption).
  assert (Lweighted : length (weighted_signal sigs) = index df)
    by (rewrite Hweighted; apply zip_with3_length; assumption).
  assert (Llong : length (final_long sigs) = index df)
    by (rewrite Hlong, length_fmap; exact Lweighted).
  assert (Lshort : length (final_short sigs) = index df)
    by (rewrite Hshort, length_fmap; exact Lweighted).
  assert (Hdates : bar_date <$> rows = ts_date <$> timestamp df).
  { unfold frame_rows in Hrows. apply bind_ok in Hrows as (close & Hclose & Hrows).
    injection Hrows as <-.
    unfold getitem in Hclose.
    destruct (columns df !! "close") as [s|] eqn:Hcol; [|discriminate Hclose].
    injection Hclose as ->. destruct Hwf as [Hts Hcols].
    pose proof (Hcols _ _ Hcol) as Lclose.
    assert (Lzip : length (zip (final_long sigs) (final_short sigs)) = index df)
      by (rewrite length_zip; lia).
    revert Lclose Hts Lzip. generalize (index df) as n.
    generalize (zip (final_long sigs) (final_short sigs)) as flags.
    generalize (timestamp df) as stamps. clear.
    induction close as [|c close IH]; intros [|ts stamps] [|[l s] flags] n; simpl;
      try reflexivity; try (intros; lia).
    intros <- [= Hs] [= Hf]. unfold bar_date at 1. simpl. f_equal.
    apply (IH stamps flags (length close)); [reflexivity | exact Hs | exact Hf]. }
  pose proof (SimulatorExtras.simulate_trading_summary_dates _ _ _ _ _ _ Hsim) as Hdays.
  rewrite Hdates in Hdays.
  repeat split; try assumption; try reflexivity.
  intros Hnil. rewrite Hnil in Hdays. symmetry in Hdays.
  apply day_runs_nonempty in Hdays; [exact Hdays|].
  destruct Hwf as [Hts _]. destruct (timestamp df); [simpl in Hts; lia | discriminate].
Qed.

End WithMarket.

Lemma four_bars_well_formed : df_wf Sample.four_bars.
Proof.
  split; [reflexivity|]. intros k s Hk.
  assert (Hall : map_Forall (fun (_ : string) (s : list Q) => List.length s = 4%nat)
                            (columns Sample.four_bars))
    by (apply (bool_decide_unpack _); vm_compute; exact I).
  exact (map_Forall_lookup_1 _ _ _ _ Hall Hk).
Qed.

(** A daily backtest on the sample market: four bars on four days, so
    four values per signal column and four daily summaries. *)
Lemma successful_backtest_covers_the_frame_witness :
  exists r,
    @run_enhanced_backtest price_indicators Sample.market Sample.data
      Sample.Manager Sample.manager "AAPL" "1d" "2024-01-01" "2024-01-05" default_args
    = Ok r /\
    df_wf (bt_df r) /\
    index (bt_df r) = 4%nat /\
    length (final_long (bt_signals r)) = 4%nat /\
    length (final_short (bt_signals r)) = 4%nat /\
    ds_date <$> bt_daily_summaries r = [0; 1; 2; 3]%Z /\
    bt_metrics r = _calculate_enhanced_metrics (bt_trades r) (bt_daily_summaries r).
Proof.
  assert (Hr : exists r,
    @run_enhanced_backtest price_indicators Sample.market Sample.data
      Sample.Manager Sample.manager "AAPL" "1d" "2024-01-01" "2024-01-05" default_args
    = Ok r) by (eexists; vm_compute; reflexivity).
  destruct Hr as [r Hrun].
  assert (Hdf : bt_df r = Sample.four_bars).
  { pose proof Hrun as Hvalue. vm_compute in Hvalue. injection Hvalue as <-.
    vm_compute. reflexivity. }
  assert (Hwf : df_wf (bt_df r)) by (rewrite Hdf; apply four_bars_well_formed).
  destruct (@successful_backtest_covers_the_frame price_indicators Sample.market
              Sample.data Sample.Manager Sample.manager
              "AAPL" "1d" "2024-01-01" "2024-01-05" default_args r Hrun Hwf)
    as (_ & _ & _ & (_ & _ & _ & _ & Hlong & Hshort) & Hdays & _ & Hmetrics).
  exists r. rewrite Hdf in Hlong, Hshort, Hdays.
  split; [exact Hrun|]. split; [exact Hwf|]. split; [rewrite Hdf; reflexivity|].
  split; [exact Hlong|]. split; [exact Hshort|]. split; [exact Hdays | exact Hmetrics].
Defined.

End BacktestExtras.
